(** * Ion_source.py: response parsing, gauge protocol, interlock and
      timed beam sequence

    A shallow embedding of [Ion_source.py].  Python text is a [string]
    whose characters are the code points U+0000 to U+00FF, Python floats
    are IEEE 754 binary64 values ([spec_float] with precision 53 and
    maximal exponent 1024), a Reading is a finite map from field names
    to Python values, and the module's globals, the two serial ports and
    the widgets the callbacks touch form one explicit [World] threaded
    through a state-and-exception monad. *)

From Stdlib Require Import ZArith Ascii SpecFloat.
From stdpp Require Import gmap strings list pretty.

Open Scope Z_scope.

(** ** Python values *)

Abbreviation float := spec_float (only parsing).

Definition prec : Z := 53.
Definition emax : Z := 1024.

(** The float nearest to [m * 10 ^ e10] (ties to even), with the sign
    [neg]; [m] is nonnegative.  This is what a decimal literal and
    [float(str)] denote. *)
Definition float_of_decimal (neg : bool) (m e10 : Z) : float :=
  match m with
  | Z0 => S754_zero neg
  | _ =>
    if 0 <=? e10 then
      binary_normalize prec emax
        (if neg then - (m * 10 ^ e10) else m * 10 ^ e10) 0 neg
    else
      let '(q, e, l) := SFdiv_core_binary prec emax m 0 (10 ^ (- e10)) 0 in
      binary_round_aux prec emax neg q e l
  end.

Definition float_zero : float := S754_zero false.

(** Python's [<=] on floats. *)
Definition float_le (x y : float) : bool := SFleb x y.

Inductive pyval :=
| VFloat (f : float)
| VInt (z : Z)
| VStr (s : string).

Inductive exn :=
| NameError
| TypeError
| ValueError
| IndexError
| KeyError
| AttributeError
| UnicodeDecodeError
| SerialException.

(** ** String methods and conversions of the interpreter *)

Definition code (c : ascii) : N := N_of_ascii c.

(** [str.isspace] on one character, which is also what [str.strip()]
    removes: TAB to CR, FS to US, space, NEL and NBSP. *)
Definition isspace (c : ascii) : bool :=
  let n := code c in
  ((9 <=? n) && (n <=? 13) || (28 <=? n) && (n <=? 31)
   || (n =? 32) || (n =? 133) || (n =? 160))%N.

(** The white space [float()] and [int()] skip at both ends of their
    argument; FS to US are not part of it. *)
Definition isspace_num (c : ascii) : bool :=
  let n := code c in
  ((9 <=? n) && (n <=? 13) || (n =? 32) || (n =? 133) || (n =? 160))%N.

Definition digit_val (c : ascii) : option Z :=
  let n := code c in
  if ((48 <=? n) && (n <=? 57))%N then Some (Z.of_N n - 48) else None.

(** [str.isdigit] on one character: the decimal digits and the
    superscripts two, three and one, which [int()] rejects. *)
Definition isdigit_char (c : ascii) : bool :=
  let n := code c in
  ((48 <=? n) && (n <=? 57) || (n =? 178) || (n =? 179) || (n =? 185))%N.

Fixpoint str_all (p : ascii -> bool) (s : string) : bool :=
  match s with
  | EmptyString => true
  | String c s' => p c && str_all p s'
  end.

Definition nonempty (s : string) : bool :=
  match s with EmptyString => false | _ => true end.

(** [s.isdigit()] *)
Definition isdigit (s : string) : bool := nonempty s && str_all isdigit_char s.

(** [s.replace(c, '')] for a one-character [c] *)
Fixpoint remove_char (c : ascii) (s : string) : string :=
  match s with
  | EmptyString => EmptyString
  | String d s' =>
    if Ascii.eqb c d then remove_char c s' else String d (remove_char c s')
  end.

Fixpoint lstrip_by (p : ascii -> bool) (s : string) : string :=
  match s with
  | EmptyString => EmptyString
  | String c s' => if p c then lstrip_by p s' else s
  end.

Fixpoint rstrip_by (p : ascii -> bool) (s : string) : string :=
  match s with
  | EmptyString => EmptyString
  | String c s' =>
    match rstrip_by p s' with
    | EmptyString => if p c then EmptyString else String c EmptyString
    | r => String c r
    end
  end.

(** [s.strip()] *)
Definition strip (s : string) : string := rstrip_by isspace (lstrip_by isspace s).

(** [s.startswith(p)] *)
Fixpoint startswith (p s : string) : bool :=
  match p, s with
  | EmptyString, _ => true
  | String a p', String b s' => Ascii.eqb a b && startswith p' s'
  | String _ _, EmptyString => false
  end.

(** [s[n:]] *)
Fixpoint str_drop (n : nat) (s : string) : string :=
  match n, s with
  | O, _ => s
  | S n', String _ s' => str_drop n' s'
  | S _, EmptyString => EmptyString
  end.

(** [s.split(c)] for a one-character separator: empty fields are kept
    and the empty string has the one field [''] *)
Fixpoint split (c : ascii) (s : string) : list string :=
  match s with
  | EmptyString => [EmptyString]
  | String d s' =>
    if Ascii.eqb c d then EmptyString :: split c s'
    else match split c s' with
         | f :: fs => String d f :: fs
         | [] => [String d EmptyString]
         end
  end.

(** [s.index(c)]: the position of the first [c]; [None] stands for the
    ValueError of a missing [c]. *)
Fixpoint str_index (c : ascii) (s : string) : option nat :=
  match s with
  | EmptyString => None
  | String d s' => if Ascii.eqb c d then Some O else S <$> str_index c s'
  end.

Definition lower_char (c : ascii) : ascii :=
  let n := code c in
  if ((65 <=? n) && (n <=? 90))%N then ascii_of_N (n + 32) else c.

Fixpoint lower (s : string) : string :=
  match s with
  | EmptyString => EmptyString
  | String c s' => String (lower_char c) (lower s')
  end.

(** The rest of a run of digits in which single underscores may separate
    digits: the value read so far, the number of digits, and what
    follows the run. *)
Fixpoint digits_tail (acc : Z) (cnt : nat) (s : string) : Z * nat * string :=
  match s with
  | EmptyString => (acc, cnt, s)
  | String c s' =>
    match digit_val c with
    | Some d => digits_tail (10 * acc + d) (S cnt) s'
    | None =>
      if Ascii.eqb c "_" then
        match s' with
        | String c2 s'' =>
          match digit_val c2 with
          | Some d => digits_tail (10 * acc + d) (S cnt) s''
          | None => (acc, cnt, s)
          end
        | EmptyString => (acc, cnt, s)
        end
      else (acc, cnt, s)
    end
  end.

(** A digit part [digit (["_"] digit)*]; [None] when [s] does not begin
    with a digit. *)
Definition digitpart (s : string) : option (Z * nat * string) :=
  match s with
  | String c s' =>
    match digit_val c with
    | Some d => Some (digits_tail d 1%nat s')
    | None => None
    end
  | EmptyString => None
  end.

(** An optional sign: whether it is a minus, and the rest. *)
Definition sign (s : string) : bool * string :=
  match s with
  | String c s' =>
    if Ascii.eqb c "-" then (true, s')
    else if Ascii.eqb c "+" then (false, s')
    else (false, s)
  | EmptyString => (false, s)
  end.

Definition strip_num (s : string) : string :=
  rstrip_by isspace_num (lstrip_by isspace_num s).

(** The exponent part of a float literal that follows the mantissa:
    nothing, or [e] or [E], an optional sign and a digit part.  [None]
    when anything else is left. *)
Definition exponent (s : string) : option Z :=
  match s with
  | EmptyString => Some 0
  | String c s' =>
    if Ascii.eqb (lower_char c) "e" then
      let '(neg, s1) := sign s' in
      match digitpart s1 with
      | Some (e, _, EmptyString) => Some (if neg then - e else e)
      | _ => None
      end
    else None
  end.

(** [float(s)] for a string [s]; [None] stands for ValueError. *)
Definition py_float (s : string) : option float :=
  let '(neg, body) := sign (strip_num s) in
  let word := lower body in
  if String.eqb word "inf" || String.eqb word "infinity" then
    Some (S754_infinity neg)
  else if String.eqb word "nan" then Some S754_nan
  else
    let '(ip, ilen, s1) :=
      match digitpart body with
      | Some r => r
      | None => (0, O, body)
      end in
    let '(fp, flen, s2) :=
      match s1 with
      | String c s1' =>
        if Ascii.eqb c "." then
          match digitpart s1' with
          | Some r => r
          | None => (0, O, s1')
          end
        else (0, O, s1)
      | EmptyString => (0, O, s1)
      end in
    match ilen, flen with
    | O, O => None
    | _, _ =>
      match exponent s2 with
      | Some e =>
        Some (float_of_decimal neg (ip * 10 ^ Z.of_nat flen + fp)
                (e - Z.of_nat flen))
      | None => None
      end
    end.

(** The interpreter's default limit on the digits of a decimal string
    that [int()] converts. *)
Definition int_max_str_digits : nat := 4300.

(** [int(s)] for a string [s]; [None] stands for ValueError. *)
Definition py_int (s : string) : option Z :=
  let '(neg, body) := sign (strip_num s) in
  match digitpart body with
  | Some (n, cnt, EmptyString) =>
    if (cnt <=? int_max_str_digits)%nat then Some (if neg then - n else n)
    else None
  | _ => None
  end.

(** ** The Reading parsers *)

(** The nested helper of [parse_reading]: a leading exponent marker gets
    the digit 1 in front, and a string that is no number gives 0.0. *)
Definition safe_float (value : string) : float :=
  let value :=
    if startswith "E" value || startswith "e" value then "1" +:+ value
    else value in
  match py_float value with
  | Some f => f
  | None => float_zero
  end.

(** The local [cleaned_data] of [parse_reading] at the point of the
    split. *)
Definition cleaned_data (data : string) : string :=
  let cleaned :=
    strip (remove_char " " (remove_char "004" (remove_char "013"
             (remove_char "010" data)))) in
  if startswith "RC" cleaned then strip (str_drop 2 cleaned) else cleaned.

(** The local [values] of [parse_reading]. *)
Definition rc_values (data : string) : list string :=
  split "," (cleaned_data data).

(** The keys of the eleven float fields, by position. *)
Definition float_keys : list string :=
  [ "Cathode Current (A)"; "Discharge Current (A)"; "Discharge Voltage (V)";
    "Beam Current (mA)"; "Beam Voltage (V)"; "Accelerator Current (mA)";
    "Accelerator Voltage (V)"; "Emission Current (mA)";
    "Neutralizer Filament Current (A)"; "HC Keeper Voltage (V)";
    "HCN Keeper Voltage (V)" ].

(** [safe_float(values[i]) if len(values) > i else 0.0]; in the option
    monad [None] is a raised IndexError or ValueError. *)
Definition float_entry (values : list string) (i : nat) : option pyval :=
  if bool_decide (i < length values)%nat then
    v ← values !! i; Some (VFloat (safe_float v))
  else Some (VFloat float_zero).

(** [int(values[11]) if len(values) > 11 and values[11].isdigit() else 0] *)
Definition fatal_entry (values : list string) : option pyval :=
  guard ← (if bool_decide (11 < length values)%nat
           then isdigit <$> values !! 11%nat else Some false);
  if guard : bool then v ← values !! 11%nat; VInt <$> py_int v
  else Some (VInt 0).

(** [int(values[12]) if len(values) > 12 and values[12] else "Unknown"] *)
Definition mode_entry (values : list string) : option pyval :=
  guard ← (if bool_decide (12 < length values)%nat
           then nonempty <$> values !! 12%nat else Some false);
  if guard : bool then v ← values !! 12%nat; VInt <$> py_int v
  else Some (VStr "Unknown").

(** [parse_reading(data)]: the dictionary, or [None] where the function
    returns None from its handler of IndexError and ValueError. *)
Definition parse_reading (data : string) : option (gmap string pyval) :=
  let values := rc_values data in
  cathode_current ← float_entry values 0;
  discharge_current ← float_entry values 1;
  discharge_voltage ← float_entry values 2;
  beam_current ← float_entry values 3;
  beam_voltage ← float_entry values 4;
  accelerator_current ← float_entry values 5;
  accelerator_voltage ← float_entry values 6;
  emission_current ← float_entry values 7;
  neutralizer_filament_current ← float_entry values 8;
  hc_keeper_voltage ← float_entry values 9;
  hcn_keeper_voltage ← float_entry values 10;
  fatal_error_code ← fatal_entry values;
  power_supply_mode ← mode_entry values;
  Some (list_to_map
    [ ("Cathode Current (A)", cathode_current);
      ("Discharge Current (A)", discharge_current);
      ("Discharge Voltage (V)", discharge_voltage);
      ("Beam Current (mA)", beam_current);
      ("Beam Voltage (V)", beam_voltage);
      ("Accelerator Current (mA)", accelerator_current);
      ("Accelerator Voltage (V)", accelerator_voltage);
      ("Emission Current (mA)", emission_current);
      ("Neutralizer Filament Current (A)", neutralizer_filament_current);
      ("HC Keeper Voltage (V)", hc_keeper_voltage);
      ("HCN Keeper Voltage (V)", hcn_keeper_voltage);
      ("Fatal Error Code", fatal_error_code);
      ("Power Supply Mode", power_supply_mode) ]).

(** The local [values] of [parse_rh_reading]. *)
Definition rh_values (data : string) : list string := split " " (strip data).

(** [parse_rh_reading(data)], with [None] as for [parse_reading]. *)
Definition parse_rh_reading (data : string) : option (gmap string pyval) :=
  let values := rh_values data in
  time_values ← split ":" <$> values !! 0%nat;
  cathode_filament_current ← values !! 1%nat ≫= py_float;
  discharge_current ← values !! 2%nat ≫= py_float;
  discharge_voltage ← values !! 3%nat ≫= py_float;
  beam_current ← values !! 4%nat ≫= py_int;
  beam_voltage ← values !! 5%nat ≫= py_int;
  accelerator_voltage ← values !! 6%nat ≫= py_int;
  accelerator_current ← values !! 7%nat ≫= py_int;
  emission_current ← values !! 8%nat ≫= py_int;
  neutralizer_filament_current ← values !! 9%nat ≫= py_float;
  hr ← time_values !! 0%nat;
  mi ← time_values !! 1%nat;
  sec ← time_values !! 2%nat;
  Some (list_to_map
    [ ("Time (Hr:Min:Sec)", VStr (hr +:+ ":" +:+ mi +:+ ":" +:+ sec));
      ("Cathode Filament Current (A)", VFloat cathode_filament_current);
      ("Discharge Current (A)", VFloat discharge_current);
      ("Discharge Voltage (V)", VFloat discharge_voltage);
      ("Beam Current (mA)", VInt beam_current);
      ("Beam Voltage (V)", VInt beam_voltage);
      ("Accelerator Voltage (V)", VInt accelerator_voltage);
      ("Accelerator Current (mA)", VInt accelerator_current);
      ("Emission Current (mA)", VInt emission_current);
      ("Neutralizer Filament Current (A)", VFloat neutralizer_filament_current) ]).

(** ** The serial ports

    What a port will deliver is a script of the environment: each read
    takes the next event.  A port remembers what was written to it. *)

Inductive rx_event :=
| RxText (s : string)   (* bytes that are the UTF-8 encoding of [s] *)
| RxGarbage             (* bytes that are not UTF-8 *)
| RxFault.              (* the read raises SerialException *)

(** The bytes a read returns. *)
Inductive rx_bytes :=
| BText (s : string)
| BGarbage.

Record Serial := {
  is_open : bool;
  written : list string;
  incoming : list rx_event;
}.

(** [port.write(b)]: a closed port raises, an open one takes the bytes. *)
Definition port_write (b : string) (p : Serial) : exn + Serial :=
  if is_open p then
    inr {| is_open := true; written := written p ++ [b]; incoming := incoming p |}
  else inl SerialException.

(** [port.read_all()] and [port.read_until(..)]: the next event of the
    script, nothing when the script is over. *)
Definition port_read (p : Serial) : (exn + rx_bytes) * Serial :=
  if is_open p then
    match incoming p with
    | [] => (inr (BText ""), p)
    | ev :: rest =>
      let p' := {| is_open := true; written := written p; incoming := rest |} in
      match ev with
      | RxText s => (inr (BText s), p')
      | RxGarbage => (inr BGarbage, p')
      | RxFault => (inl SerialException, p')
      end
    end
  else (inl SerialException, p).

Record MaxiGauge := { connection : option Serial }.

(** ** The program state *)

Inductive widget_state := NORMAL | DISABLED.

(** The content of the read-only pressure entry: a fixed text, or a float
    shown with the format [.3e]. *)
Inductive entry_text :=
| Text (s : string)
| Scientific (f : float).

Inductive dialog_kind := ShowInfo | ShowWarning | ShowError.

(** A message box: its kind, title and text, and the exception whose
    text is appended where the source formats one in. *)
Record dialog := {
  kind : dialog_kind;
  title : string;
  message : string;
  cause : option exn;
}.

Inductive callback := CbReadValues | CbUpdatePressure.

(** The module's globals, the widgets the callbacks read or configure,
    the message boxes shown and the timers set with [root.after], and the
    wall clock in milliseconds.  [device] is [None] while the name is
    unbound; [maxigauge] is [None] while unbound and [Some None] when it
    holds None.  [jitter] is the extra time, event by event, that the
    blocking calls will take.  Console output, button captions, the plot
    and the log file are left out. *)
Record World := {
  clock : Z;
  jitter : list N;
  device : option Serial;
  maxigauge : option (option MaxiGauge);
  source_on : bool;
  reading_active : bool;
  beam_on : bool;
  start_time : option Z;
  timestamps : list string;
  discharge_currents : list pyval;
  beam_currents : list pyval;
  pressure : list (option float);
  source_button : widget_state;
  beam_button : widget_state;
  pressure_entry : entry_text;
  on_time_entry : string;
  off_time_entry : string;
  periods_entry : string;
  dialogs : list dialog;
  timers : list (Z * callback);
}.

Definition set_clock (v : Z) (w : World) : World :=
  {| clock := v; jitter := jitter w; device := device w;
     maxigauge := maxigauge w; source_on := source_on w;
     reading_active := reading_active w; beam_on := beam_on w;
     start_time := start_time w; timestamps := timestamps w;
     discharge_currents := discharge_currents w;
     beam_currents := beam_currents w; pressure := pressure w;
     source_button := source_button w; beam_button := beam_button w;
     pressure_entry := pressure_entry w; on_time_entry := on_time_entry w;
     off_time_entry := off_time_entry w; periods_entry := periods_entry w;
     dialogs := dialogs w; timers := timers w |}.

Definition set_jitter (v : list N) (w : World) : World :=
  {| clock := clock w; jitter := v; device := device w;
     maxigauge := maxigauge w; source_on := source_on w;
     reading_active := reading_active w; beam_on := beam_on w;
     start_time := start_time w; timestamps := timestamps w;
     discharge_currents := discharge_currents w;
     beam_currents := beam_currents w; pressure := pressure w;
     source_button := source_button w; beam_button := beam_button w;
     pressure_entry := pressure_entry w; on_time_entry := on_time_entry w;
     off_time_entry := off_time_entry w; periods_entry := periods_entry w;
     dialogs := dialogs w; timers := timers w |}.

Definition set_device (v : option Serial) (w : World) : World :=
  {| clock := clock w; jitter := jitter w; device := v;
     maxigauge := maxigauge w; source_on := source_on w;
     reading_active := reading_active w; beam_on := beam_on w;
     start_time := start_time w; timestamps := timestamps w;
     discharge_currents := discharge_currents w;
     beam_currents := beam_currents w; pressure := pressure w;
     source_button := source_button w; beam_button := beam_button w;
     pressure_entry := pressure_entry w; on_time_entry := on_time_entry w;
     off_time_entry := off_time_entry w; periods_entry := periods_entry w;
     dialogs := dialogs w; timers := timers w |}.

Definition set_maxigauge (v : option (option MaxiGauge)) (w : World) : World :=
  {| clock := clock w; jitter := jitter w; device := device w;
     maxigauge := v; source_on := source_on w;
     reading_active := reading_active w; beam_on := beam_on w;
     start_time := start_time w; timestamps := timestamps w;
     discharge_currents := discharge_currents w;
     beam_currents := beam_currents w; pressure := pressure w;
     source_button := source_button w; beam_button := beam_button w;
     pressure_entry := pressure_entry w; on_time_entry := on_time_entry w;
     off_time_entry := off_time_entry w; periods_entry := periods_entry w;
     dialogs := dialogs w; timers := timers w |}.

Definition set_source_on (v : bool) (w : World) : World :=
  {| clock := clock w; jitter := jitter w; device := device w;
     maxigauge := maxigauge w; source_on := v;
     reading_active := reading_active w; beam_on := beam_on w;
     start_time := start_time w; timestamps := timestamps w;
     discharge_currents := discharge_currents w;
     beam_currents := beam_currents w; pressure := pressure w;
     source_button := source_button w; beam_button := beam_button w;
     pressure_entry := pressure_entry w; on_time_entry := on_time_entry w;
     off_time_entry := off_time_entry w; periods_entry := periods_entry w;
     dialogs := dialogs w; timers := timers w |}.

Definition set_reading_active (v : bool) (w : World) : World :=
  {| clock := clock w; jitter := jitter w; device := device w;
     maxigauge := maxigauge w; source_on := source_on w; reading_active := v;
     beam_on := beam_on w; start_time := start_time w;
     timestamps := timestamps w; discharge_currents := discharge_currents w;
     beam_currents := beam_currents w; pressure := pressure w;
     source_button := source_button w; beam_button := beam_button w;
     pressure_entry := pressure_entry w; on_time_entry := on_time_entry w;
     off_time_entry := off_time_entry w; periods_entry := periods_entry w;
     dialogs := dialogs w; timers := timers w |}.

Definition set_beam_on (v : bool) (w : World) : World :=
  {| clock := clock w; jitter := jitter w; device := device w;
     maxigauge := maxigauge w; source_on := source_on w;
     reading_active := reading_active w; beam_on := v;
     start_time := start_time w; timestamps := timestamps w;
     discharge_currents := discharge_currents w;
     beam_currents := beam_currents w; pressure := pressure w;
     source_button := source_button w; beam_button := beam_button w;
     pressure_entry := pressure_entry w; on_time_entry := on_time_entry w;
     off_time_entry := off_time_entry w; periods_entry := periods_entry w;
     dialogs := dialogs w; timers := timers w |}.

Definition set_start_time (v : option Z) (w : World) : World :=
  {| clock := clock w; jitter := jitter w; device := device w;
     maxigauge := maxigauge w; source_on := source_on w;
     reading_active := reading_active w; beam_on := beam_on w;
     start_time := v; timestamps := timestamps w;
     discharge_currents := discharge_currents w;
     beam_currents := beam_currents w; pressure := pressure w;
     source_button := source_button w; beam_button := beam_button w;
     pressure_entry := pressure_entry w; on_time_entry := on_time_entry w;
     off_time_entry := off_time_entry w; periods_entry := periods_entry w;
     dialogs := dialogs w; timers := timers w |}.

Definition set_timestamps (v : list string) (w : World) : World :=
  {| clock := clock w; jitter := jitter w; device := device w;
     maxigauge := maxigauge w; source_on := source_on w;
     reading_active := reading_active w; beam_on := beam_on w;
     start_time := start_time w; timestamps := v;
     discharge_currents := discharge_currents w;
     beam_currents := beam_currents w; pressure := pressure w;
     source_button := source_button w; beam_button := beam_button w;
     pressure_entry := pressure_entry w; on_time_entry := on_time_entry w;
     off_time_entry := off_time_entry w; periods_entry := periods_entry w;
     dialogs := dialogs w; timers := timers w |}.

Definition set_discharge_currents (v : list pyval) (w : World) : World :=
  {| clock := clock w; jitter := jitter w; device := device w;
     maxigauge := maxigauge w; source_on := source_on w;
     reading_active := reading_active w; beam_on := beam_on w;
     start_time := start_time w; timestamps := timestamps w;
     discharge_currents := v; beam_currents := beam_currents w;
     pressure := pressure w; source_button := source_button w;
     beam_button := beam_button w; pressure_entry := pressure_entry w;
     on_time_entry := on_time_entry w; off_time_entry := off_time_entry w;
     periods_entry := periods_entry w; dialogs := dialogs w;
     timers := timers w |}.

Definition set_beam_currents (v : list pyval) (w : World) : World :=
  {| clock := clock w; jitter := jitter w; device := device w;
     maxigauge := maxigauge w; source_on := source_on w;
     reading_active := reading_active w; beam_on := beam_on w;
     start_time := start_time w; timestamps := timestamps w;
     discharge_currents := discharge_currents w; beam_currents := v;
     pressure := pressure w; source_button := source_button w;
     beam_button := beam_button w; pressure_entry := pressure_entry w;
     on_time_entry := on_time_entry w; off_time_entry := off_time_entry w;
     periods_entry := periods_entry w; dialogs := dialogs w;
     timers := timers w |}.

Definition set_pressure (v : list (option float)) (w : World) : World :=
  {| clock := clock w; jitter := jitter w; device := device w;
     maxigauge := maxigauge w; source_on := source_on w;
     reading_active := reading_active w; beam_on := beam_on w;
     start_time := start_time w; timestamps := timestamps w;
     discharge_currents := discharge_currents w;
     beam_currents := beam_currents w; pressure := v;
     source_button := source_button w; beam_button := beam_button w;
     pressure_entry := pressure_entry w; on_time_entry := on_time_entry w;
     off_time_entry := off_time_entry w; periods_entry := periods_entry w;
     dialogs := dialogs w; timers := timers w |}.

Definition set_source_button (v : widget_state) (w : World) : World :=
  {| clock := clock w; jitter := jitter w; device := device w;
     maxigauge := maxigauge w; source_on := source_on w;
     reading_active := reading_active w; beam_on := beam_on w;
     start_time := start_time w; timestamps := timestamps w;
     discharge_currents := discharge_currents w;
     beam_currents := beam_currents w; pressure := pressure w;
     source_button := v; beam_button := beam_button w;
     pressure_entry := pressure_entry w; on_time_entry := on_time_entry w;
     off_time_entry := off_time_entry w; periods_entry := periods_entry w;
     dialogs := dialogs w; timers := timers w |}.

Definition set_beam_button (v : widget_state) (w : World) : World :=
  {| clock := clock w; jitter := jitter w; device := device w;
     maxigauge := maxigauge w; source_on := source_on w;
     reading_active := reading_active w; beam_on := beam_on w;
     start_time := start_time w; timestamps := timestamps w;
     discharge_currents := discharge_currents w;
     beam_currents := beam_currents w; pressure := pressure w;
     source_button := source_button w; beam_button := v;
     pressure_entry := pressure_entry w; on_time_entry := on_time_entry w;
     off_time_entry := off_time_entry w; periods_entry := periods_entry w;
     dialogs := dialogs w; timers := timers w |}.

Definition set_pressure_entry (v : entry_text) (w : World) : World :=
  {| clock := clock w; jitter := jitter w; device := device w;
     maxigauge := maxigauge w; source_on := source_on w;
     reading_active := reading_active w; beam_on := beam_on w;
     start_time := start_time w; timestamps := timestamps w;
     discharge_currents := discharge_currents w;
     beam_currents := beam_currents w; pressure := pressure w;
     source_button := source_button w; beam_button := beam_button w;
     pressure_entry := v; on_time_entry := on_time_entry w;
     off_time_entry := off_time_entry w; periods_entry := periods_entry w;
     dialogs := dialogs w; timers := timers w |}.

Definition set_dialogs (v : list dialog) (w : World) : World :=
  {| clock := clock w; jitter := jitter w; device := device w;
     maxigauge := maxigauge w; source_on := source_on w;
     reading_active := reading_active w; beam_on := beam_on w;
     start_time := start_time w; timestamps := timestamps w;
     discharge_currents := discharge_currents w;
     beam_currents := beam_currents w; pressure := pressure w;
     source_button := source_button w; beam_button := beam_button w;
     pressure_entry := pressure_entry w; on_time_entry := on_time_entry w;
     off_time_entry := off_time_entry w; periods_entry := periods_entry w;
     dialogs := v; timers := timers w |}.

Definition set_timers (v : list (Z * callback)) (w : World) : World :=
  {| clock := clock w; jitter := jitter w; device := device w;
     maxigauge := maxigauge w; source_on := source_on w;
     reading_active := reading_active w; beam_on := beam_on w;
     start_time := start_time w; timestamps := timestamps w;
     discharge_currents := discharge_currents w;
     beam_currents := beam_currents w; pressure := pressure w;
     source_button := source_button w; beam_button := beam_button w;
     pressure_entry := pressure_entry w; on_time_entry := on_time_entry w;
     off_time_entry := off_time_entry w; periods_entry := periods_entry w;
     dialogs := dialogs w; timers := v |}.

(** ** The monad of the callbacks: state, exceptions, and fuel for the
       busy-polling loops *)

Inductive outcome (A : Type) :=
| Ok (a : A)
| Raise (e : exn)
| OutOfFuel.
Arguments Ok {A} a.
Arguments Raise {A} e.
Arguments OutOfFuel {A}.

Definition M (A : Type) : Type := World → outcome A * World.

Definition ret {A} (a : A) : M A := λ w, (Ok a, w).

Definition bind {A B} (m : M A) (k : A → M B) : M B :=
  λ w, match m w with
       | (Ok a, w') => k a w'
       | (Raise e, w') => (Raise e, w')
       | (OutOfFuel, w') => (OutOfFuel, w')
       end.

Definition raise {A} (e : exn) : M A := λ w, (Raise e, w).

(** [try: m  except Exception as e: h e] *)
Definition try_except {A} (m : M A) (h : exn → M A) : M A :=
  λ w, match m w with
       | (Raise e, w') => h e w'
       | r => r
       end.

Definition gets {A} (f : World → A) : M A := λ w, (Ok (f w), w).
Definition modify (f : World → World) : M unit := λ w, (Ok tt, f w).

Declare Scope py_scope.
Delimit Scope py_scope with py.
Notation "x <- m ;; k" := (bind m (λ x, k))
  (at level 100, m at next level, right associativity) : py_scope.
Notation "m ;; k" := (bind m (λ _, k))
  (at level 100, right associativity) : py_scope.
Bind Scope py_scope with M.
Open Scope py_scope.

(** ** Time, dialogs and timers *)

(** A call that blocks for [ms] milliseconds, and for as much longer as
    the environment makes it. *)
Definition blocking (ms : Z) : M unit :=
  modify (λ w, set_jitter (tail (jitter w))
                 (set_clock (clock w + ms + Z.of_N (hd 0%N (jitter w))) w)).

(** [time.sleep(ms / 1000)] *)
Definition sleep (ms : Z) : M unit := blocking ms.

(** [time.time()], in milliseconds *)
Definition time_time : M Z := gets clock.

Definition messagebox (k : dialog_kind) (t msg : string) (c : option exn)
  : M unit :=
  modify (λ w, set_dialogs
    (dialogs w ++ [ {| kind := k; title := t; message := msg; cause := c |} ]) w).

(** [root.after(ms, cb)] *)
Definition after (ms : Z) (cb : callback) : M unit :=
  modify (λ w, set_timers (timers w ++ [(ms, cb)]) w).

Definition cr : string := String "013" EmptyString.
Definition crlf : string := String "013" (String "010" EmptyString).
Definition enq : string := String "005" crlf.

(** [b.decode('utf-8')] *)
Definition decode (b : rx_bytes) : M string :=
  match b with
  | BText s => ret s
  | BGarbage => raise UnicodeDecodeError
  end.

(** [l[i]] *)
Definition index {A} (l : list A) (i : nat) : M A :=
  match l !! i with
  | Some x => ret x
  | None => raise IndexError
  end.

(** [d[k]] *)
Definition item (d : gmap string pyval) (k : string) : M pyval :=
  match d !! k with
  | Some x => ret x
  | None => raise KeyError
  end.

(** ** The source controller's port, the global [device] *)

Definition the_device : M Serial :=
  λ w, match device w with
       | Some p => (Ok p, w)
       | None => (Raise NameError, w)
       end.

(** [not device or not device.is_open] *)
Definition device_absent : M bool :=
  p <- the_device;; ret (negb (is_open p)).

(** [device.write(b)] *)
Definition device_write (b : string) : M unit :=
  p <- the_device;;
  match port_write b p with
  | inr p' => modify (set_device (Some p'));; blocking 0
  | inl e => raise e
  end.

(** [device.read_all()] *)
Definition device_read_all : M rx_bytes :=
  p <- the_device;;
  modify (set_device (Some (port_read p).2));;
  blocking 0;;
  match (port_read p).1 with
  | inr b => ret b
  | inl e => raise e
  end.

(** ** class MaxiGauge

    The methods run on the one instance there is, the object the global
    [maxigauge] holds. *)

(** [self.connection] *)
Definition self_connection : M (option Serial) :=
  λ w, match maxigauge w with
       | Some (Some g) => (Ok (connection g), w)
       | Some None => (Raise AttributeError, w)
       | None => (Raise NameError, w)
       end.

(** [not self.connection or not self.connection.is_open] *)
Definition not_connected : M bool :=
  c <- self_connection;;
  ret (match c with Some p => negb (is_open p) | None => true end).

(** [self.connection.write(b)] *)
Definition connection_write (b : string) : M unit :=
  c <- self_connection;;
  match c with
  | Some p =>
    match port_write b p with
    | inr p' =>
      modify (set_maxigauge (Some (Some {| connection := Some p' |})));;
      blocking 0
    | inl e => raise e
    end
  | None => raise AttributeError
  end.

(** [self.connection.read_until(b'\r\n')] *)
Definition connection_read_until : M rx_bytes :=
  c <- self_connection;;
  match c with
  | Some p =>
    modify (set_maxigauge (Some (Some {| connection := Some (port_read p).2 |})));;
    blocking 0;;
    match (port_read p).1 with
    | inr b => ret b
    | inl e => raise e
    end
  | None => raise AttributeError
  end.

(** [MaxiGauge.send_command] *)
Definition send_command (command : string) : M (option string) :=
  absent <- not_connected;;
  if absent : bool then ret None
  else
    try_except
      (connection_write (command +:+ crlf);;
       sleep 100;;
       first_byte <- connection_read_until;;
       connection_write enq;;
       sleep 100;;
       raw <- connection_read_until;;
       text <- decode raw;;
       response <- index (split "," (strip text)) 1;;
       ret (Some response))
      (λ e, ret None).

(** [MaxiGauge.get_pressure]; the ValueError of [float(response)] is not
    handled here. *)
Definition get_pressure (sensor : Z) : M (option float) :=
  if negb ((1 <=? sensor) && (sensor <=? 6)) then ret None
  else
    absent <- not_connected;;
    if absent : bool then ret None
    else
      response <- send_command ("PR" +:+ pretty sensor);;
      match response with
      | Some r =>
        if nonempty r then
          match py_float r with
          | Some f => ret (Some f)
          | None => raise ValueError
          end
        else ret None
      | None => ret None
      end.

(** [not maxigauge or not maxigauge.connection or not
    maxigauge.connection.is_open], as the callbacks test it *)
Definition maxigauge_absent : M bool :=
  λ w, match maxigauge w with
       | None => (Raise NameError, w)
       | Some None => (Ok true, w)
       | Some (Some g) =>
         (Ok (match connection g with
              | Some p => negb (is_open p)
              | None => true
              end), w)
       end.

(** ** The callbacks *)

(** The two float literals of the interlock, [3e-4] and [10e-4]. *)
Definition band_low : float := float_of_decimal false 3 (-4).
Definition band_high : float := float_of_decimal false 10 (-4).

Definition set_pressure_entry_text (t : entry_text) : M unit :=
  modify (set_pressure_entry t).

(** [update_pressure()]: the tick of the interlock.  The body of the
    [try] tells whether it fell through to the rescheduling line or
    returned. *)
Definition update_pressure : M unit :=
  fell_through <-
    try_except
      (absent <- maxigauge_absent;;
       if absent : bool then
         set_pressure_entry_text (Text "Not Connected");;
         modify (set_source_button DISABLED);;
         ret false
       else
         pressure_sensor_3 <- get_pressure 3;;
         match pressure_sensor_3 with
         | Some p =>
           set_pressure_entry_text (Scientific p);;
           (if float_le band_low p && float_le p band_high
            then modify (set_source_button NORMAL)
            else modify (set_source_button DISABLED));;
           ret true
         | None =>
           set_pressure_entry_text (Text "Invalid Data");;
           modify (set_source_button DISABLED);;
           ret true
         end)
      (λ e,
         set_pressure_entry_text (Text "Error");;
         modify (set_source_button DISABLED);;
         ret true);;
  if fell_through : bool then after 500 CbUpdatePressure else ret tt.

Definition two_digits (n : Z) : string :=
  if n <? 10 then "0" +:+ pretty n else pretty n.

(** [f"{int(elapsed_time // 60)}:{int(elapsed_time % 60):02d}"] for an
    elapsed time of [ms] milliseconds *)
Definition format_elapsed (ms : Z) : string :=
  pretty (ms / 60000) +:+ ":" +:+ two_digits ((ms mod 60000) / 1000).

(** [read_values(force_read)] *)
Definition read_values (force_read : bool) : M unit :=
  try_except
    (absent <- device_absent;;
     if absent : bool then
       messagebox ShowError "Error" "Device is not connected." None
     else
       gauge_absent <- maxigauge_absent;;
       pressure_sensor_3 <-
         (if gauge_absent : bool then ret None else get_pressure 3);;
       active <- gets reading_active;;
       if negb active && negb force_read then ret tt
       else
         device_write ("RC" +:+ cr);;
         sleep 800;;
         raw <- device_read_all;;
         text <- decode raw;;
         response <-
           (let response := strip text in
            if startswith "RC" response then
              match str_index "010" response with
              | Some i => ret (strip (str_drop (i + 1) response))
              | None => raise ValueError
              end
            else ret response);;
         match parse_reading response with
         | Some parsed_data =>
           if bool_decide (parsed_data = ∅) then ret tt
           else
             now <- time_time;;
             started <- gets start_time;;
             elapsed_time <-
               match started with
               | Some t0 => ret (now - t0)
               | None => raise TypeError
               end;;
             let elapsed_time_formatted := format_elapsed elapsed_time in
             modify (λ w,
               set_timestamps (timestamps w ++ [elapsed_time_formatted]) w);;
             discharge <- item parsed_data "Discharge Current (A)";;
             modify (λ w,
               set_discharge_currents (discharge_currents w ++ [discharge]) w);;
             beam <- item parsed_data "Beam Current (mA)";;
             modify (λ w, set_beam_currents (beam_currents w ++ [beam]) w);;
             modify (λ w, set_pressure (pressure w ++ [pressure_sensor_3]) w)
         | None => ret tt
         end;;
         if force_read then ret tt else after 1000 CbReadValues)
    (λ e, ret tt).

(** [toggle_reading()] *)
Definition toggle_reading : M unit :=
  active <- gets reading_active;;
  if active : bool then modify (set_reading_active false)
  else
    modify (set_reading_active true);;
    now <- time_time;;
    modify (set_start_time (Some now));;
    read_values false.

(** [update_beam_button_state()] *)
Definition update_beam_button_state : M unit :=
  on <- gets source_on;;
  if on : bool then modify (set_beam_button NORMAL)
  else modify (set_beam_button DISABLED).

(** [toggle_source()] *)
Definition toggle_source : M unit :=
  try_except
    (absent <- device_absent;;
     if absent : bool then
       messagebox ShowError "Error" "Device is not connected." None
     else
       on <- gets source_on;;
       (if on : bool then
          device_write ("S0" +:+ cr);;
          sleep 500;;
          _ <- device_read_all;;
          modify (set_source_on false);;
          messagebox ShowInfo "Success" "Ion source turned off." None
        else
          device_write ("S1" +:+ cr);;
          sleep 500;;
          _ <- device_read_all;;
          modify (set_source_on true);;
          messagebox ShowInfo "Success" "Ion source turned on." None);;
       update_beam_button_state)
    (λ e, messagebox ShowError "Error" "Failed to toggle ion source: " (Some e)).

(** [toggle_beam()]; it has no handler of its own. *)
Definition toggle_beam : M unit :=
  absent <- device_absent;;
  if absent : bool then
    messagebox ShowError "Error" "Device is not connected." None
  else
    on <- gets source_on;;
    if negb on then
      messagebox ShowWarning "Warning"
        "The source must be turned on before enabling the beam." None
    else
      beam <- gets beam_on;;
      if beam : bool then
        device_write ("B0" +:+ cr);;
        sleep 500;;
        _ <- device_read_all;;
        modify (set_beam_on false)
      else
        device_write ("B1" +:+ cr);;
        sleep 500;;
        _ <- device_read_all;;
        modify (set_beam_on true).

(** [time.time() - start_time < limit] for an elapsed time of [ms]
    milliseconds and a limit in seconds, compared exactly *)
Definition elapsed_lt (ms : Z) (limit : float) : bool :=
  match limit with
  | S754_nan => false
  | S754_infinity neg => negb neg
  | S754_zero _ => ms <? 0
  | S754_finite neg m e =>
    let v := if neg then Z.neg m else Z.pos m in
    if 0 <=? e then ms <? 1000 * v * 2 ^ e
    else ms * 2 ^ (- e) <? 1000 * v
  end.

(** One of the two [while] loops of the sequence:
    [while time.time() - start_time < limit: read_values(force_read=True);
    time.sleep(0.5)].  [fuel] bounds the number of polls. *)
Fixpoint busy_poll (fuel : nat) (start : Z) (limit : float) : M unit :=
  now <- time_time;;
  if elapsed_lt (now - start) limit then
    match fuel with
    | O => λ w, (OutOfFuel, w)
    | S fuel' =>
      read_values true;;
      sleep 500;;
      busy_poll fuel' start limit
    end
  else ret tt.

(** The [for i in range(periods)] loop of the sequence *)
Fixpoint run_periods (fuel : nat) (periods : nat) (on_time off_time : float)
  : M unit :=
  match periods with
  | O => ret tt
  | S periods' =>
    device_write ("B1" +:+ cr);;
    sleep 500;;
    _ <- device_read_all;;
    start <- time_time;;
    busy_poll fuel start on_time;;
    device_write ("B0" +:+ cr);;
    sleep 500;;
    _ <- device_read_all;;
    start <- time_time;;
    busy_poll fuel start off_time;;
    run_periods fuel periods' on_time off_time
  end.

(** [float(entry.get())] and [int(entry.get())] *)
Definition entry_float (text : string) : M float :=
  match py_float text with
  | Some f => ret f
  | None => raise ValueError
  end.

Definition entry_int (text : string) : M Z :=
  match py_int text with
  | Some z => ret z
  | None => raise ValueError
  end.

(** [create_sequence()]; [fuel] bounds the polls of each busy loop. *)
Definition create_sequence (fuel : nat) : M unit :=
  try_except
    (absent <- device_absent;;
     if absent : bool then
       messagebox ShowError "Error" "Device is not connected." None
     else
       on <- gets source_on;;
       if negb on then
         messagebox ShowWarning "Warning"
           "The source must be turned on before starting the sequence." None
       else
         active <- gets reading_active;;
         (if active : bool then modify (set_reading_active false) else ret tt);;
         on_time <- (text <- gets on_time_entry;; entry_float text);;
         off_time <- (text <- gets off_time_entry;; entry_float text);;
         periods <- (text <- gets periods_entry;; entry_int text);;
         if float_le on_time float_zero || float_le off_time float_zero
            || (periods <=? 0) then
           messagebox ShowError "Error" "All values must be positive numbers."
             None
         else
           run_periods fuel (Z.to_nat periods) on_time off_time;;
           active <- gets reading_active;;
           (if negb active then
              modify (set_reading_active true);;
              read_values false
            else ret tt);;
           messagebox ShowInfo "Sequence Complete"
             "The beam sequence has been completed." None)
    (λ e, messagebox ShowError "Error" "Failed to execute sequence: " (Some e)).

(** [clear_data()] *)
Definition clear_data : M unit :=
  modify (set_timestamps []);;
  modify (set_discharge_currents []);;
  modify (set_beam_currents []);;
  modify (set_pressure []).

(** ** Opening and closing the ports *)

(** [serial.Serial(port, ...)]: whether the port opens, and what it will
    deliver once open, is for the environment to say; [None] is a port
    that cannot be opened. *)
Definition serial_Serial (opening : option (list rx_event)) : M Serial :=
  blocking 0;;
  match opening with
  | Some script => ret {| is_open := true; written := []; incoming := script |}
  | None => raise SerialException
  end.

(** [self.connection = c] *)
Definition set_self_connection (c : option Serial) : M unit :=
  λ w, match maxigauge w with
       | Some (Some _) =>
         (Ok tt, set_maxigauge (Some (Some {| connection := c |})) w)
       | Some None => (Raise AttributeError, w)
       | None => (Raise NameError, w)
       end.

(** [MaxiGauge.connect]; its handler takes SerialException only. *)
Definition connect (opening : option (list rx_event)) : M unit :=
  try_except
    (p <- serial_Serial opening;;
     set_self_connection (Some p))
    (λ e, match e with
          | SerialException => set_self_connection None
          | _ => raise e
          end).

(** [MaxiGauge.disconnect] *)
Definition disconnect : M unit :=
  c <- self_connection;;
  match c with
  | Some p =>
    if is_open p then
      set_self_connection
        (Some {| is_open := false; written := written p;
                 incoming := incoming p |});;
      blocking 0
    else ret tt
  | None => ret tt
  end.

(** [connect_to_device()] *)
Definition connect_to_device (opening : option (list rx_event)) : M unit :=
  try_except
    (p <- serial_Serial opening;;
     modify (set_device (Some p));;
     device_write ("A" +:+ cr);;
     sleep 500;;
     raw <- device_read_all;;
     text <- decode raw;;
     let response := strip text in
     if nonempty response then
       messagebox ShowInfo "Connection Successful"
         ("Device Response: " +:+ response) None
     else
       messagebox ShowWarning "Connection Warning"
         "No response from the device." None)
    (λ e, messagebox ShowError "Connection Failed"
            (match e with
             | SerialException => "Serial Error: "
             | _ => "Error: "
             end) (Some e)).

(** [connect_to_maxigauge()]; the constructor of [MaxiGauge] leaves the
    connection None. *)
Definition connect_to_maxigauge (opening : option (list rx_event)) : M unit :=
  try_except
    (modify (set_maxigauge (Some (Some {| connection := None |})));;
     connect opening)
    (λ e, messagebox ShowError "Connection Failed"
            (match e with
             | SerialException => "Failed to connect to MaxiGauge: "
             | _ => "Error: "
             end) (Some e);;
          modify (set_maxigauge (Some None))).

(** ** [set_values]: the setpoints *)

(** A value of the dictionary [values] of [set_values]: an int, the text
    of an entry, or a float, kept with the text [str()] gives for it. *)
Inductive setting :=
| SInt (z : Z)
| SText (s : string)
| SFloat (f : float) (text : string).

(** [if value:] *)
Definition truthy (value : setting) : bool :=
  match value with
  | SInt z => negb (z =? 0)
  | SText s => nonempty s
  | SFloat (S754_zero _) _ => false
  | SFloat _ _ => true
  end.

(** [f"{value}"] *)
Definition format_setting (value : setting) : string :=
  match value with
  | SInt z => pretty z
  | SText s => s
  | SFloat _ text => text
  end.

(** The dictionary [values], in the order of its keys.  The three texts
    are those of the entries for the discharge, beam and accelerator
    voltage, which are not part of [World]. *)
Definition setpoints (discharge_entry beam_entry accelerator_entry : string)
  : list (string * setting) :=
  [ ("AE", SInt 1);
    ("DV", SText discharge_entry);
    ("BV", SText beam_entry);
    ("AV", SText accelerator_entry);
    ("AB", SInt 20);
    ("AC", SInt 1);
    ("CL", SInt 8);
    ("DT", SFloat (float_of_decimal false 16 (-2)) "0.16");
    ("BE", SInt 40);
    ("BI", SInt 18);
    ("NL", SFloat (float_of_decimal false 2 (-2)) "0.02");
    ("NE", SInt 1) ].

(** The loop [for command, value in values.items()] *)
Fixpoint send_setpoints (values : list (string * setting)) : M unit :=
  match values with
  | [] => ret tt
  | (command, value) :: rest =>
    (if truthy value then
       device_write (command +:+ format_setting value +:+ cr);;
       sleep 500;;
       raw <- device_read_all;;
       response <- decode raw;;
       ret tt
     else ret tt);;
    send_setpoints rest
  end.

(** [set_values()] *)
Definition set_values (discharge_entry beam_entry accelerator_entry : string)
  : M unit :=
  try_except
    (absent <- device_absent;;
     if absent : bool then
       messagebox ShowError "Error" "Device is not connected." None
     else
       send_setpoints (setpoints discharge_entry beam_entry accelerator_entry);;
       messagebox ShowInfo "Success" "Values set successfully." None)
    (λ e, messagebox ShowError "Error" "Failed to set values: " (Some e)).

(** ** Vocabulary of the statements *)

(** From a state of [P], [m] ends in a state of [Q], however it ends. *)
Definition hoare {A} (P : World → Prop) (m : M A) (Q : World → Prop) : Prop :=
  ∀ w, P w → Q (m w).2.

(** [m] keeps [P], however it ends. *)
Definition preserves {A} (P : World → Prop) (m : M A) : Prop :=
  ∀ w, P w → P (m w).2.

(** The four history sequences. *)
Definition history (w : World)
  : list string * list pyval * list pyval * list (option float) :=
  (timestamps w, discharge_currents w, beam_currents w, pressure w).

(** [m] never runs out of fuel. *)
Definition fuel_free {A} (m : M A) : Prop :=
  ∀ w, (m w).1 ≠ OutOfFuel.

(** [m] returns normally from a state of [P], with a result and in a
    state of [Q]. *)
Definition returns {A} (P : World → Prop) (m : M A) (Q : A → World → Prop)
  : Prop :=
  ∀ w, P w → ∃ a w', m w = (Ok a, w') ∧ Q a w'.

(** The band check of the interlock, [3e-4 <= p <= 10e-4]. *)
Definition in_band (p : float) : bool :=
  float_le band_low p && float_le p band_high.

(** The pressure reading of an interlock tick that starts in [w]: the
    number [get_pressure(3)] returns, when the gauge is there and
    connected and the call returns one. *)
Definition pressure_reading (w : World) : option float :=
  match maxigauge_absent w with
  | (Ok false, _) =>
    match get_pressure 3 w with
    | (Ok (Some p), _) => Some p
    | _ => None
    end
  | _ => None
  end.

(** The text the second [read_until] of [send_command] will decode: the
    second event of the script, the empty text when the script is
    shorter. *)
Definition second_reply (p : Serial) : option string :=
  match incoming p with
  | _ :: RxText reply :: _ => Some reply
  | _ :: (RxGarbage | RxFault) :: _ => None
  | _ => Some ""
  end.

(** The four history sequences have one length. *)
Definition aligned (w : World) : Prop :=
  length (timestamps w) = length (discharge_currents w)
  ∧ length (discharge_currents w) = length (beam_currents w)
  ∧ length (beam_currents w) = length (pressure w).

(** [w'] has the histories of [w]. *)
Definition same_history (w w' : World) : Prop :=
  timestamps w' = timestamps w
  ∧ discharge_currents w' = discharge_currents w
  ∧ beam_currents w' = beam_currents w
  ∧ pressure w' = pressure w.

(** [w'] has the histories of [w] with exactly one more element at the
    end of each. *)
Definition appended_one (w w' : World) : Prop :=
  ∃ t d b p,
    timestamps w' = timestamps w ++ [t]
    ∧ discharge_currents w' = discharge_currents w ++ [d]
    ∧ beam_currents w' = beam_currents w ++ [b]
    ∧ pressure w' = pressure w ++ [p].

(** What the event loop can run between two observation points. *)
Inductive action :=
| ReadValues (force_read : bool)
| ToggleReading
| ToggleSource
| ToggleBeam
| CreateSequence (fuel : nat)
| UpdatePressure
| ClearData.

Definition run (a : action) : M unit :=
  match a with
  | ReadValues force_read => read_values force_read
  | ToggleReading => toggle_reading
  | ToggleSource => toggle_source
  | ToggleBeam => toggle_beam
  | CreateSequence fuel => create_sequence fuel
  | UpdatePressure => update_pressure
  | ClearData => clear_data
  end.

(** The state after the action, however it ended. *)
Definition step (w : World) (a : action) : World := (run a w).2.

Definition beam_enable : string := "B1" +:+ cr.
Definition beam_disable : string := "B0" +:+ cr.

Definition is_beam_command (c : string) : bool :=
  String.eqb c beam_enable || String.eqb c beam_disable.

(** The beam commands among the commands written to a port. *)
Definition beam_commands (cmds : list string) : list string :=
  filter (λ c, is_beam_command c = true) cmds.

Definition fault_free (p : Serial) : Prop :=
  Forall (λ ev, ev ≠ RxFault) (incoming p).

(** The invariant of a running sequence: the source controller's port is
    open and will not fault, it was sent [base] and then commands whose
    beam commands are [sent], the clock has reached [c], and the flags
    and entries the sequence reads are as given. *)
Definition sequence_inv (base sent : list string) (c : Z) (active : bool)
    (w : World) : Prop :=
  (∃ p more, device w = Some p ∧ is_open p = true ∧ fault_free p
     ∧ written p = base ++ more ∧ beam_commands more = sent)
  ∧ c ≤ clock w
  ∧ source_on w = true
  ∧ reading_active w = active.

(** The action that led from [w] to [w'] showed one message box, of
    kind [k]. *)
Definition reported_as (k : dialog_kind) (w w' : World) : Prop :=
  ∃ d, kind d = k ∧ dialogs w' = dialogs w ++ [d].

(** The state once the module is loaded: nothing connected yet, the
    defaults in the entries. *)
Definition startup : World :=
  {| clock := 0; jitter := []; device := None; maxigauge := None;
     source_on := false; reading_active := false; beam_on := false;
     start_time := None; timestamps := []; discharge_currents := [];
     beam_currents := []; pressure := [];
     source_button := NORMAL; beam_button := DISABLED;
     pressure_entry := Text ""; on_time_entry := "5";
     off_time_entry := "5"; periods_entry := "3";
     dialogs := []; timers := [] |}.

(** A port just opened, with the script of what it will deliver. *)
Definition opened (script : list rx_event) : Serial :=
  {| is_open := true; written := []; incoming := script |}.

Definition closed : Serial :=
  {| is_open := false; written := []; incoming := [] |}.

(** The user types the three entries of the sequence. *)
Definition enter_sequence (on_time off_time periods : string) (w : World)
  : World :=
  {| clock := clock w; jitter := jitter w; device := device w;
     maxigauge := maxigauge w; source_on := source_on w;
     reading_active := reading_active w; beam_on := beam_on w;
     start_time := start_time w; timestamps := timestamps w;
     discharge_currents := discharge_currents w;
     beam_currents := beam_currents w; pressure := pressure w;
     source_button := source_button w; beam_button := beam_button w;
     pressure_entry := pressure_entry w; on_time_entry := on_time;
     off_time_entry := off_time; periods_entry := periods;
     dialogs := dialogs w; timers := timers w |}.

(** The gauge query at the head of a poll, whose result the poll calls
    [pressure_sensor_3]. *)
Definition poll_gauge : M (option float) :=
  gauge_absent <- maxigauge_absent;;
  if gauge_absent : bool then ret None else get_pressure 3.

(** The response a poll parses, from the text it has read: the text
    stripped, and without its first line when it begins with the echo
    [RC]; [None] stands for the ValueError of an echo with no line
    feed. *)
Definition poll_response (text : string) : option string :=
  let response := strip text in
  if startswith "RC" response then
    i ← str_index "010" response; Some (strip (str_drop (i + 1) response))
  else Some response.

(** The port of the gauge, when the global [maxigauge] holds an object
    that has one. *)
Definition gauge_port (w : World) : option Serial :=
  match maxigauge w with
  | Some (Some g) => connection g
  | _ => None
  end.

(** The beam button is enabled exactly while the source is on. *)
Definition beam_interlock (w : World) : Prop :=
  beam_button w = if source_on w then NORMAL else DISABLED.

(** The command [toggle_source] sends from [w], and the one
    [toggle_beam] sends. *)
Definition source_command (w : World) : string :=
  (if source_on w then "S0" else "S1") +:+ cr.

Definition beam_command (w : World) : string :=
  (if beam_on w then "B0" else "B1") +:+ cr.

(** Every elapsed time that the condition of a busy loop,
    [time.time() - start_time < limit], accepts is below [bound]
    milliseconds. *)
Definition within (limit : float) (bound : Z) : Prop :=
  ∀ ms, elapsed_lt ms limit = true → ms < bound.

(** The commands the loop of [set_values] sends for [values]: one for
    each value that is true. *)
Fixpoint setpoint_commands (values : list (string * setting)) : list string :=
  match values with
  | [] => []
  | (command, value) :: rest =>
    (if truthy value then [command +:+ format_setting value +:+ cr] else [])
    ++ setpoint_commands rest
  end.

(** The command for the text of an entry: none for an empty entry. *)
Definition entry_command (command text : string) : list string :=
  if nonempty text then [command +:+ text +:+ cr] else [].

(** What a read that goes wrong raises. *)
Definition read_error (ev : rx_event) : option exn :=
  match ev with
  | RxText _ => None
  | RxGarbage => Some UnicodeDecodeError
  | RxFault => Some SerialException
  end.

(** The gauge has no open port. *)
Definition gauge_down (w : World) : Prop :=
  match gauge_port w with
  | Some p => is_open p = false
  | None => True
  end.

(** [float(z)] for an integer [z] *)
Definition float_of_Z (z : Z) : float := binary_normalize prec emax z 0 false.

(** * Properties of the parsers *)

(** The conversions on some strings, as the interpreter has them. *)
Lemma py_float_examples :
  py_float "0.1" = Some (S754_finite false 7205759403792794 (-56))
  ∧ py_float "  -2.5e3 " = Some (float_of_Z (-2500))
  ∧ py_float "1_0." = Some (float_of_Z 10)
  ∧ py_float "1E5" = Some (float_of_Z 100000)
  ∧ py_float "-Infinity" = Some (S754_infinity true)
  ∧ py_float "1e400" = Some (S754_infinity false)
  ∧ py_float "nan" = Some S754_nan
  ∧ py_float "E5" = None
  ∧ py_float "1e" = None
  ∧ py_float "1,5" = None
  ∧ py_float "" = None.
Proof. repeat split; vm_compute; reflexivity. Qed.

Lemma py_int_examples :
  py_int " 12 " = Some 12
  ∧ py_int "-7" = Some (-7)
  ∧ py_int "1_000" = Some 1000
  ∧ py_int "1.0" = None
  ∧ py_int "" = None
  ∧ isdigit (String "178" "") = true
  ∧ py_int (String "178" "") = None.
Proof. repeat split; vm_compute; reflexivity. Qed.

Lemma float_entry_lookup (values : list string) (i : nat) :
  float_entry values i
  = Some (VFloat (from_option safe_float float_zero (values !! i))).
Proof.
  unfold float_entry. case_bool_decide as Hlen.
  - destruct (lookup_lt_is_Some_2 values i Hlen) as [v Hv]. by rewrite Hv.
  - rewrite lookup_ge_None_2; [done | lia].
Qed.

Lemma fatal_entry_lookup (values : list string) :
  fatal_entry values
  = match values !! 11%nat with
    | Some v => if isdigit v then VInt <$> py_int v else Some (VInt 0)
    | None => Some (VInt 0)
    end.
Proof.
  unfold fatal_entry. case_bool_decide as Hlen.
  - destruct (lookup_lt_is_Some_2 values 11 Hlen) as [v Hv]. rewrite Hv. simpl.
    by destruct (isdigit v).
  - rewrite lookup_ge_None_2; [done | lia].
Qed.

Lemma mode_entry_lookup (values : list string) :
  mode_entry values
  = match values !! 12%nat with
    | Some v => if nonempty v then VInt <$> py_int v else Some (VStr "Unknown")
    | None => Some (VStr "Unknown")
    end.
Proof.
  unfold mode_entry. case_bool_decide as Hlen.
  - destruct (lookup_lt_is_Some_2 values 12 Hlen) as [v Hv]. rewrite Hv. simpl.
    by destruct (nonempty v).
  - rewrite lookup_ge_None_2; [done | lia].
Qed.

(** What [parse_reading] returns, once its two integer fields are
    known. *)
Lemma parse_reading_unfold (data : string) :
  parse_reading data
  = (fatal ← fatal_entry (rc_values data);
     mode ← mode_entry (rc_values data);
     let fl i := VFloat (from_option safe_float float_zero (rc_values data !! i)) in
     Some (list_to_map
       [ ("Cathode Current (A)", fl 0%nat);
         ("Discharge Current (A)", fl 1%nat);
         ("Discharge Voltage (V)", fl 2%nat);
         ("Beam Current (mA)", fl 3%nat);
         ("Beam Voltage (V)", fl 4%nat);
         ("Accelerator Current (mA)", fl 5%nat);
         ("Accelerator Voltage (V)", fl 6%nat);
         ("Emission Current (mA)", fl 7%nat);
         ("Neutralizer Filament Current (A)", fl 8%nat);
         ("HC Keeper Voltage (V)", fl 9%nat);
         ("HCN Keeper Voltage (V)", fl 10%nat);
         ("Fatal Error Code", fatal);
         ("Power Supply Mode", mode) ])).
Proof. unfold parse_reading. by rewrite !float_entry_lookup. Qed.

(** The keys of a Reading of [parse_reading]. *)
Lemma parse_reading_fields (data : string) (r : gmap string pyval) :
  parse_reading data = Some r →
  (∀ i key, float_keys !! i = Some key →
     r !! key
     = Some (VFloat (from_option safe_float float_zero (rc_values data !! i))))
  ∧ (∃ fatal, fatal_entry (rc_values data) = Some fatal
       ∧ r !! "Fatal Error Code" = Some fatal)
  ∧ (∃ mode, mode_entry (rc_values data) = Some mode
       ∧ r !! "Power Supply Mode" = Some mode).
Proof.
  rewrite parse_reading_unfold. intros Hr.
  destruct (fatal_entry (rc_values data)) as [fatal|] eqn:Hfatal; [|done].
  destruct (mode_entry (rc_values data)) as [mode|] eqn:Hmode; [|done].
  simpl in Hr. injection Hr as <-. split; [|split].
  - intros i key Hkey.
    do 11 (destruct i as [|i]; [injection Hkey as <-; by simplify_map_eq|]).
    done.
  - exists fatal. split; [done|]. by simplify_map_eq.
  - exists mode. split; [done|]. by simplify_map_eq.
Qed.

(** C7.  The compact line
    [1.0,2.0,3.0,4.0,5.0,6.0,7.0,8.0,9.0,10.0,11.0,2,1] parses to a
    Reading whose Discharge Current (A) is 2.0, whose Beam Current (mA)
    is 4.0 and whose Fatal Error Code is 2. *)
Theorem parse_reading_compact_line :
  ∃ r : gmap string pyval,
    parse_reading "1.0,2.0,3.0,4.0,5.0,6.0,7.0,8.0,9.0,10.0,11.0,2,1" = Some r
    ∧ r !! "Discharge Current (A)" = Some (VFloat (float_of_Z 2))
    ∧ r !! "Beam Current (mA)" = Some (VFloat (float_of_Z 4))
    ∧ r !! "Fatal Error Code" = Some (VInt 2).
Proof.
  eexists. split; [reflexivity|]. repeat split; vm_compute; reflexivity.
Qed.

Lemma startswith_one_marker (v : string) :
  startswith "E" ("1" +:+ v) || startswith "e" ("1" +:+ v) = false.
Proof. reflexivity. Qed.

(** C8.  For a field that begins with an exponent marker, [E] or [e],
    [safe_float] gives what it gives for the same field with the digit 1
    in front. *)
Theorem safe_float_exponent_marker (v : string) :
  startswith "E" v = true ∨ startswith "e" v = true →
  safe_float v = safe_float ("1" +:+ v).
Proof.
  intros Hmarker. unfold safe_float at 2. rewrite startswith_one_marker.
  unfold safe_float.
  replace (startswith "E" v || startswith "e" v) with true; [done|].
  symmetry. apply orb_true_iff. done.
Qed.

Lemma safe_float_exponent_marker_witness :
  (startswith "E" "E5" = true ∨ startswith "e" "E5" = true)
  ∧ safe_float "E5" = safe_float "1E5"
  ∧ safe_float "E5" = float_of_Z 100000.
Proof.
  split; [left; reflexivity|]. split.
  - apply (safe_float_exponent_marker "E5"). left. reflexivity.
  - vm_compute. reflexivity.
Defined.

(** The defaults of a Reading of [parse_reading]. *)
Lemma parse_reading_defaults (data : string) (r : gmap string pyval) :
  parse_reading data = Some r →
  rc_values data !! 12%nat = None ∨ rc_values data !! 12%nat = Some "" →
  r !! "Power Supply Mode" = Some (VStr "Unknown")
  ∧ (∀ i key, float_keys !! i = Some key → rc_values data !! i = None →
       r !! key = Some (VFloat float_zero))
  ∧ (rc_values data !! 11%nat = None → r !! "Fatal Error Code" = Some (VInt 0)).
Proof.
  intros Hr Hmode.
  destruct (parse_reading_fields data r Hr)
    as (Hfloats & (fatal & Hfatal & Hrfatal) & (mode & Hm & Hrmode)).
  split; [|split].
  - rewrite Hrmode. rewrite mode_entry_lookup in Hm.
    destruct Hmode as [-> | ->] in Hm; simpl in Hm; congruence.
  - intros i key Hkey Hmissing. rewrite (Hfloats i key Hkey), Hmissing. done.
  - intros Hmissing. rewrite Hrfatal. rewrite fatal_entry_lookup, Hmissing in Hfatal.
    congruence.
Qed.

(** C3.  When the 13th field is missing or empty, the Reading that
    [parse_reading] returns maps Power Supply Mode to the string
    "Unknown", while every other missing field in it is the number zero:
    0.0 for the eleven float fields and 0 for the Fatal Error Code. *)
Theorem parse_reading_unknown_mode (data : string) (r : gmap string pyval) :
  parse_reading data = Some r →
  rc_values data !! 12%nat = None ∨ rc_values data !! 12%nat = Some "" →
  r !! "Power Supply Mode" = Some (VStr "Unknown")
  ∧ (∀ i key, float_keys !! i = Some key → rc_values data !! i = None →
       r !! key = Some (VFloat float_zero))
  ∧ (rc_values data !! 11%nat = None → r !! "Fatal Error Code" = Some (VInt 0)).
Proof. apply parse_reading_defaults. Qed.


Lemma parse_reading_unknown_mode_witness :
  ∃ r : gmap string pyval,
    parse_reading "RC 1.5, E2" = Some r
    ∧ r !! "Cathode Current (A)" = Some (VFloat (float_of_decimal false 15 (-1)))
    ∧ r !! "Power Supply Mode" = Some (VStr "Unknown")
    ∧ r !! "HCN Keeper Voltage (V)" = Some (VFloat float_zero)
    ∧ r !! "Fatal Error Code" = Some (VInt 0).
Proof.
  eexists. split; [reflexivity|]. split; [vm_compute; reflexivity|].
  edestruct (parse_reading_unknown_mode "RC 1.5, E2") as (Hmode & Hfloats & Hfatal);
    [reflexivity | left; reflexivity |].
  split; [exact Hmode|]. split.
  - apply (Hfloats 10%nat); reflexivity.
  - apply Hfatal. reflexivity.
Defined.

(** A line with fewer than ten fields makes [parse_rh_reading] index
    past the end of [values]. *)
Lemma parse_rh_reading_short (data : string) :
  (length (rh_values data) < 10)%nat → parse_rh_reading data = None.
Proof.
  intros Hlen. unfold parse_rh_reading.
  assert (rh_values data !! 9%nat = None) as H9 by (apply lookup_ge_None_2; lia).
  rewrite H9.
  destruct (rh_values data !! 0%nat) as [v0|]; [simpl|done].
  repeat match goal with
         | |- context [?l !! ?i ≫= ?f] =>
           destruct (l !! i ≫= f); [simpl|done]
         end.
  done.
Qed.

(** C2, as stated, fails: the three-field line [12:00:00 1.0 2.0] has
    fewer than the ten fields [parse_rh_reading] expects, and the parser
    returns no Reading for it. *)
Lemma parse_rh_reading_short_line_fails :
  (length (rh_values "12:00:00 1.0 2.0") < 10)%nat
  ∧ ¬ ∃ r : gmap string pyval, parse_rh_reading "12:00:00 1.0 2.0" = Some r.
Proof.
  split; [vm_compute; lia|]. intros [r Hr]. vm_compute in Hr. discriminate.
Qed.

(** C2, amended.  For a response with fewer than 13 fields whose 12th
    field, if there is one that [isdigit()] accepts, is accepted by
    [int()], [parse_reading] returns a Reading in which each missing
    field among the first twelve is zero (0.0 for a float field, 0 for
    the Fatal Error Code) and Power Supply Mode is the string "Unknown";
    for a response with fewer than 10 fields, [parse_rh_reading] returns
    no Reading. *)
Theorem short_response_parsing (data : string) :
  ((length (rc_values data) < 13)%nat →
   (∀ v, rc_values data !! 11%nat = Some v → isdigit v = true →
      is_Some (py_int v)) →
   ∃ r : gmap string pyval,
     parse_reading data = Some r
     ∧ (∀ i key, float_keys !! i = Some key → rc_values data !! i = None →
          r !! key = Some (VFloat float_zero))
     ∧ (rc_values data !! 11%nat = None →
          r !! "Fatal Error Code" = Some (VInt 0))
     ∧ r !! "Power Supply Mode" = Some (VStr "Unknown"))
  ∧ ((length (rh_values data) < 10)%nat → parse_rh_reading data = None).
Proof.
  split; [|apply parse_rh_reading_short].
  intros Hlen Hint.
  assert (rc_values data !! 12%nat = None) as H12
    by (apply lookup_ge_None_2; lia).
  assert (∃ r, parse_reading data = Some r) as [r Hr].
  { rewrite parse_reading_unfold, fatal_entry_lookup, mode_entry_lookup, H12.
    destruct (rc_values data !! 11%nat) as [v|] eqn:H11; [|by eexists].
    destruct (isdigit v) eqn:Hdigit; [|by eexists].
    destruct (Hint v eq_refl Hdigit) as [z ->]. by eexists. }
  exists r. split; [done|].
  destruct (parse_reading_defaults data r Hr (or_introl H12))
    as (Hmode & Hfloats & Hfatal).
  done.
Qed.

Lemma short_response_parsing_witness :
  (∃ r : gmap string pyval,
     parse_reading "0.5,7" = Some r
     ∧ r !! "Discharge Voltage (V)" = Some (VFloat float_zero)
     ∧ r !! "Fatal Error Code" = Some (VInt 0)
     ∧ r !! "Power Supply Mode" = Some (VStr "Unknown"))
  ∧ parse_rh_reading "12:00:00 1.0 2.0" = None.
Proof.
  split.
  - destruct (proj1 (short_response_parsing "0.5,7")) as (r & Hr & Hfl & Hfatal & Hmode).
    + vm_compute. lia.
    + intros v Hv. vm_compute in Hv. discriminate.
    + exists r. split; [exact Hr|]. split; [|split].
      * apply (Hfl 2%nat); reflexivity.
      * apply Hfatal. reflexivity.
      * exact Hmode.
  - apply (proj2 (short_response_parsing "12:00:00 1.0 2.0")). vm_compute. lia.
Defined.

Lemma str_index_lstrip (p : ascii → bool) (c : ascii) (s : string) :
  str_index c s = None → str_index c (lstrip_by p s) = None.
Proof.
  induction s as [|d s IH]; [done|]. intros H. simpl.
  destruct (p d); [|done]. apply IH. simpl in H.
  destruct (Ascii.eqb c d); [done|]. by destruct (str_index c s).
Qed.

Lemma str_index_rstrip (p : ascii → bool) (c : ascii) (s : string) :
  str_index c s = None → str_index c (rstrip_by p s) = None.
Proof.
  induction s as [|d s IH]; [done|]. simpl.
  destruct (Ascii.eqb c d) eqn:Hcd; [done|]. intros H.
  assert (str_index c s = None) as Hs by by destruct (str_index c s).
  specialize (IH Hs).
  destruct (rstrip_by p s) as [|e r].
  - destruct (p d); [done|]. simpl. by rewrite Hcd.
  - simpl. rewrite Hcd. simpl in IH. by rewrite IH.
Qed.

Lemma split_no_separator (c : ascii) (s : string) :
  str_index c s = None → split c s = [s].
Proof.
  induction s as [|d s IH]; [done|]. simpl.
  destruct (Ascii.eqb c d); [done|]. intros H.
  rewrite IH; [done|]. by destruct (str_index c s).
Qed.

(** A reply without a comma has no second field. *)
Lemma no_comma_no_second_field (reply : string) :
  str_index "," reply = None → split "," (strip reply) !! 1%nat = None.
Proof.
  intros H. rewrite split_no_separator; [done|].
  by apply str_index_rstrip, str_index_lstrip.
Qed.

(** * Properties of the gauge protocol and the interlock *)

(** Runs a callback on a state whose fields are known. *)
Ltac exec :=
  lazy -[split strip lookup String.append pretty Z.add Z.of_N hd tail
         py_float app parse_reading format_elapsed].

Lemma send_command_outcome (command : string) (w : World) (g : MaxiGauge) :
  maxigauge w = Some (Some g) →
  (send_command command w).1
  = Ok (match connection g with
        | Some p =>
          if is_open p then
            match incoming p with
            | RxFault :: _ => None
            | _ =>
              match second_reply p with
              | Some reply => split "," (strip reply) !! 1%nat
              | None => None
              end
            end
          else None
        | None => None
        end).
Proof.
  intros Hg. destruct w. simpl in Hg. subst.
  destruct g as [[[op wr inc]|]]; [|done]. destruct op; [|done].
  destruct inc as [|[s1| |] [|[s2| |] rest]]; exec; try reflexivity.
  all: match goal with
    | |- context [split "," ?s !! 1%nat] => destruct (split "," s !! 1%nat); reflexivity
    end.
Qed.

Lemma get_pressure_outcome (sensor : Z) (w : World) (g : MaxiGauge) :
  maxigauge w = Some (Some g) →
  (get_pressure sensor w).1
  = if negb ((1 <=? sensor) && (sensor <=? 6)) then Ok None
    else
      match (send_command ("PR" +:+ pretty sensor) w).1 with
      | Ok (Some r) =>
        if nonempty r then
          match py_float r with
          | Some f => Ok (Some f)
          | None => Raise ValueError
          end
        else Ok None
      | Ok None => Ok None
      | Raise e => Raise e
      | OutOfFuel => OutOfFuel
      end.
Proof.
  intros Hg. unfold get_pressure.
  destruct (negb ((1 <=? sensor) && (sensor <=? 6))); [done|].
  unfold bind at 1. unfold not_connected, self_connection, bind at 1.
  rewrite Hg. unfold ret at 1.
  destruct (match connection g with Some p => negb (is_open p) | None => true end)
    eqn:Habsent.
  - unfold send_command, not_connected, self_connection, bind at 1.
    unfold bind at 1. rewrite Hg. unfold ret at 1. rewrite Habsent. done.
  - unfold bind.
    destruct (send_command ("PR" +:+ pretty sensor) w) as [[[r|]|e|] w']; try done.
    simpl. destruct (nonempty r); [|done]. by destruct (py_float r).
Qed.

(** C10.  [MaxiGauge.send_command] never passes an exception to its
    caller: for every reply of the gauge it returns the second
    comma-separated field of the reply or None.  A reply without a comma
    has no second field, the indexing fails inside the handler,
    [send_command] returns None and [get_pressure] yields no value. *)
Theorem send_command_contains_faults (command : string) (w : World)
    (g : MaxiGauge) :
  maxigauge w = Some (Some g) →
  (∃ r, (send_command command w).1 = Ok r
     ∧ ∀ field, r = Some field →
         ∃ p reply, connection g = Some p ∧ second_reply p = Some reply
           ∧ split "," (strip reply) !! 1%nat = Some field)
  ∧ (∀ p reply,
       connection g = Some p → is_open p = true →
       incoming p !! 0%nat ≠ Some RxFault →
       second_reply p = Some reply →
       (send_command command w).1 = Ok (split "," (strip reply) !! 1%nat))
  ∧ (∀ p reply,
       connection g = Some p → second_reply p = Some reply →
       str_index "," reply = None →
       (send_command command w).1 = Ok None
       ∧ ∀ sensor, (get_pressure sensor w).1 = Ok None).
Proof.
  intros Hg. pose proof (send_command_outcome command w g Hg) as Hout.
  split; [|split].
  - eexists. split; [exact Hout|]. intros field Hfield.
    destruct (connection g) as [p|]; [|done]. destruct (is_open p); [|done].
    exists p.
    destruct (incoming p) as [|[s| |] rest] eqn:Hinc; [| | |done];
      (destruct (second_reply p) as [reply|]; [|done]); by exists reply.
  - intros p reply Hp Hopen Hfirst Hreply. rewrite Hout, Hp, Hopen, Hreply.
    destruct (incoming p) as [|[s| |] rest]; done.
  - intros p reply Hp Hreply Hcomma.
    assert (∀ cmd, (send_command cmd w).1 = Ok None) as Hnone.
    { intros cmd. rewrite (send_command_outcome cmd w g Hg), Hp, Hreply.
      rewrite (no_comma_no_second_field reply Hcomma).
      destruct (is_open p); [|done]. by destruct (incoming p) as [|[s| |] rest]. }
    split; [apply Hnone|]. intros sensor.
    rewrite (get_pressure_outcome sensor w g Hg), Hnone. by destruct (negb _).
Qed.

Lemma send_command_contains_faults_witness :
  let port := opened [RxText "ack"; RxText "garbled"] in
  let g := {| connection := Some port |} in
  let w := set_maxigauge (Some (Some g)) startup in
  (send_command "PR3" w).1 = Ok None ∧ (get_pressure 3 w).1 = Ok None.
Proof.
  intros port g w.
  destruct (send_command_contains_faults "PR3" w g eq_refl) as (_ & _ & Hnone).
  destruct (Hnone port "garbled" eq_refl eq_refl eq_refl) as [Hsend Hget].
  split; [exact Hsend | exact (Hget 3)].
Defined.

Lemma get_pressure_has_fuel (sensor : Z) (w : World) (g : MaxiGauge) :
  maxigauge w = Some (Some g) → (get_pressure sensor w).1 ≠ OutOfFuel.
Proof.
  intros Hg. rewrite (get_pressure_outcome sensor w g Hg).
  rewrite (send_command_outcome _ w g Hg).
  destruct (negb _); [done|].
  simpl.
  match goal with
  | |- match ?x with Some _ => _ | None => _ end ≠ _ => destruct x as [r|]
  end; [|done].
  destruct (nonempty r); [|done]. by destruct (py_float r).
Qed.

(** The band and its two ends, which belong to it. *)
Lemma in_band_examples :
  band_low = S754_finite false 5534023222112865 (-64)
  ∧ band_high = S754_finite false 4611686018427388 (-62)
  ∧ in_band band_low = true
  ∧ in_band band_high = true
  ∧ (in_band <$> py_float "5.0E-04") = Some true
  ∧ (in_band <$> py_float "2.9E-04") = Some false
  ∧ (in_band <$> py_float "1.1E-03") = Some false
  ∧ in_band S754_nan = false.
Proof. repeat split; vm_compute; reflexivity. Qed.

(** The state of the source button after a tick, by the reading. *)
Lemma update_pressure_source_button (w : World) :
  source_button (update_pressure w).2
  = match pressure_reading w with
    | Some p => if in_band p then NORMAL else DISABLED
    | None => DISABLED
    end.
Proof.
  unfold update_pressure, pressure_reading, in_band.
  unfold bind at 1. unfold try_except. unfold bind at 1.
  unfold maxigauge_absent.
  destruct (maxigauge w) as [[g|]|] eqn:Hg; [| reflexivity | reflexivity].
  destruct (match connection g with Some p => negb (is_open p) | None => true end);
    [reflexivity|].
  pose proof (get_pressure_has_fuel 3 w g Hg) as Hfuel.
  unfold bind at 1.
  destruct (get_pressure 3 w) as [[[p|]|e|] w1]; [| reflexivity | reflexivity | done].
  destruct (float_le band_low p && float_le p band_high); reflexivity.
Qed.

(** C1.  In the interlock tick [update_pressure] the source-enable button
    ends enabled exactly when the gauge reading is a number within the
    inclusive band from 3e-4 to 10e-4, and disabled for every reading
    outside the band and whenever there is no reading. *)
Theorem update_pressure_interlock (w : World) :
  (source_button (update_pressure w).2 = NORMAL
   ↔ ∃ p, pressure_reading w = Some p
          ∧ float_le band_low p = true ∧ float_le p band_high = true)
  ∧ (source_button (update_pressure w).2 = DISABLED
     ↔ ¬ ∃ p, pressure_reading w = Some p
              ∧ float_le band_low p = true ∧ float_le p band_high = true).
Proof.
  rewrite update_pressure_source_button. unfold in_band.
  destruct (pressure_reading w) as [p|].
  - assert ((∃ q, Some p = Some q ∧ float_le band_low q = true
                  ∧ float_le q band_high = true)
            ↔ float_le band_low p && float_le p band_high = true) as ->.
    { rewrite andb_true_iff. split.
      - by intros (q & [= <-] & Hlow & Hhigh).
      - intros [Hlow Hhigh]. by exists p. }
    destruct (float_le band_low p && float_le p band_high);
      split; split; congruence.
  - split; split.
    + done.
    + by intros (q & Hq & _).
    + by intros _ (q & Hq & _).
    + done.
Qed.

(** The ways a tick has no reading: no gauge object, no connection or a
    closed one, a call that returns None, and a call that raises. *)
Lemma pressure_reading_absent (w : World) :
  (maxigauge w = None ∨ maxigauge w = Some None
   ∨ (∃ g, maxigauge w = Some (Some g)
        ∧ (connection g = None
           ∨ (∃ p, connection g = Some p ∧ is_open p = false)))
   ∨ (get_pressure 3 w).1 = Ok None
   ∨ (∃ e, (get_pressure 3 w).1 = Raise e)) →
  pressure_reading w = None ∧ source_button (update_pressure w).2 = DISABLED.
Proof.
  intros Hcases.
  assert (pressure_reading w = None) as Hnone; [|split; [done|]].
  - unfold pressure_reading, maxigauge_absent.
    destruct Hcases as [-> | [-> | [(g & -> & Hconn) | Hget]]]; [done | done | |].
    + by destruct Hconn as [-> | (p & -> & ->)].
    + destruct (maxigauge w) as [[g|]|]; [|done|done].
      destruct (match connection g with Some p => negb (is_open p) | None => true end);
        [done|].
      destruct (get_pressure 3 w) as [[[p|]|e|] w1]; try done.
      by destruct Hget as [Hget | (e & Hget)].
  - by rewrite update_pressure_source_button, Hnone.
Qed.

(** With the source off, [toggle_beam] only shows a message box. *)
Lemma toggle_beam_source_off_run (w : World) :
  source_on w = false →
  toggle_beam w
  = match device w with
    | Some p =>
      if is_open p then
        messagebox ShowWarning "Warning"
          "The source must be turned on before enabling the beam." None w
      else messagebox ShowError "Error" "Device is not connected." None w
    | None => (Raise NameError, w)
    end.
Proof.
  intros Hoff. unfold toggle_beam, device_absent, the_device, bind, gets, ret.
  destruct (device w) as [p|]; [|done].
  destruct (is_open p); simpl; [|done]. by rewrite Hoff.
Qed.

(** C9, amended.  With the source off, [toggle_beam] writes no command
    and leaves the ports, [beam_on] and [source_on] as they were; it only
    reports: the warning when the device is connected, the error
    "Device is not connected." when its port is closed.  (While the name
    [device] is unbound, the NameError leaves the callback and nothing
    is shown.) *)
Theorem toggle_beam_source_off (w : World) :
  source_on w = false →
  device (toggle_beam w).2 = device w
  ∧ maxigauge (toggle_beam w).2 = maxigauge w
  ∧ beam_on (toggle_beam w).2 = beam_on w
  ∧ source_on (toggle_beam w).2 = source_on w
  ∧ (∀ p, device w = Some p → is_open p = true →
       reported_as ShowWarning w (toggle_beam w).2)
  ∧ (∀ p, device w = Some p → is_open p = false →
       reported_as ShowError w (toggle_beam w).2)
  ∧ (device w = None →
       (toggle_beam w).1 = Raise NameError
       ∧ dialogs (toggle_beam w).2 = dialogs w).
Proof.
  intros Hoff. rewrite (toggle_beam_source_off_run w Hoff).
  unfold reported_as, messagebox, modify.
  destruct (device w) as [p|] eqn:Hdev; [destruct (is_open p) eqn:Hopen|];
    simpl.
  - repeat split; try done; intros q [= <-] Hq; [|congruence].
    eexists. split; [|reflexivity]. reflexivity.
  - repeat split; try done; intros q [= <-] Hq; [congruence|].
    eexists. split; [|reflexivity]. reflexivity.
  - repeat split; done.
Qed.

Lemma toggle_beam_source_off_witness :
  let w := set_device (Some (opened [])) startup in
  device (toggle_beam w).2 = device w
  ∧ beam_on (toggle_beam w).2 = false
  ∧ reported_as ShowWarning w (toggle_beam w).2.
Proof.
  intros w.
  destruct (toggle_beam_source_off w eq_refl)
    as (Hdev & _ & Hbeam & _ & Hwarn & _).
  split; [exact Hdev|]. split; [exact Hbeam|].
  exact (Hwarn (opened []) eq_refl eq_refl).
Defined.

(** C9, as stated, fails: with the source off and the port of the device
    closed, [toggle_beam] reports an error and no warning. *)
Lemma toggle_beam_closed_port_no_warning :
  let w := set_device (Some closed) startup in
  source_on w = false
  ∧ map kind (dialogs (toggle_beam w).2) = [ShowError]
  ∧ ¬ reported_as ShowWarning w (toggle_beam w).2.
Proof.
  intros w. split; [reflexivity|]. split; [reflexivity|].
  intros (d & Hkind & Hd). vm_compute in Hd. injection Hd as <-. discriminate.
Qed.

(** * The history sequences *)

Section Rules.
Context {A B : Type}.
Implicit Types (P Q R : World → Prop).

Lemma hoare_weaken P Q (m : M A) :
  preserves P m → (∀ w, P w → Q w) → hoare P m Q.
Proof. intros Hm HPQ w Hw. apply HPQ, Hm, Hw. Qed.

Lemma hoare_bind P R Q (m : M A) (k : A → M B) :
  hoare P m R → (∀ w, R w → Q w) → (∀ a, hoare R (k a) Q) →
  hoare P (bind m k) Q.
Proof.
  intros Hm HRQ Hk w Hw. specialize (Hm w Hw). unfold bind.
  destruct (m w) as [[a|e|] w1]; simpl in *; [by apply Hk | by apply HRQ..].
Qed.

Lemma hoare_try_except P R Q (m : M A) (h : exn → M A) :
  hoare P m R → (∀ w, R w → Q w) → (∀ e, hoare R (h e) Q) →
  hoare P (try_except m h) Q.
Proof.
  intros Hm HRQ Hh w Hw. specialize (Hm w Hw). unfold try_except.
  destruct (m w) as [[a|e|] w1]; simpl in *; [by apply HRQ | by apply Hh | by apply HRQ].
Qed.

Lemma preserves_ret P (a : A) : preserves P (ret a).
Proof. by intros w Hw. Qed.

Lemma preserves_raise P (e : exn) : preserves P (raise e : M A).
Proof. by intros w Hw. Qed.

Lemma preserves_gets P (f : World → A) : preserves P (gets f).
Proof. by intros w Hw. Qed.

Lemma preserves_bind P (m : M A) (k : A → M B) :
  preserves P m → (∀ a, preserves P (k a)) → preserves P (bind m k).
Proof. intros Hm Hk. by apply hoare_bind with P. Qed.

Lemma preserves_try_except P (m : M A) (h : exn → M A) :
  preserves P m → (∀ e, preserves P (h e)) → preserves P (try_except m h).
Proof. intros Hm Hh. by apply hoare_try_except with P. Qed.
End Rules.

Lemma preserves_modify (P : World → Prop) (f : World → World) :
  (∀ w, P w → P (f w)) → preserves P (modify f).
Proof. intros Hf w Hw. by apply Hf. Qed.

Lemma preserves_the_device (P : World → Prop) : preserves P the_device.
Proof. intros w Hw. unfold the_device. by destruct (device w). Qed.

Lemma preserves_self_connection (P : World → Prop) : preserves P self_connection.
Proof. intros w Hw. unfold self_connection. by destruct (maxigauge w) as [[g|]|]. Qed.

Lemma preserves_maxigauge_absent (P : World → Prop) : preserves P maxigauge_absent.
Proof. intros w Hw. unfold maxigauge_absent. by destruct (maxigauge w) as [[g|]|]. Qed.

(** To keep [P], a write to the device may rely on the port it finds. *)
Lemma preserves_device_write (P : World → Prop) (b : string) :
  (∀ w p, P w → device w = Some p → is_open p = true →
     P (set_device (Some {| is_open := true; written := written p ++ [b];
                            incoming := incoming p |}) w)) →
  preserves P (blocking 0) →
  preserves P (device_write b).
Proof.
  intros Hset Hblock w Hw. unfold device_write, the_device, bind at 1.
  destruct (device w) as [p|] eqn:Hdev; [|done].
  unfold port_write. destruct (is_open p) eqn:Hopen; [|done].
  unfold bind, modify. cbv beta iota. apply Hblock. by apply Hset.
Qed.

Lemma preserves_device_read_all (P : World → Prop) :
  (∀ w p, P w → device w = Some p →
     P (set_device (Some (port_read p).2) w)) →
  preserves P (blocking 0) →
  preserves P device_read_all.
Proof.
  intros Hset Hblock w Hw. unfold device_read_all, the_device, bind at 1.
  destruct (device w) as [p|] eqn:Hdev; [|done].
  unfold bind at 1. unfold modify. cbv beta iota.
  apply preserves_bind; [done | | by apply Hset]. intros _.
  destruct (port_read p).1; [apply preserves_raise | apply preserves_ret].
Qed.

Lemma preserves_connection_write (P : World → Prop) (b : string) :
  (∀ w v, P w → P (set_maxigauge v w)) →
  preserves P (blocking 0) →
  preserves P (connection_write b).
Proof.
  intros Hset Hblock. unfold connection_write.
  apply preserves_bind; [apply preserves_self_connection|].
  intros [p|]; [|apply preserves_raise].
  destruct (port_write b p); [apply preserves_raise|].
  apply preserves_bind; [|done]. apply preserves_modify. intros w. apply Hset.
Qed.

Lemma preserves_connection_read_until (P : World → Prop) :
  (∀ w v, P w → P (set_maxigauge v w)) →
  preserves P (blocking 0) →
  preserves P connection_read_until.
Proof.
  intros Hset Hblock. unfold connection_read_until.
  apply preserves_bind; [apply preserves_self_connection|].
  intros [p|]; [|apply preserves_raise].
  apply preserves_bind; [apply preserves_modify; intros w; apply Hset|].
  intros _. apply preserves_bind; [done|]. intros _.
  destruct (port_read p).1; [apply preserves_raise | apply preserves_ret].
Qed.

Lemma preserves_out_of_fuel {A} (P : World → Prop) :
  preserves P (λ w, (@OutOfFuel A, w)).
Proof. by intros w Hw. Qed.

Create HintDb frame.

Ltac head_of t :=
  lazymatch t with
  | ?f _ => head_of f
  | _ => t
  end.

(** Walks through a callback; [side] shows that [P] survives one update
    of the state. *)
Ltac frame side :=
  repeat lazymatch goal with
  | |- preserves _ (bind _ _) => apply preserves_bind; [|intros ?]
  | |- preserves _ (try_except _ _) => apply preserves_try_except; [|intros ?]
  | |- preserves _ (ret _) => apply preserves_ret
  | |- preserves _ (raise _) => apply preserves_raise
  | |- preserves _ (gets _) => apply preserves_gets
  | |- preserves _ (modify _) => apply preserves_modify; side
  | |- preserves _ the_device => apply preserves_the_device
  | |- preserves _ self_connection => apply preserves_self_connection
  | |- preserves _ maxigauge_absent => apply preserves_maxigauge_absent
  | |- preserves _ (device_write _) => apply preserves_device_write; [side|]
  | |- preserves _ device_read_all => apply preserves_device_read_all; [side|]
  | |- preserves _ (connection_write _) =>
    apply preserves_connection_write; [side|]
  | |- preserves _ connection_read_until =>
    apply preserves_connection_read_until; [side|]
  | |- preserves _ (if ?b then _ else _) => destruct b
  | |- preserves _ (match ?x with Some _ => _ | None => _ end) => destruct x
  | |- preserves _ (match ?x with BText _ => _ | BGarbage => _ end) => destruct x
  | |- preserves _ (λ w, (OutOfFuel, w)) => apply preserves_out_of_fuel
  | |- preserves _ ?m =>
    first [ solve [auto with frame] | let h := head_of m in progress unfold h ]
  end.

Ltac history_side := intros; assumption.

Section History.
Variable Q : list string * list pyval * list pyval * list (option float) → Prop.

Lemma history_get_pressure (sensor : Z) : preserves (λ w, Q (history w)) (get_pressure sensor).
Proof. frame history_side. Qed.

Lemma history_update_pressure : preserves (λ w, Q (history w)) update_pressure.
Proof. frame history_side. Qed.

Lemma history_toggle_source : preserves (λ w, Q (history w)) toggle_source.
Proof. frame history_side. Qed.

Lemma history_toggle_beam : preserves (λ w, Q (history w)) toggle_beam.
Proof. frame history_side. Qed.
End History.

Lemma same_history_refl (w : World) : same_history w w.
Proof. done. Qed.

Lemma same_history_alt (w w' : World) :
  same_history w w' ↔ history w' = history w.
Proof.
  unfold same_history, history. split.
  - by intros (-> & -> & -> & ->).
  - by intros [= -> -> -> ->].
Qed.

(** The block of four [append]s of a poll. *)
Lemma read_values_appends (w0 : World) (parsed_data : gmap string pyval)
    (data : string) (pressure_sensor_3 : option float) :
  parse_reading data = Some parsed_data →
  hoare (same_history w0)
    (if bool_decide (parsed_data = ∅) then ret tt
     else
       now <- time_time;;
       started <- gets start_time;;
       elapsed_time <-
         match started with
         | Some t0 => ret (now - t0)
         | None => raise TypeError
         end;;
       let elapsed_time_formatted := format_elapsed elapsed_time in
       modify (λ w,
         set_timestamps (timestamps w ++ [elapsed_time_formatted]) w);;
       discharge <- item parsed_data "Discharge Current (A)";;
       modify (λ w,
         set_discharge_currents (discharge_currents w ++ [discharge]) w);;
       beam <- item parsed_data "Beam Current (mA)";;
       modify (λ w, set_beam_currents (beam_currents w ++ [beam]) w);;
       modify (λ w, set_pressure (pressure w ++ [pressure_sensor_3]) w))
    (λ w, same_history w0 w ∨ appended_one w0 w).
Proof.
  intros Hparsed w Hsame.
  destruct (parse_reading_fields data parsed_data Hparsed) as (Hfloats & _ & _).
  pose proof (Hfloats 1%nat _ eq_refl) as Hdischarge.
  pose proof (Hfloats 3%nat _ eq_refl) as Hbeam.
  case_bool_decide; [by left|].
  unfold bind, time_time, gets, item, modify, ret, raise.
  rewrite Hdischarge, Hbeam.
  destruct (start_time w) as [t0|]; [|by left].
  right. destruct Hsame as (Ht & Hd & Hb & Hp). simpl.
  rewrite Ht, Hd, Hb, Hp. by do 4 eexists.
Qed.

(** A poll leaves the four histories alone or appends exactly one
    element to each. *)
Lemma read_values_history (force_read : bool) (w : World) :
  same_history w (read_values force_read w).2
  ∨ appended_one w (read_values force_read w).2.
Proof.
  set (S0 := same_history w).
  set (Q0 := λ w', same_history w w' ∨ appended_one w w').
  assert (∀ w', S0 w' → Q0 w') as Hweak by (by left).
  assert (∀ A (m : M A), preserves S0 m → hoare S0 m Q0) as Hlift
    by (intros A m Hm; by apply hoare_weaken).
  assert (∀ A (m : M A),
            preserves (λ w', (λ h, h = history w) (history w')) m →
            preserves S0 m) as Hhist.
  { intros A m Hm w' Hw'. apply same_history_alt, Hm, same_history_alt, Hw'. }
  enough (hoare S0 (read_values force_read) Q0) as H
    by (apply H, same_history_refl).
  unfold read_values.
  apply hoare_try_except with Q0; [|done|by intros e w' Hw'].
  apply hoare_bind with S0; [|done|].
  { apply Hhist. frame history_side. }
  intros absent. destruct absent.
  { apply Hlift, Hhist. frame history_side. }
  apply hoare_bind with S0; [|done|].
  { apply Hhist. frame history_side. }
  intros gauge_absent.
  apply hoare_bind with S0; [|done|].
  { apply Hhist. destruct gauge_absent; [apply preserves_ret|].
    apply (history_get_pressure (λ h, h = history w)). }
  intros pressure_sensor_3.
  apply hoare_bind with S0; [|done|].
  { apply Hhist. frame history_side. }
  intros active. destruct (negb active && negb force_read).
  { apply Hlift, preserves_ret. }
  apply hoare_bind with S0; [|done|].
  { apply Hhist. frame history_side. }
  intros _. apply hoare_bind with S0; [|done|].
  { apply Hhist. frame history_side. }
  intros _. apply hoare_bind with S0; [|done|].
  { apply Hhist. frame history_side. }
  intros raw. apply hoare_bind with S0; [|done|].
  { apply Hhist. frame history_side. }
  intros text. apply hoare_bind with S0; [|done|].
  { apply Hhist. frame history_side. }
  intros response. apply hoare_bind with Q0; [|done|].
  - destruct (parse_reading response) as [parsed_data|] eqn:Hparsed.
    + by apply read_values_appends with response.
    + apply Hlift, preserves_ret.
  - intros _. destruct force_read; [apply preserves_ret|].
    unfold after. apply preserves_modify. intros w' [Hw' | Hw']; [by left|by right].
Qed.

Lemma read_values_aligned (force_read : bool) :
  preserves aligned (read_values force_read).
Proof.
  intros w (Htd & Hdb & Hbp).
  destruct (read_values_history force_read w)
    as [(Ht & Hd & Hb & Hp) | (t & d & b & p & Ht & Hd & Hb & Hp)];
    unfold aligned; rewrite Ht, Hd, Hb, Hp; [done|].
  rewrite !length_app. simpl. lia.
Qed.

#[local] Hint Resolve read_values_aligned : frame.

Ltac aligned_side := intros; assumption.

Lemma busy_poll_aligned (fuel : nat) (start : Z) (limit : float) :
  preserves aligned (busy_poll fuel start limit).
Proof.
  induction fuel as [|fuel IH]; simpl; frame aligned_side.
Qed.

#[local] Hint Resolve busy_poll_aligned : frame.

Lemma run_periods_aligned (fuel periods : nat) (on_time off_time : float) :
  preserves aligned (run_periods fuel periods on_time off_time).
Proof.
  induction periods as [|periods IH]; simpl; frame aligned_side.
Qed.

#[local] Hint Resolve run_periods_aligned : frame.

Lemma run_aligned (a : action) : preserves aligned (run a).
Proof.
  destruct a; simpl.
  7: { intros w _. by repeat split. }
  all: frame aligned_side.
Qed.

(** Runs the rest of a poll on a state whose fields are known. *)
Ltac exec_poll :=
  lazy -[split strip lookup String.append pretty Z.add Z.sub Z.of_N hd tail
         py_float app parse_reading format_elapsed startswith str_index
         str_drop Nat.add bool_decide empty gmap_lookup gmap_empty
         String.eq_dec String.countable].

Lemma poll_gauge_frame (w : World) :
  preserves (λ w', device w' = device w ∧ reading_active w' = reading_active w
                   ∧ start_time w' = start_time w ∧ history w' = history w)
    poll_gauge.
Proof. frame history_side. Qed.

(** A poll that gets a parsable line appends the line's two currents and
    the gauge reading. *)
Lemma read_values_successful_poll (force_read : bool) (w w1 : World)
    (pressure_sensor_3 : option float) (p : Serial) (text response : string)
    (rest : list rx_event) (t0 : Z) (r : gmap string pyval) :
  poll_gauge w = (Ok pressure_sensor_3, w1) →
  device w = Some p → is_open p = true → incoming p = RxText text :: rest →
  reading_active w = true ∨ force_read = true →
  start_time w = Some t0 →
  poll_response text = Some response →
  parse_reading response = Some r →
  ∃ t d b,
    r !! "Discharge Current (A)" = Some d ∧ r !! "Beam Current (mA)" = Some b
    ∧ timestamps (read_values force_read w).2 = timestamps w ++ [t]
    ∧ discharge_currents (read_values force_read w).2
      = discharge_currents w ++ [d]
    ∧ beam_currents (read_values force_read w).2 = beam_currents w ++ [b]
    ∧ pressure (read_values force_read w).2 = pressure w ++ [pressure_sensor_3].
Proof.
  intros Hgauge Hdev Hopen Hinc Hactive Hstart Hresponse Hparsed.
  destruct (parse_reading_fields response r Hparsed) as (Hfloats & _ & _).
  pose proof (Hfloats 1%nat _ eq_refl) as Hdischarge.
  pose proof (Hfloats 3%nat _ eq_refl) as Hbeam.
  assert (r ≠ ∅) as Hne by (intros ->; by rewrite lookup_empty in Hbeam).
  pose proof (poll_gauge_frame w w (conj eq_refl (conj eq_refl (conj eq_refl eq_refl))))
    as Hframe.
  rewrite Hgauge in Hframe. simpl in Hframe.
  destruct Hframe as (Hdev1 & Hactive1 & Hstart1 & Hhist1).
  rewrite Hdev in Hdev1. rewrite Hstart in Hstart1.
  injection Hhist1 as Ht Hd Hb Hp. rewrite <- Ht, <- Hd, <- Hb, <- Hp.
  assert (negb (reading_active w1) && negb force_read = false) as Hgo.
  { rewrite Hactive1. destruct Hactive as [-> | ->]; [done|]. apply andb_false_r. }
  remember (read_values force_read w).2 as w' eqn:Hw'.
  unfold read_values, try_except in Hw'. unfold bind at 1 in Hw'.
  unfold device_absent, the_device, bind at 1 in Hw'. rewrite Hdev in Hw'.
  unfold ret at 1 in Hw'.
  rewrite Hopen in Hw'. change (negb true) with false in Hw'. cbv beta iota in Hw'.
  unfold poll_gauge in Hgauge. unfold bind at 1 in Hgauge. unfold bind at 1 in Hw'.
  destruct (maxigauge_absent w) as [[gauge_absent|e|] w0]; [|done|done].
  unfold bind at 1 in Hw'. rewrite Hgauge in Hw'.
  unfold bind at 1 in Hw'. unfold gets at 1 in Hw'. cbv beta iota in Hw'.
  rewrite Hgo in Hw'.
  clear Hgauge Hactive1 Hgo Ht Hd Hb Hp w w0 Hactive Hdev Hstart gauge_absent.
  destruct w1 as [clk jit dev gauge src act bm started ts dcs bcs prs sbtn
                   bbtn pent onent offent perent dlg tmr].
  simpl in Hdev1, Hstart1. subst dev started.
  destruct p as [op wr inc]. simpl in Hopen, Hinc. subst op inc.
  unfold poll_response in Hresponse.
  revert Hw'. exec_poll.
  destruct (startswith "RC" (strip text));
    [destruct (str_index "010" (strip text)) as [i|]; [|done]|];
    simpl in Hresponse; injection Hresponse as <-;
    rewrite Hparsed; exec_poll;
    rewrite (bool_decide_eq_false_2 _ Hne); exec_poll;
    rewrite Hdischarge; exec_poll; rewrite Hbeam; exec_poll;
    destruct force_read; intros ->; do 3 eexists; repeat split; reflexivity.
Qed.

(** C4.  The four history sequences have one length at every
    observation point: they start empty, every callback keeps the
    lengths equal, each poll of [read_values] either leaves the four
    alone or appends exactly one element to each of them, a poll that
    succeeds (the gauge query returns, the device sends a line that
    parses, the loop is active or the read forced, the start time set)
    does append, and [clear_data] leaves all four empty. *)
Theorem history_lengths_agree :
  aligned startup
  ∧ (∀ (trace : list action) (w : World),
       aligned w → aligned (foldl step w trace))
  ∧ (∀ (force_read : bool) (w : World),
       same_history w (read_values force_read w).2
       ∨ appended_one w (read_values force_read w).2)
  ∧ (∀ (force_read : bool) (w w1 : World) (pressure_sensor_3 : option float)
       (p : Serial) (text response : string) (rest : list rx_event) (t0 : Z)
       (r : gmap string pyval),
       poll_gauge w = (Ok pressure_sensor_3, w1) →
       device w = Some p → is_open p = true →
       incoming p = RxText text :: rest →
       reading_active w = true ∨ force_read = true →
       start_time w = Some t0 →
       poll_response text = Some response →
       parse_reading response = Some r →
       ∃ t d b,
         r !! "Discharge Current (A)" = Some d
         ∧ r !! "Beam Current (mA)" = Some b
         ∧ timestamps (read_values force_read w).2 = timestamps w ++ [t]
         ∧ discharge_currents (read_values force_read w).2
           = discharge_currents w ++ [d]
         ∧ beam_currents (read_values force_read w).2
           = beam_currents w ++ [b]
         ∧ pressure (read_values force_read w).2
           = pressure w ++ [pressure_sensor_3])
  ∧ (∀ w : World,
       timestamps (clear_data w).2 = []
       ∧ discharge_currents (clear_data w).2 = []
       ∧ beam_currents (clear_data w).2 = []
       ∧ pressure (clear_data w).2 = []).
Proof.
  split; [done|]. split; [|split; [|split]].
  - intros trace. induction trace as [|a trace IH]; intros w Hw; [done|].
    simpl. apply IH. by apply run_aligned.
  - apply read_values_history.
  - apply read_values_successful_poll.
  - done.
Qed.

Lemma history_lengths_agree_witness :
  let w := set_maxigauge (Some None)
             (set_device (Some (opened [RxText "1.0,2.0,3.0,4.0"])) startup) in
  aligned (foldl step w [ToggleReading; ReadValues false; ToggleBeam])
  ∧ appended_one w (step w ToggleReading)
  ∧ timestamps (step w ToggleReading) = ["0:00"].
Proof.
  intros w. destruct history_lengths_agree as (Hstart & Htrace & _).
  split; [apply Htrace; exact Hstart|].
  split; [|reflexivity].
  exists "0:00", (VFloat (float_of_Z 2)), (VFloat (float_of_Z 4)), None.
  repeat split; reflexivity.
Defined.

(** * The timed beam sequence *)

Section FuelRules.
Context {A B : Type}.

Lemma fuel_free_ret (a : A) : fuel_free (ret a).
Proof. by intros w. Qed.

Lemma fuel_free_raise (e : exn) : fuel_free (raise e : M A).
Proof. by intros w. Qed.

Lemma fuel_free_gets (f : World → A) : fuel_free (gets f).
Proof. by intros w. Qed.

Lemma fuel_free_bind (m : M A) (k : A → M B) :
  fuel_free m → (∀ a, fuel_free (k a)) → fuel_free (bind m k).
Proof.
  intros Hm Hk w. specialize (Hm w). unfold bind.
  destruct (m w) as [[a|e|] w1]; [apply Hk | done | done].
Qed.

Lemma fuel_free_try_except (m : M A) (h : exn → M A) :
  fuel_free m → (∀ e, fuel_free (h e)) → fuel_free (try_except m h).
Proof.
  intros Hm Hh w. specialize (Hm w). unfold try_except.
  destruct (m w) as [[a|e|] w1]; [done | apply Hh | done].
Qed.
End FuelRules.

Lemma fuel_free_modify (f : World → World) : fuel_free (modify f).
Proof. by intros w. Qed.

Lemma fuel_free_the_device : fuel_free the_device.
Proof. intros w. unfold the_device. by destruct (device w). Qed.

Lemma fuel_free_self_connection : fuel_free self_connection.
Proof. intros w. unfold self_connection. by destruct (maxigauge w) as [[g|]|]. Qed.

Lemma fuel_free_maxigauge_absent : fuel_free maxigauge_absent.
Proof. intros w. unfold maxigauge_absent. by destruct (maxigauge w) as [[g|]|]. Qed.

(** Walks through a callback that has no loop. *)
Ltac fuel :=
  repeat lazymatch goal with
  | |- fuel_free (bind _ _) => apply fuel_free_bind; [|intros ?]
  | |- fuel_free (try_except _ _) => apply fuel_free_try_except; [|intros ?]
  | |- fuel_free (ret _) => apply fuel_free_ret
  | |- fuel_free (raise _) => apply fuel_free_raise
  | |- fuel_free (gets _) => apply fuel_free_gets
  | |- fuel_free (modify _) => apply fuel_free_modify
  | |- fuel_free the_device => apply fuel_free_the_device
  | |- fuel_free self_connection => apply fuel_free_self_connection
  | |- fuel_free maxigauge_absent => apply fuel_free_maxigauge_absent
  | |- fuel_free (if ?b then _ else _) => destruct b
  | |- fuel_free (match ?x with Some _ => _ | None => _ end) => destruct x
  | |- fuel_free (match ?x with BText _ => _ | BGarbage => _ end) => destruct x
  | |- fuel_free (match ?x with inl _ => _ | inr _ => _ end) => destruct x
  | |- fuel_free ?m => let h := head_of m in progress unfold h
  end.

(** A poll always returns: its handler takes every exception. *)
Lemma read_values_returns (force_read : bool) (w : World) :
  ∃ w', read_values force_read w = (Ok tt, w').
Proof.
  assert (fuel_free (read_values force_read)) as Hfuel by fuel.
  specialize (Hfuel w). revert Hfuel. unfold read_values, try_except, ret.
  match goal with |- context [match ?m with _ => _ end] => destruct m as [[[]|e|] w'] end;
    [by eexists | by eexists | done].
Qed.

Lemma sequence_inv_frame (base sent : list string) (c : Z) (active : bool)
    (w w' : World) :
  sequence_inv base sent c active w →
  device w' = device w → clock w ≤ clock w' →
  source_on w' = source_on w → reading_active w' = reading_active w →
  sequence_inv base sent c active w'.
Proof.
  intros (Hdev & Hclock & Hon & Hactive) Hd Hc Hs Hr.
  unfold sequence_inv. rewrite Hd, Hs, Hr. repeat split; [done | lia | done..].
Qed.

Lemma beam_commands_app (l k : list string) :
  beam_commands (l ++ k) = beam_commands l ++ beam_commands k.
Proof. apply filter_app. Qed.

(** Writing [b] extends what was sent by [b] if it is a beam command. *)
Lemma sequence_inv_write (base sent : list string) (c : Z) (active : bool)
    (b : string) (w : World) (p : Serial) :
  sequence_inv base sent c active w → device w = Some p →
  sequence_inv base (sent ++ beam_commands [b]) c active
    (set_device (Some {| is_open := true; written := written p ++ [b];
                         incoming := incoming p |}) w).
Proof.
  intros ((q & more & Hq & Hopen & Hfree & Hwritten & Hsent) & Hrest) Hp.
  rewrite Hp in Hq. injection Hq as <-.
  split; [|exact Hrest]. eexists _, (more ++ [b]). simpl.
  repeat split; [done | | ].
  - by rewrite Hwritten, (assoc_L (++)).
  - by rewrite beam_commands_app, Hsent.
Qed.

Lemma sequence_inv_read (base sent : list string) (c : Z) (active : bool)
    (w : World) (p : Serial) :
  sequence_inv base sent c active w → device w = Some p →
  sequence_inv base sent c active (set_device (Some (port_read p).2) w).
Proof.
  intros ((q & more & Hq & Hopen & Hfree & Hwritten & Hsent) & Hrest) Hp.
  rewrite Hp in Hq. injection Hq as <-.
  split; [|exact Hrest]. unfold port_read. rewrite Hopen.
  destruct (incoming p) as [|ev rest] eqn:Hinc.
  - exists p, more. simpl. done.
  - eexists _, more. unfold fault_free in *. rewrite Hinc in Hfree.
    apply Forall_cons in Hfree as [Hev Hfree].
    destruct ev; simpl; done.
Qed.

Lemma sequence_inv_write_other (base sent : list string) (c : Z)
    (active : bool) (b : string) (w : World) (p : Serial) :
  is_beam_command b = false →
  sequence_inv base sent c active w → device w = Some p →
  sequence_inv base sent c active
    (set_device (Some {| is_open := true; written := written p ++ [b];
                         incoming := incoming p |}) w).
Proof.
  intros Hb Hinv Hp.
  pose proof (sequence_inv_write base sent c active b w p Hinv Hp) as H.
  unfold beam_commands in H. rewrite filter_cons_False in H by congruence.
  by rewrite filter_nil, app_nil_r in H.
Qed.

Ltac sequence_side :=
  first
    [ intros w p Hinv Hp _;
      apply sequence_inv_write_other; [reflexivity | exact Hinv | exact Hp]
    | intros w p Hinv Hp; exact (sequence_inv_read _ _ _ _ w p Hinv Hp)
    | intros; eapply sequence_inv_frame;
      [eassumption | reflexivity | simpl; lia | reflexivity | reflexivity] ].

Lemma read_values_sequence_inv (base sent : list string) (c : Z)
    (active force_read : bool) :
  preserves (sequence_inv base sent c active) (read_values force_read).
Proof. frame sequence_side. Qed.

Section ReturnRules.
Context {A B : Type}.

Lemma returns_bind (P : World → Prop) (Q : A → World → Prop)
    (R : B → World → Prop) (m : M A) (k : A → M B) :
  returns P m Q → (∀ a, returns (Q a) (k a) R) → returns P (bind m k) R.
Proof.
  intros Hm Hk w Hw. destruct (Hm w Hw) as (a & w1 & Hrun & Hq).
  unfold bind. rewrite Hrun. by apply Hk.
Qed.

Lemma returns_ret (P : World → Prop) (a : A) : returns P (ret a) (λ _, P).
Proof. intros w Hw. by exists a, w. Qed.
End ReturnRules.

Lemma py_float_one : py_float "1" = Some (float_of_Z 1).
Proof. vm_compute. reflexivity. Qed.

Lemma elapsed_lt_one (ms : Z) : elapsed_lt ms (float_of_Z 1) = (ms <? 1000).
Proof.
  change (float_of_Z 1) with (S754_finite false 4503599627370496 (-52)).
  unfold elapsed_lt. simpl.
  change (2 ^ (- (-52))) with 4503599627370496.
  destruct (Z.ltb_spec (ms * 4503599627370496) (1000 * 4503599627370496));
    destruct (Z.ltb_spec ms 1000); first [reflexivity | lia].
Qed.

Lemma busy_poll_step (fuel : nat) (start : Z) (limit : float) (w : World) :
  busy_poll fuel start limit w
  = if elapsed_lt (clock w - start) limit then
      match fuel with
      | O => (OutOfFuel, w)
      | S fuel' =>
        (read_values true;; sleep 500;; busy_poll fuel' start limit) w
      end
    else (Ok tt, w).
Proof.
  destruct fuel; simpl; unfold bind at 1, time_time, gets;
    by destruct (elapsed_lt (clock w - start) limit).
Qed.

Section Sequence.
Variables (base : list string) (c : Z) (active : bool).

Lemma device_write_returns (sent : list string) (b : string) :
  returns (sequence_inv base sent c active) (device_write b)
    (λ _, sequence_inv base (sent ++ beam_commands [b]) c active).
Proof.
  intros w Hinv. destruct Hinv as ((p & more & Hp & Hopen & Hrest) & Hrest') eqn:E.
  clear E.
  pose proof (sequence_inv_write base sent c active b w p Hinv Hp) as Hnew.
  unfold device_write, the_device, bind, port_write, modify, blocking.
  rewrite Hp, Hopen. eexists _, _. split; [reflexivity|].
  eapply sequence_inv_frame; [exact Hnew | reflexivity | simpl; lia | reflexivity..].
Qed.

Lemma device_read_all_returns (sent : list string) :
  returns (sequence_inv base sent c active) device_read_all
    (λ _, sequence_inv base sent c active).
Proof.
  intros w Hinv. destruct Hinv as ((p & more & Hp & Hopen & Hfree & Hrest) & Hrest') eqn:E.
  clear E.
  pose proof (sequence_inv_read base sent c active w p Hinv Hp) as Hnew.
  unfold device_read_all, the_device, bind, modify, blocking.
  rewrite Hp. cbv beta iota.
  assert (∃ r, (port_read p).1 = inr r) as [r Hr].
  { unfold port_read. rewrite Hopen. unfold fault_free in Hfree.
    destruct (incoming p) as [|ev rest]; [by eexists|].
    apply Forall_cons in Hfree as [Hev _].
    destruct ev; [by eexists | by eexists | done]. }
  rewrite Hr. eexists _, _. split; [reflexivity|].
  eapply sequence_inv_frame; [exact Hnew | reflexivity | simpl; lia | reflexivity..].
Qed.

Lemma sleep_returns (sent : list string) (ms : Z) :
  0 ≤ ms →
  returns (sequence_inv base sent c active) (sleep ms)
    (λ _, sequence_inv base sent c active).
Proof.
  intros Hms w Hinv. eexists _, _. split; [reflexivity|].
  eapply sequence_inv_frame; [exact Hinv | reflexivity | simpl; lia | reflexivity..].
Qed.

(** A busy loop of one second ends within two polls. *)
Lemma busy_poll_returns (sent : list string) (start : Z) (fuel : nat) (w : World) :
  sequence_inv base sent c active w →
  1000 - (clock w - start) ≤ 500 * Z.of_nat fuel →
  ∃ w', busy_poll fuel start (float_of_Z 1) w = (Ok tt, w')
        ∧ sequence_inv base sent c active w'.
Proof.
  revert w. induction fuel as [|fuel IH]; intros w Hinv Hfuel;
    rewrite busy_poll_step, elapsed_lt_one;
    destruct (Z.ltb_spec (clock w - start) 1000) as [Hlt|Hge];
    try (by exists w); [lia|].
  destruct (read_values_returns true w) as [w1 Hpoll].
  pose proof (read_values_sequence_inv base sent c active true w Hinv) as Hinv1.
  assert (clock w ≤ clock w1) as Hclock.
  { assert (sequence_inv base sent (clock w) active w) as Hnow.
    { destruct Hinv as (? & ? & ? & ?). by repeat split. }
    apply (read_values_sequence_inv base sent (clock w) active true) in Hnow.
    rewrite Hpoll in Hnow. by destruct Hnow as (_ & ? & _). }
  rewrite Hpoll in Hinv1. simpl in Hinv1.
  unfold bind at 1. rewrite Hpoll. unfold bind, sleep, blocking, modify.
  apply IH.
  - eapply sequence_inv_frame; [exact Hinv1 | reflexivity | simpl; lia | reflexivity..].
  - simpl. lia.
Qed.

(** Past a busy loop of one second. *)
Lemma busy_poll_then {B} (sent : list string) (fuel : nat) (k : M B)
    (R : B → World → Prop) :
  (2 ≤ fuel)%nat →
  returns (sequence_inv base sent c active) k R →
  returns (sequence_inv base sent c active)
    (start <- time_time;; busy_poll fuel start (float_of_Z 1);; k) R.
Proof.
  intros Hfuel Hk w Hinv. unfold bind at 1, time_time, gets. cbv beta iota.
  destruct (busy_poll_returns sent (clock w) fuel w Hinv)
    as (w' & Hrun & Hinv'); [lia|].
  unfold bind. rewrite Hrun. by apply Hk.
Qed.

Lemma run_periods_returns (fuel periods : nat) (sent : list string) :
  (2 ≤ fuel)%nat →
  returns (sequence_inv base sent c active)
    (run_periods fuel periods (float_of_Z 1) (float_of_Z 1))
    (λ _, sequence_inv base
            (sent ++ mjoin (replicate periods [beam_enable; beam_disable]))
            c active).
Proof.
  intros Hfuel. revert sent.
  induction periods as [|periods IH]; intros sent; simpl.
  - rewrite app_nil_r. apply returns_ret.
  - eapply returns_bind; [apply device_write_returns|]. intros ?; cbv beta.
    eapply returns_bind; [by apply sleep_returns|]. intros ?; cbv beta.
    eapply returns_bind; [apply device_read_all_returns|]. intros ?; cbv beta.
    apply busy_poll_then; [done|].
    eapply returns_bind; [apply device_write_returns|]. intros ?; cbv beta.
    eapply returns_bind; [by apply sleep_returns|]. intros ?; cbv beta.
    eapply returns_bind; [apply device_read_all_returns|]. intros ?; cbv beta.
    apply busy_poll_then; [done|].
    intros w Hinv. destruct (IH _ w Hinv) as (u & w' & Hrun & Hinv').
    exists u, w'. split; [exact Hrun|].
    by rewrite <- !(assoc_L (++)) in Hinv'.
Qed.
End Sequence.

Lemma create_sequence_completes (w : World) (p : Serial) (fuel : nat) (n : Z) :
  device w = Some p → is_open p = true → fault_free p → source_on w = true →
  on_time_entry w = "1" → off_time_entry w = "1" →
  py_int (periods_entry w) = Some n → 0 < n → (2 ≤ fuel)%nat →
  ∃ w', create_sequence fuel w = (Ok tt, w')
        ∧ sequence_inv (written p)
            (mjoin (replicate (Z.to_nat n) [beam_enable; beam_disable]))
            (clock w) true w'.
Proof.
  intros Hdev Hopen Hfree Hsource Hon Hoff Hperiods Hn Hfuel.
  set (w1 := if reading_active w then set_reading_active false w else w).
  assert (sequence_inv (written p) [] (clock w) false w1) as Hinv1.
  { unfold w1. destruct (reading_active w) eqn:Hactive.
    - split; [|done]. exists p, []. by rewrite app_nil_r.
    - split; [|done]. exists p, []. by rewrite app_nil_r. }
  destruct (run_periods_returns (written p) (clock w) false fuel (Z.to_nat n) []
              Hfuel w1 Hinv1) as ([] & w2 & Hrun & Hinv2).
  simpl in Hinv2.
  unfold create_sequence, try_except, device_absent, the_device, entry_float,
    entry_int, bind, gets, ret.
  rewrite Hdev. cbv beta iota. rewrite Hopen.
  change (negb true) with false. cbv beta iota.
  rewrite Hsource. change (negb true) with false. cbv beta iota.
  assert ((if reading_active w then modify (set_reading_active false)
           else λ w4, (Ok tt, w4)) w = (Ok tt, w1)) as ->
    by (unfold w1; by destruct (reading_active w)).
  assert (on_time_entry w1 = "1" ∧ off_time_entry w1 = "1"
          ∧ periods_entry w1 = periods_entry w) as (Hon1 & Hoff1 & Hperiods1)
    by (unfold w1; by destruct (reading_active w)).
  cbv beta iota. rewrite Hon1, py_float_one. cbv beta iota.
  rewrite Hoff1, py_float_one. cbv beta iota.
  rewrite Hperiods1, Hperiods. cbv beta iota.
  replace (n <=? 0) with false by (symmetry; apply Z.leb_gt; lia).
  change (float_le (float_of_Z 1) float_zero) with false.
  change (false || false || false) with false. cbv beta iota. rewrite Hrun.
  destruct Hinv2 as (Hport & Hclock & Hsource2 & Hactive2) eqn:E. clear E.
  rewrite Hactive2. change (negb false) with true. cbv beta iota.
  assert (sequence_inv (written p)
            (mjoin (replicate (Z.to_nat n) [beam_enable; beam_disable]))
            (clock w) true (set_reading_active true w2)) as Hinv3 by done.
  unfold modify.
  pose proof (read_values_sequence_inv _ _ _ _ false _ Hinv3) as Hinv4.
  destruct (read_values_returns false (set_reading_active true w2))
    as [w3 Hpoll].
  rewrite Hpoll in Hinv4 |- *. eexists. split; [reflexivity|].
  eapply sequence_inv_frame; [exact Hinv4 | reflexivity | simpl; lia | reflexivity..].
Qed.

(** C6.  A timed sequence with on-time 1, off-time 1 and 2 periods, run
    with the device connected and the source on, writes to the device
    exactly two beam-enable and two beam-disable commands, in the order
    B1, B0, B1, B0. *)
Theorem timed_sequence_beam_commands (w : World) (p : Serial) (fuel : nat) :
  device w = Some p → is_open p = true → fault_free p → source_on w = true →
  on_time_entry w = "1" → off_time_entry w = "1" → periods_entry w = "2" →
  (2 ≤ fuel)%nat →
  ∃ w' p' more,
    create_sequence fuel w = (Ok tt, w')
    ∧ device w' = Some p'
    ∧ written p' = written p ++ more
    ∧ beam_commands more
      = [beam_enable; beam_disable; beam_enable; beam_disable].
Proof.
  intros Hdev Hopen Hfree Hsource Hon Hoff Hperiods Hfuel.
  destruct (create_sequence_completes w p fuel 2 Hdev Hopen Hfree Hsource
              Hon Hoff) as (w' & Hrun & (p' & more & Hp' & _ & _ & Hw & Hb) & _);
    [by rewrite Hperiods | lia | done |].
  by exists w', p', more.
Qed.

Lemma timed_sequence_beam_commands_witness :
  let w := enter_sequence "1" "1" "2"
             (set_source_on true (set_device (Some (opened [])) startup)) in
  ∃ w' p' more,
    create_sequence 2 w = (Ok tt, w')
    ∧ device w' = Some p'
    ∧ written p' = [] ++ more
    ∧ beam_commands more
      = [beam_enable; beam_disable; beam_enable; beam_disable].
Proof.
  intros w.
  apply (timed_sequence_beam_commands w (opened []) 2);
    first [reflexivity | apply Forall_nil_2 | lia].
Defined.

(** C5: what the code does.  A sequence that completes leaves
    [reading_active] true also when the poll loop was not active before
    it: the test before the resumption reads the flag the sequence itself
    has cleared, not its value from before. *)
Theorem create_sequence_activates_idle_loop (w : World) (p : Serial)
    (fuel : nat) (n : Z) :
  device w = Some p → is_open p = true → fault_free p → source_on w = true →
  on_time_entry w = "1" → off_time_entry w = "1" →
  py_int (periods_entry w) = Some n → 0 < n → (2 ≤ fuel)%nat →
  reading_active w = false →
  ∃ w', create_sequence fuel w = (Ok tt, w') ∧ reading_active w' = true.
Proof.
  intros Hdev Hopen Hfree Hsource Hon Hoff Hperiods Hn Hfuel _.
  destruct (create_sequence_completes w p fuel n Hdev Hopen Hfree Hsource
              Hon Hoff Hperiods Hn Hfuel) as (w' & Hrun & _ & _ & _ & Hactive).
  by exists w'.
Qed.

Lemma create_sequence_activates_idle_loop_witness :
  let w := enter_sequence "1" "1" "1"
             (set_source_on true (set_device (Some (opened [])) startup)) in
  reading_active w = false
  ∧ ∃ w', create_sequence 2 w = (Ok tt, w') ∧ reading_active w' = true.
Proof.
  intros w. split; [reflexivity|].
  apply (create_sequence_activates_idle_loop w (opened []) 2 1);
    first [reflexivity | apply Forall_nil_2 | lia].
Defined.

(** * More on the parsers *)

Lemma remove_char_app (c : ascii) (a b : string) :
  remove_char c (a +:+ b) = remove_char c a +:+ remove_char c b.
Proof.
  induction a as [|d a IH]; [done|]. simpl.
  destruct (Ascii.eqb c d); [done|]. simpl. by rewrite IH.
Qed.

(** What [parse_reading] strips from its argument before anything else. *)
Lemma cleaned_data_app_noise (c : ascii) (a b : string) :
  c ∈ [" "; "013"; "010"; "004"]%char →
  cleaned_data (a +:+ String c b) = cleaned_data (a +:+ b).
Proof.
  intros Hc. unfold cleaned_data.
  change (String c b) with (String c "" +:+ b).
  rewrite !remove_char_app.
  assert (remove_char " " (remove_char "004" (remove_char "013"
            (remove_char "010" (String c "")))) = "") as ->; [|done].
  repeat (apply elem_of_cons in Hc as [-> | Hc]; [reflexivity|]).
  by apply elem_of_nil in Hc.
Qed.

(** X1.  Spaces, carriage returns, line feeds and EOT characters count for
    nothing, wherever they stand in the line, also inside a number. *)
Theorem parse_reading_ignores_noise (c : ascii) (a b : string) :
  c ∈ [" "; "013"; "010"; "004"]%char →
  parse_reading (a +:+ String c b) = parse_reading (a +:+ b).
Proof.
  intros Hc. unfold parse_reading, rc_values.
  by rewrite (cleaned_data_app_noise c a b Hc).
Qed.

Lemma parse_reading_ignores_noise_witness :
  parse_reading "RC 1 .5,2" = parse_reading "RC 1.5,2"
  ∧ ∃ r : gmap string pyval,
      parse_reading "RC 1 .5,2" = Some r
      ∧ r !! "Cathode Current (A)" = Some (VFloat (float_of_decimal false 15 (-1))).
Proof.
  split.
  - apply (parse_reading_ignores_noise " " "RC 1" ".5,2").
    apply list_elem_of_here.
  - eexists. split; [reflexivity|]. vm_compute. reflexivity.
Defined.

(** X2.  A Reading is returned unless one of the two integer fields is there
    and [int()] rejects it. *)
Theorem parse_reading_none_iff (data : string) :
  parse_reading data = None
  ↔ (∃ v, rc_values data !! 11%nat = Some v ∧ isdigit v = true ∧ py_int v = None)
    ∨ (∃ v, rc_values data !! 12%nat = Some v ∧ v ≠ "" ∧ py_int v = None).
Proof.
  rewrite parse_reading_unfold, fatal_entry_lookup, mode_entry_lookup.
  destruct (rc_values data !! 11%nat) as [v11|];
    [destruct (isdigit v11) eqn:Hdigit;
       [destruct (py_int v11) as [z11|] eqn:Hint11|]|];
    (destruct (rc_values data !! 12%nat) as [v12|];
       [destruct v12 as [|ch v12];
          [|destruct (py_int (String ch v12)) as [z12|] eqn:Hint12]|]);
    simpl; split; try done;
    try (intros [(v & [= <-] & ? & ?) | (v & [= <-] & ? & ?)]; congruence);
    try (intros [(v & ? & ? & ?) | (v & ? & ? & ?)]; congruence);
    try (intros _; left; eexists; done);
    try (intros _; right; eexists; done).
Qed.

Lemma lstrip_by_head (p : ascii → bool) (c : ascii) (s : string) :
  p c = false → lstrip_by p (String c s) = String c s.
Proof. intros H. simpl. by rewrite H. Qed.

Lemma rstrip_by_head (p : ascii → bool) (c : ascii) (s : string) :
  p c = false → ∃ r, rstrip_by p (String c s) = String c r.
Proof.
  intros H. simpl. destruct (rstrip_by p s) as [|d r]; [|by eexists].
  rewrite H. by eexists.
Qed.

(** [float()] accepts no string that begins with an exponent marker. *)
Lemma py_float_marker (v : string) :
  startswith "E" v || startswith "e" v = true → py_float v = None.
Proof.
  destruct v as [|c v]; [done|].
  change (startswith "E" (String c v)) with (Ascii.eqb "E" c && true).
  change (startswith "e" (String c v)) with (Ascii.eqb "e" c && true).
  rewrite !andb_true_r. intros Hc.
  assert (c = "E" ∨ c = "e")%char as Hc'.
  { apply orb_true_iff in Hc as [Hc | Hc]; apply Ascii.eqb_eq in Hc; subst; auto. }
  unfold py_float, strip_num.
  assert (isspace_num c = false) as Hsp by (by destruct Hc' as [-> | ->]).
  rewrite (lstrip_by_head _ c v Hsp).
  destruct (rstrip_by_head isspace_num c v Hsp) as [r ->].
  destruct Hc' as [-> | ->]; reflexivity.
Qed.

(** X3.  Where [float()] accepts a field, [safe_float] gives the same number:
    the digit 1 is only ever put in front of a field that [float()]
    rejects. *)
Theorem safe_float_extends_float (v : string) (f : float) :
  py_float v = Some f → safe_float v = f.
Proof.
  intros Hf. unfold safe_float.
  destruct (startswith "E" v || startswith "e" v) eqn:Hmarker.
  - by rewrite (py_float_marker v Hmarker) in Hf.
  - by rewrite Hf.
Qed.

Lemma safe_float_extends_float_witness :
  py_float " -2.5e3 " = Some (float_of_Z (-2500))
  ∧ safe_float " -2.5e3 " = float_of_Z (-2500).
Proof.
  split; [vm_compute; reflexivity|].
  apply safe_float_extends_float. vm_compute. reflexivity.
Defined.

(** X4.  The keys of a Reading and the types of its values: the eleven float
    fields hold floats, the Fatal Error Code an integer, the Power Supply
    Mode an integer or the string "Unknown". *)
Theorem parse_reading_keys (data : string) (r : gmap string pyval) :
  parse_reading data = Some r →
  dom r = list_to_set (float_keys ++ ["Fatal Error Code"; "Power Supply Mode"])
  ∧ (∀ key, key ∈ float_keys → ∃ f, r !! key = Some (VFloat f))
  ∧ (∃ z, r !! "Fatal Error Code" = Some (VInt z))
  ∧ ((∃ z, r !! "Power Supply Mode" = Some (VInt z))
     ∨ r !! "Power Supply Mode" = Some (VStr "Unknown")).
Proof.
  intros Hr.
  destruct (parse_reading_fields data r Hr)
    as (Hfloats & (fatal & Hfatal & Hrfatal) & (mode & Hmode & Hrmode)).
  split; [|split; [|split]].
  - rewrite parse_reading_unfold, Hfatal, Hmode in Hr. simpl in Hr.
    injection Hr as <-. rewrite !dom_insert_L, dom_empty_L. reflexivity.
  - intros key Hkey. apply list_elem_of_lookup in Hkey as [i Hi].
    rewrite (Hfloats i key Hi). by eexists.
  - rewrite Hrfatal. rewrite fatal_entry_lookup in Hfatal.
    destruct (rc_values data !! 11%nat) as [v|]; [|injection Hfatal as <-; by eexists].
    destruct (isdigit v); [|injection Hfatal as <-; by eexists].
    destruct (py_int v) as [z|]; [|done]. injection Hfatal as <-. by eexists.
  - rewrite Hrmode. rewrite mode_entry_lookup in Hmode.
    destruct (rc_values data !! 12%nat) as [v|]; [|injection Hmode as <-; by right].
    destruct (nonempty v); [|injection Hmode as <-; by right].
    destruct (py_int v) as [z|]; [|done]. injection Hmode as <-. left. by eexists.
Qed.

Lemma parse_reading_keys_witness :
  ∃ r : gmap string pyval,
    parse_reading "RC 1.5, E2" = Some r
    ∧ size (dom r) = 13%nat
    ∧ ∃ f, r !! "Beam Current (mA)" = Some (VFloat f).
Proof.
  eexists. split; [reflexivity|].
  destruct (parse_reading_keys "RC 1.5, E2" _ eq_refl) as (Hdom & Hfloats & _).
  split.
  - rewrite Hdom. vm_compute. reflexivity.
  - apply Hfloats. vm_compute. do 3 right. left.
Defined.

(** A string is its fields with the separator between them. *)
Lemma split_cons_inv (c : ascii) (s f : string) (fs : list string) :
  split c s = f :: fs →
  (fs = [] ∧ s = f) ∨ (∃ s', s = f +:+ String c s' ∧ split c s' = fs).
Proof.
  revert f fs. induction s as [|d s IH]; intros f fs Hsplit; simpl in Hsplit.
  - injection Hsplit as <- <-. by left.
  - destruct (Ascii.eqb c d) eqn:Hcd.
    + apply Ascii.eqb_eq in Hcd as <-. injection Hsplit as <- <-.
      right. by exists s.
    + destruct (split c s) as [|g gs] eqn:Hs.
      * injection Hsplit as <- <-.
        destruct s; simpl in Hs; [done|].
        destruct (Ascii.eqb c a); [done|]. by destruct (split c s).
      * injection Hsplit as <- <-.
        destruct (IH g gs eq_refl) as [[-> ->] | (s' & -> & Hs')].
        -- by left.
        -- right. by exists s'.
Qed.

Lemma split_three (c : ascii) (s a b d : string) :
  split c s = [a; b; d] → s = a +:+ String c (b +:+ String c d).
Proof.
  intros H.
  destruct (split_cons_inv c s a _ H) as [[? _] | (s1 & -> & H1)]; [done|].
  destruct (split_cons_inv c s1 b _ H1) as [[? _] | (s2 & -> & H2)]; [done|].
  destruct (split_cons_inv c s2 d _ H2) as [[_ ->] | (s3 & _ & H3)]; [done|].
  by destruct s3; simpl in H3; [|destruct (Ascii.eqb c a0); [|destruct (split c s3)]].
Qed.

(** X5.  A Reading of [parse_rh_reading] has its ten keys; its time is
    made of the first three colon-separated parts of the first field,
    which is that field itself when it has just three parts, and
    anything after a third colon is dropped. *)
Theorem parse_rh_reading_time (data : string) (r : gmap string pyval) :
  parse_rh_reading data = Some r →
  (10 ≤ length (rh_values data))%nat
  ∧ size (dom r) = 10%nat
  ∧ ∃ v0 hr mi sec rest,
      rh_values data !! 0%nat = Some v0
      ∧ split ":" v0 = hr :: mi :: sec :: rest
      ∧ r !! "Time (Hr:Min:Sec)"
        = Some (VStr (hr +:+ ":" +:+ mi +:+ ":" +:+ sec))
      ∧ (rest = [] → hr +:+ ":" +:+ mi +:+ ":" +:+ sec = v0).
Proof.
  intros Hr. split.
  - destruct (decide (length (rh_values data) < 10)%nat) as [Hshort|]; [|lia].
    by rewrite (parse_rh_reading_short data Hshort) in Hr.
  - unfold parse_rh_reading in Hr.
    destruct (rh_values data !! 0%nat) as [v0|]; [|done]. simpl in Hr.
    do 9 match type of Hr with
           | context [?l !! ?i ≫= ?f] =>
             destruct (l !! i ≫= f); [simpl in Hr|done]
           end.
    destruct (split ":" v0) as [|hr [|mi [|sec rest]]] eqn:Hsplit;
      simpl in Hr; try done.
    injection Hr as <-. split.
    + vm_compute. reflexivity.
    + exists v0, hr, mi, sec, rest. split; [done|]. split; [done|].
      split; [by simplify_map_eq|].
      intros ->. symmetry. by apply split_three.
Qed.

Lemma parse_rh_reading_time_witness :
  ∃ r : gmap string pyval,
    parse_rh_reading "01:02:03:extra 1.0 2.0 3.0 4 5 6 7 8 9.0" = Some r
    ∧ r !! "Time (Hr:Min:Sec)" = Some (VStr "01:02:03").
Proof.
  eexists. split; [reflexivity|].
  destruct (parse_rh_reading_time
              "01:02:03:extra 1.0 2.0 3.0 4 5 6 7 8 9.0" _ eq_refl)
    as (_ & _ & v0 & hr & mi & sec & rest & Hv0 & Hsplit & Htime & _).
  injection Hv0 as <-. injection Hsplit as <- <- <- _. exact Htime.
Defined.

(** * More on the gauge protocol and the interlock tick *)

(** [get_pressure] on a connected gauge and a sensor in range is the
    query and the conversion of its answer. *)
Lemma get_pressure_connected (sensor : Z) (w : World) (g : MaxiGauge)
    (p : Serial) :
  maxigauge w = Some (Some g) → connection g = Some p → is_open p = true →
  1 ≤ sensor ≤ 6 →
  get_pressure sensor w
  = (response <- send_command ("PR" +:+ pretty sensor);;
     match response with
     | Some r =>
       if nonempty r then
         match py_float r with
         | Some f => ret (Some f)
         | None => raise ValueError
         end
       else ret None
     | None => ret None
     end) w.
Proof.
  intros Hg Hp Hopen Hsensor. unfold get_pressure.
  replace ((1 <=? sensor) && (sensor <=? 6)) with true
    by (symmetry; apply andb_true_iff; split; apply Z.leb_le; lia).
  change (negb true) with false. cbv iota.
  unfold bind at 1. unfold not_connected, self_connection, bind at 1.
  rewrite Hg. unfold ret at 1. by rewrite Hp, Hopen.
Qed.

Lemma send_command_wire_ok (command : string) (w : World) (g : MaxiGauge)
    (p : Serial) :
  maxigauge w = Some (Some g) → connection g = Some p → is_open p = true →
  incoming p !! 0%nat ≠ Some RxFault →
  gauge_port (send_command command w).2
  = Some {| is_open := true; written := written p ++ [command +:+ crlf; enq];
            incoming := drop 2 (incoming p) |}.
Proof.
  intros Hg Hp Hopen Hfirst. destruct w as
    [clk jit dev gauge src act bm started ts dcs bcs prs sbtn bbtn pent onent offent perent dlg tmr].
  simpl in Hg. subst.
  destruct g as [c]. simpl in Hp. subst. destruct p as [op wr inc].
  simpl in Hopen, Hfirst. subst.
  destruct inc as [|[s1| |] [|[s2| |] rest]]; try done; exec.
  all: try rewrite <- (assoc_L app); try reflexivity.
  all: match goal with
    | |- context [split "," ?s !! 1%nat] =>
      destruct (split "," s !! 1%nat); reflexivity
    end.
Qed.

Lemma send_command_wire_fault (command : string) (w : World) (g : MaxiGauge)
    (p : Serial) (rest : list rx_event) :
  maxigauge w = Some (Some g) → connection g = Some p → is_open p = true →
  incoming p = RxFault :: rest →
  gauge_port (send_command command w).2
  = Some {| is_open := true; written := written p ++ [command +:+ crlf];
            incoming := rest |}.
Proof.
  intros Hg Hp Hopen Hinc. destruct w as
    [clk jit dev gauge src act bm started ts dcs bcs prs sbtn bbtn pent onent offent perent dlg tmr].
  simpl in Hg. subst.
  destruct g as [c]. simpl in Hp. subst. destruct p as [op wr inc].
  simpl in Hopen, Hinc. subst. reflexivity.
Qed.

Lemma send_command_not_connected (command : string) (w : World) (g : MaxiGauge) :
  maxigauge w = Some (Some g) →
  (connection g = None ∨ ∃ p, connection g = Some p ∧ is_open p = false) →
  send_command command w = (Ok None, w).
Proof.
  intros Hg Hdown. unfold send_command, not_connected, self_connection, bind, ret.
  rewrite Hg. by destruct Hdown as [-> | (p & -> & ->)].
Qed.

(** X6.  The gauge answers a query in two steps: the command is acknowledged,
    then ENQ asks for the data.  A read fault at the acknowledgement ends
    the exchange before ENQ is sent. *)
Theorem send_command_wire (command : string) (w : World) (g : MaxiGauge) :
  maxigauge w = Some (Some g) →
  (∀ p, connection g = Some p → is_open p = true →
     incoming p !! 0%nat ≠ Some RxFault →
     gauge_port (send_command command w).2
     = Some {| is_open := true;
               written := written p ++ [command +:+ crlf; enq];
               incoming := drop 2 (incoming p) |})
  ∧ (∀ p rest, connection g = Some p → is_open p = true →
       incoming p = RxFault :: rest →
       gauge_port (send_command command w).2
       = Some {| is_open := true; written := written p ++ [command +:+ crlf];
                 incoming := rest |})
  ∧ (connection g = None ∨ (∃ p, connection g = Some p ∧ is_open p = false) →
       send_command command w = (Ok None, w)).
Proof.
  intros Hg. split; [|split].
  - intros p. by apply send_command_wire_ok.
  - intros p rest. by apply send_command_wire_fault.
  - by apply send_command_not_connected.
Qed.

Lemma send_command_wire_witness :
  let port := opened [RxText "ack"; RxText "0,5.0E-04"; RxText "later"] in
  let w := set_maxigauge (Some (Some {| connection := Some port |})) startup in
  gauge_port (send_command "PR3" w).2
  = Some {| is_open := true; written := ["PR3" +:+ crlf; enq];
            incoming := [RxText "later"] |}.
Proof.
  intros port w.
  destruct (send_command_wire "PR3" w _ eq_refl) as (Hok & _ & _).
  exact (Hok port eq_refl eq_refl ltac:(discriminate)).
Defined.

(** X7.  [get_pressure]: a sensor out of range costs no traffic; for a sensor
    in range the query is PR and the sensor's number, and the answer's
    second field is converted by [float()], whose ValueError is not
    caught here. *)
Theorem get_pressure_query (sensor : Z) (w : World) (g : MaxiGauge)
    (p : Serial) :
  maxigauge w = Some (Some g) → connection g = Some p → is_open p = true →
  (¬ (1 ≤ sensor ≤ 6) → get_pressure sensor w = (Ok None, w))
  ∧ (1 ≤ sensor ≤ 6 → incoming p !! 0%nat ≠ Some RxFault →
       gauge_port (get_pressure sensor w).2
       = Some {| is_open := true;
                 written := written p ++ ["PR" +:+ pretty sensor +:+ crlf; enq];
                 incoming := drop 2 (incoming p) |}
       ∧ ∀ reply field,
           second_reply p = Some reply →
           split "," (strip reply) !! 1%nat = Some field →
           (get_pressure sensor w).1
           = if nonempty field then
               match py_float field with
               | Some f => Ok (Some f)
               | None => Raise ValueError
               end
             else Ok None).
Proof.
  intros Hg Hp Hopen. split.
  - intros Hout. unfold get_pressure.
    replace ((1 <=? sensor) && (sensor <=? 6)) with false; [done|].
    symmetry. apply andb_false_iff.
    destruct (Z.leb_spec 1 sensor); [|by left]. right. apply Z.leb_gt. lia.
  - intros Hin Hfirst. split.
    + assert ((get_pressure sensor w).2
              = (send_command ("PR" +:+ pretty sensor) w).2) as ->.
      { rewrite (get_pressure_connected sensor w g p Hg Hp Hopen Hin).
        unfold bind.
        destruct (send_command ("PR" +:+ pretty sensor) w) as [[[r|]|e|] w1];
          try done.
        simpl. destruct (nonempty r); [|done]. by destruct (py_float r). }
      exact (send_command_wire_ok _ w g p Hg Hp Hopen Hfirst).
    + intros reply field Hreply Hfield.
      rewrite (get_pressure_outcome sensor w g Hg).
      replace ((1 <=? sensor) && (sensor <=? 6)) with true
        by (symmetry; apply andb_true_iff; split; apply Z.leb_le; lia).
      rewrite (send_command_outcome _ w g Hg), Hp, Hopen, Hreply, Hfield.
      destruct (incoming p) as [|[s| |] rest]; done.
Qed.

Lemma get_pressure_query_witness :
  let port := opened [RxText "ack"; RxText "0,5.0E-04"] in
  let garbled := opened [RxText "ack"; RxText "0,n/a"] in
  let w := set_maxigauge (Some (Some {| connection := Some port |})) startup in
  let w' := set_maxigauge (Some (Some {| connection := Some garbled |})) startup in
  get_pressure 7 w = (Ok None, w)
  ∧ (get_pressure 3 w).1 = Ok (Some (float_of_decimal false 5 (-4)))
  ∧ (get_pressure 3 w').1 = Raise ValueError.
Proof.
  intros port garbled w w'.
  destruct (get_pressure_query 7 w _ port eq_refl eq_refl eq_refl) as [Hout _].
  destruct (get_pressure_query 3 w _ port eq_refl eq_refl eq_refl) as [_ Hin].
  destruct (get_pressure_query 3 w' _ garbled eq_refl eq_refl eq_refl) as [_ Hin'].
  split; [apply Hout; lia|]. split.
  - destruct Hin as [_ Hin]; [lia | discriminate |].
    exact (Hin "0,5.0E-04" "5.0E-04" eq_refl eq_refl).
  - destruct Hin' as [_ Hin']; [lia | discriminate |].
    exact (Hin' "0,n/a" "n/a" eq_refl eq_refl).
Defined.

Lemma fuel_free_get_pressure (sensor : Z) : fuel_free (get_pressure sensor).
Proof. fuel. Qed.

Lemma timers_get_pressure (sensor : Z) (ts : list (Z * callback)) :
  preserves (λ w, timers w = ts) (get_pressure sensor).
Proof. frame history_side. Qed.

(** The tick by cases of the gauge: found not connected it returns at
    once, otherwise it falls through to the line that schedules the next
    tick. *)
Lemma update_pressure_timers (w : World) :
  (update_pressure w).1 = Ok tt
  ∧ timers (update_pressure w).2
    = match maxigauge_absent w with
      | (Ok true, _) => timers w
      | _ => timers w ++ [(500, CbUpdatePressure)]
      end
  ∧ ((maxigauge_absent w).1 = Ok true →
     pressure_entry (update_pressure w).2 = Text "Not Connected").
Proof.
  remember (update_pressure w) as r eqn:Hr.
  unfold update_pressure in Hr.
  unfold bind at 1 in Hr. unfold try_except in Hr. unfold bind at 1 in Hr.
  unfold maxigauge_absent in *.
  destruct (maxigauge w) as [[g|]|] eqn:Hg;
    [| by subst r | by subst r].
  destruct (match connection g with Some p => negb (is_open p) | None => true end);
    [by subst r|].
  pose proof (fuel_free_get_pressure 3 w) as Hfuel.
  pose proof (timers_get_pressure 3 (timers w) w eq_refl) as Htimers.
  unfold bind at 1 in Hr.
  destruct (get_pressure 3 w) as [[[p|]|e|] w1]; simpl in Htimers.
  - destruct (float_le band_low p && float_le p band_high); subst r; simpl;
      by rewrite Htimers.
  - subst r. simpl. by rewrite Htimers.
  - subst r. simpl. by rewrite Htimers.
  - by specialize (Hfuel eq_refl).
Qed.

(** X8.  The interlock tick always returns and schedules the next tick half a
    second later, except when it finds the gauge not connected: then it
    shows Not Connected, disables the source button, and no further tick
    is scheduled. *)
Theorem update_pressure_reschedules (w : World) :
  (update_pressure w).1 = Ok tt
  ∧ ((maxigauge_absent w).1 = Ok true →
     timers (update_pressure w).2 = timers w
     ∧ pressure_entry (update_pressure w).2 = Text "Not Connected"
     ∧ source_button (update_pressure w).2 = DISABLED)
  ∧ ((maxigauge_absent w).1 ≠ Ok true →
     timers (update_pressure w).2 = timers w ++ [(500, CbUpdatePressure)]).
Proof.
  destruct (update_pressure_timers w) as (Hret & Htimers & Hentry).
  split; [done|]. split.
  - intros Habsent. split; [|split; [by apply Hentry|]].
    + rewrite Htimers. destruct (maxigauge_absent w) as [[[]|e|] w1]; done.
    + rewrite update_pressure_source_button. unfold pressure_reading.
      destruct (maxigauge_absent w) as [[[]|e|] w1]; done.
  - intros Hpresent. rewrite Htimers.
    destruct (maxigauge_absent w) as [[[]|e|] w1]; done.
Qed.

Lemma update_pressure_reschedules_witness :
  let down := set_maxigauge (Some (Some {| connection := None |})) startup in
  let up := set_maxigauge
              (Some (Some {| connection := Some (opened []) |})) startup in
  timers (update_pressure down).2 = []
  ∧ source_button (update_pressure down).2 = DISABLED
  ∧ timers (update_pressure up).2 = [(500, CbUpdatePressure)]
  ∧ timers (update_pressure startup).2 = [(500, CbUpdatePressure)].
Proof.
  intros down up.
  destruct (update_pressure_reschedules down) as (_ & Hdown & _).
  destruct (update_pressure_reschedules up) as (_ & _ & Hup).
  destruct (update_pressure_reschedules startup) as (_ & _ & Hunbound).
  destruct (Hdown eq_refl) as (Htimers & _ & Hbutton).
  split; [exact Htimers|]. split; [exact Hbutton|]. split.
  - apply Hup. discriminate.
  - apply Hunbound. discriminate.
Defined.

(** X9.  The tick only reads the gauge and sets the two widgets: it writes
    nothing to the source controller, shows no message box, and changes
    neither the flags nor the histories.  A pressure outside the band
    disables the button; it does not turn a running source off. *)
Theorem update_pressure_frame (w : World) :
  device (update_pressure w).2 = device w
  ∧ source_on (update_pressure w).2 = source_on w
  ∧ beam_on (update_pressure w).2 = beam_on w
  ∧ reading_active (update_pressure w).2 = reading_active w
  ∧ start_time (update_pressure w).2 = start_time w
  ∧ beam_button (update_pressure w).2 = beam_button w
  ∧ dialogs (update_pressure w).2 = dialogs w
  ∧ history (update_pressure w).2 = history w.
Proof.
  assert (preserves (λ w', device w' = device w ∧ source_on w' = source_on w
                      ∧ beam_on w' = beam_on w
                      ∧ reading_active w' = reading_active w
                      ∧ start_time w' = start_time w
                      ∧ beam_button w' = beam_button w
                      ∧ dialogs w' = dialogs w ∧ history w' = history w)
            update_pressure) as H by frame history_side.
  apply H. done.
Qed.

(** * Polls that record nothing *)

(** Walks down a callback as far as [side] shows that the steps keep
    [P]. *)
Ltac descend side :=
  repeat first
    [ apply preserves_try_except; [|intros ?; solve [frame side]]
    | apply preserves_bind; [solve [frame side] | intros ?]
    | lazymatch goal with
      | |- preserves _ (if ?b then _ else _) => destruct b; [solve [frame side]|]
      end ].

(** While no start time is set, a poll records nothing. *)
Lemma read_values_not_started (force_read : bool) (h : _) :
  preserves (λ w, start_time w = None ∧ history w = h) (read_values force_read).
Proof.
  unfold read_values. descend history_side.
  apply preserves_bind; [|intros ?; frame history_side].
  destruct (parse_reading _) as [parsed_data|]; [|frame history_side].
  intros w [Hstart Hh]. case_bool_decide; [done|].
  unfold bind, time_time, gets, raise. by rewrite Hstart.
Qed.

Section NotStarted.
Variable h : list string * list pyval * list pyval * list (option float).

#[local] Hint Resolve read_values_not_started : frame.

Lemma busy_poll_not_started (fuel : nat) (start : Z) (limit : float) :
  preserves (λ w, start_time w = None ∧ history w = h)
    (busy_poll fuel start limit).
Proof. induction fuel as [|fuel IH]; simpl; frame history_side. Qed.

#[local] Hint Resolve busy_poll_not_started : frame.

Lemma run_periods_not_started (fuel periods : nat) (on_time off_time : float) :
  preserves (λ w, start_time w = None ∧ history w = h)
    (run_periods fuel periods on_time off_time).
Proof. induction periods as [|periods IH]; simpl; frame history_side. Qed.

#[local] Hint Resolve run_periods_not_started : frame.

Lemma create_sequence_not_started (fuel : nat) :
  preserves (λ w, start_time w = None ∧ history w = h) (create_sequence fuel).
Proof. frame history_side. Qed.
End NotStarted.

(** X10.  The elapsed time of a record is taken from the global [start_time],
    which only [toggle_reading] sets: while it is None no poll records
    anything, and neither does a whole timed sequence, whose own
    [start_time] is a local variable. *)
Theorem no_start_time_no_record (w : World) :
  start_time w = None →
  (∀ force_read, history (read_values force_read w).2 = history w)
  ∧ (∀ fuel, history (create_sequence fuel w).2 = history w
             ∧ start_time (create_sequence fuel w).2 = None).
Proof.
  intros Hstart. split.
  - intros force_read.
    by destruct (read_values_not_started force_read (history w) w).
  - intros fuel.
    by destruct (create_sequence_not_started (history w) fuel w).
Qed.

Lemma no_start_time_no_record_witness :
  let line := "1.0,2.0,3.0,4.0,5.0,6.0,7.0,8.0,9.0,10.0,11.0,2,1" in
  let w := enter_sequence "1" "1" "1"
             (set_source_on true
                (set_device (Some (opened [RxText ""; RxText line])) startup)) in
  history (create_sequence 2 w).2 = ([], [], [], [])
  ∧ history (read_values true w).2 = ([], [], [], []).
Proof.
  intros line w.
  destruct (no_start_time_no_record w eq_refl) as [Hpoll Hseq].
  split; [exact (proj1 (Hseq 2%nat)) | exact (Hpoll true)].
Defined.

(** The head of a poll: the device check and the gauge query. *)
Lemma read_values_gauge_raises (force_read : bool) (w : World) (e : exn) :
  (poll_gauge w).1 = Raise e →
  device (read_values force_read w).2 = device w
  ∧ history (read_values force_read w).2 = history w
  ∧ timers (read_values force_read w).2 = timers w.
Proof.
  intros Hgauge.
  assert (preserves (λ w', device w' = device w ∧ history w' = history w
                           ∧ timers w' = timers w) poll_gauge) as Hframe
    by frame history_side.
  specialize (Hframe w (conj eq_refl (conj eq_refl eq_refl))).
  remember (poll_gauge w) as q eqn:Hq.
  remember (read_values force_read w) as r eqn:Hr.
  unfold read_values, try_except in Hr. unfold bind at 1 in Hr.
  unfold device_absent, the_device, bind at 1 in Hr.
  destruct (device w) as [p|] eqn:Hdev; [|by subst r].
  unfold ret at 1 in Hr. destruct (is_open p); [|by subst r].
  change (negb true) with false in Hr. cbv beta iota in Hr.
  unfold poll_gauge in Hq. unfold bind at 1 in Hq. unfold bind at 1 in Hr.
  destruct (maxigauge_absent w) as [[gauge_absent|e0|] w0];
    [|by subst r q|by subst q].
  unfold bind at 1 in Hr.
  destruct ((if gauge_absent then ret None else get_pressure 3) w0)
    as [[p3|e1|] w1]; [by subst q|by subst r q|by subst q].
Qed.

Lemma preserves_gets_bind {A B} (P : World → Prop) (f : World → A)
    (k : A → M B) :
  (∀ w, P w → P (k (f w) w).2) → preserves P (bind (gets f) k).
Proof. intros H w Hw. exact (H w Hw). Qed.

Lemma read_values_idle (w : World) :
  reading_active w = false →
  device (read_values false w).2 = device w
  ∧ history (read_values false w).2 = history w
  ∧ timers (read_values false w).2 = timers w.
Proof.
  intros Hidle.
  assert (preserves (λ w', (device w' = device w ∧ history w' = history w
                            ∧ timers w' = timers w)
                           ∧ reading_active w' = false)
            (read_values false)) as H; [|by destruct (H w)].
  unfold read_values.
  apply preserves_try_except; [|intros ?; frame history_side].
  apply preserves_bind; [frame history_side | intros absent].
  destruct absent; [frame history_side|].
  apply preserves_bind; [frame history_side | intros gauge_absent].
  apply preserves_bind; [frame history_side | intros pressure_sensor_3].
  apply preserves_gets_bind. intros w' Hw'. rewrite (proj2 Hw').
  exact Hw'.
Qed.

(** X11.  A poll asks the gauge first.  If that query raises (a pressure field
    that is no number), or if the loop is not active and the read not
    forced, the poll ends there: nothing is written to the source
    controller, nothing is recorded, and no next poll is scheduled. *)
Theorem read_values_aborted_poll (force_read : bool) (w : World) :
  (reading_active w = false ∧ force_read = false)
  ∨ (∃ e, (poll_gauge w).1 = Raise e) →
  (read_values force_read w).1 = Ok tt
  ∧ device (read_values force_read w).2 = device w
  ∧ history (read_values force_read w).2 = history w
  ∧ timers (read_values force_read w).2 = timers w.
Proof.
  intros Hcase. split.
  - destruct (read_values_returns force_read w) as [w' ->]. done.
  - destruct Hcase as [[Hidle ->] | [e Hgauge]].
    + by apply read_values_idle.
    + by apply read_values_gauge_raises with e.
Qed.

Lemma read_values_aborted_poll_witness :
  let gauge := {| connection := Some (opened [RxText "ack"; RxText "0,n/a"]) |} in
  let w := set_reading_active true
             (set_start_time (Some 0)
                (set_maxigauge (Some (Some gauge))
                   (set_device (Some (opened [RxText "1.0,2.0"])) startup))) in
  (poll_gauge w).1 = Raise ValueError
  ∧ device (read_values false w).2 = device w
  ∧ timers (read_values false w).2 = [].
Proof.
  intros gauge w. split; [reflexivity|].
  destruct (read_values_aborted_poll false w) as (_ & Hdev & _ & Htimers).
  - right. exists ValueError. reflexivity.
  - split; [exact Hdev | exact Htimers].
Defined.

(** X12.  A poll whose reply cannot be used.  When the read faults, the bytes
    do not decode, or the reply begins with the echo RC and has no line
    feed, the poll has sent RC but records nothing and schedules no next
    poll: the reading loop ends there.  When the reply is a line that
    [parse_reading] turns down, nothing is recorded either, but the next
    poll is scheduled. *)
Theorem read_values_bad_reply (force_read : bool) (w w1 : World)
    (pressure_sensor_3 : option float) (p : Serial) (ev : rx_event)
    (rest : list rx_event) :
  poll_gauge w = (Ok pressure_sensor_3, w1) →
  device w = Some p → is_open p = true → incoming p = ev :: rest →
  reading_active w = true ∨ force_read = true →
  (ev = RxFault ∨ ev = RxGarbage
   ∨ (∃ text, ev = RxText text ∧ poll_response text = None) →
   history (read_values force_read w).2 = history w
   ∧ timers (read_values force_read w).2 = timers w
   ∧ device (read_values force_read w).2
     = Some {| is_open := true; written := written p ++ ["RC" +:+ cr];
               incoming := rest |})
  ∧ (∀ text response,
       ev = RxText text → poll_response text = Some response →
       parse_reading response = None →
       history (read_values force_read w).2 = history w
       ∧ timers (read_values force_read w).2
         = (if force_read then timers w
            else timers w ++ [(1000, CbReadValues)])
       ∧ device (read_values force_read w).2
         = Some {| is_open := true; written := written p ++ ["RC" +:+ cr];
                   incoming := rest |}).
Proof.
  intros Hgauge Hdev Hopen Hinc Hactive.
  assert (preserves (λ w', device w' = device w
                           ∧ reading_active w' = reading_active w
                           ∧ timers w' = timers w
                           ∧ history w' = history w) poll_gauge) as Hframe
    by frame history_side.
  specialize (Hframe w (conj eq_refl (conj eq_refl (conj eq_refl eq_refl)))).
  rewrite Hgauge in Hframe. simpl in Hframe.
  destruct Hframe as (Hdev1 & Hactive1 & Htimers1 & Hhist1).
  rewrite Hdev in Hdev1. rewrite <- Htimers1, <- Hhist1.
  assert (negb (reading_active w1) && negb force_read = false) as Hgo.
  { rewrite Hactive1. destruct Hactive as [-> | ->]; [done|]. apply andb_false_r. }
  remember (read_values force_read w) as r eqn:Hr.
  unfold read_values, try_except in Hr. unfold bind at 1 in Hr.
  unfold device_absent, the_device, bind at 1 in Hr. rewrite Hdev in Hr.
  unfold ret at 1 in Hr.
  rewrite Hopen in Hr. change (negb true) with false in Hr. cbv beta iota in Hr.
  unfold poll_gauge in Hgauge. unfold bind at 1 in Hgauge. unfold bind at 1 in Hr.
  destruct (maxigauge_absent w) as [[gauge_absent|e|] w0];
    [|discriminate Hgauge|discriminate Hgauge].
  unfold bind at 1 in Hr. rewrite Hgauge in Hr.
  unfold bind at 1 in Hr. unfold gets at 1 in Hr. cbv beta iota in Hr.
  rewrite Hgo in Hr.
  clear Hgauge Hactive1 Hgo Htimers1 Hhist1 w w0 Hactive Hdev gauge_absent.
  destruct w1 as [clk jit dev gauge src act bm started ts dcs bcs prs sbtn
                   bbtn pent onent offent perent dlg tmr].
  simpl in Hdev1. subst dev.
  destruct p as [op wr inc]. simpl in Hopen, Hinc. subst op inc.
  unfold poll_response.
  destruct ev as [text| |]; revert Hr; exec_poll.
  - intros Hr. split.
    + intros [H | [H | (t & [= <-] & H)]]; [discriminate H..|].
      destruct (startswith "RC" (strip text)); [|discriminate H].
      destruct (str_index "010" (strip text)) as [i|]; [discriminate H|].
      subst r. repeat split; reflexivity.
    + intros t response [= <-] H Hparsed. revert Hr.
      destruct (startswith "RC" (strip text));
        [destruct (str_index "010" (strip text)) as [i|]; [|discriminate H]|];
        injection H as <-; rewrite Hparsed; exec_poll;
        destruct force_read; intros ->; repeat split; reflexivity.
  - intros ->. split; [intros _; repeat split; reflexivity|].
    intros t response H. discriminate H.
  - intros ->. split; [intros _; repeat split; reflexivity|].
    intros t response H. discriminate H.
Qed.

Lemma read_values_bad_reply_witness :
  let w := set_reading_active true
             (set_start_time (Some 0)
                (set_maxigauge (Some None)
                   (set_device (Some (opened [RxText "RC 1.0,2.0"])) startup))) in
  poll_response "RC 1.0,2.0" = None
  ∧ history (read_values false w).2 = ([], [], [], [])
  ∧ timers (read_values false w).2 = [].
Proof.
  intros w. split; [reflexivity|].
  destruct (read_values_bad_reply false w w None _ _ [] eq_refl eq_refl eq_refl
              eq_refl (or_introl eq_refl)) as [Hbad _].
  destruct Hbad as (Hhist & Htimers & _).
  - do 2 right. exists "RC 1.0,2.0". split; reflexivity.
  - split; [exact Hhist | exact Htimers].
Defined.

(** * The buttons *)

Section SourceFlag.
Variable Q : widget_state * bool → Prop.

Lemma source_flag_read_values (force_read : bool) :
  preserves (λ w, Q (beam_button w, source_on w)) (read_values force_read).
Proof. frame history_side. Qed.

#[local] Hint Resolve source_flag_read_values : frame.

Lemma source_flag_busy_poll (fuel : nat) (start : Z) (limit : float) :
  preserves (λ w, Q (beam_button w, source_on w)) (busy_poll fuel start limit).
Proof. induction fuel as [|fuel IH]; simpl; frame history_side. Qed.

#[local] Hint Resolve source_flag_busy_poll : frame.

Lemma source_flag_run_periods (fuel periods : nat) (on_time off_time : float) :
  preserves (λ w, Q (beam_button w, source_on w))
    (run_periods fuel periods on_time off_time).
Proof. induction periods as [|periods IH]; simpl; frame history_side. Qed.

#[local] Hint Resolve source_flag_run_periods : frame.

(** Only [toggle_source] touches the source flag and the beam button. *)
Lemma source_flag_run (a : action) :
  a ≠ ToggleSource → preserves (λ w, Q (beam_button w, source_on w)) (run a).
Proof. destruct a; [..|]; intros Ha; try done; simpl; frame history_side. Qed.
End SourceFlag.

(** [toggle_source] on a connected device, read by read. *)
Lemma toggle_source_run (w : World) (p : Serial) :
  device w = Some p → is_open p = true →
  (toggle_source w).1 = Ok tt
  ∧ beam_on (toggle_source w).2 = beam_on w
  ∧ (∃ p', device (toggle_source w).2 = Some p' ∧ is_open p' = true
        ∧ written p' = written p ++ [source_command w]
        ∧ incoming p' = tail (incoming p))
  ∧ (incoming p !! 0%nat ≠ Some RxFault →
       source_on (toggle_source w).2 = negb (source_on w)
       ∧ beam_button (toggle_source w).2
         = (if source_on w then DISABLED else NORMAL)
       ∧ reported_as ShowInfo w (toggle_source w).2)
  ∧ (incoming p !! 0%nat = Some RxFault →
       source_on (toggle_source w).2 = source_on w
       ∧ beam_button (toggle_source w).2 = beam_button w
       ∧ reported_as ShowError w (toggle_source w).2).
Proof.
  intros Hdev Hopen. destruct w as
    [clk jit dev gauge src act bm started ts dcs bcs prs sbtn bbtn pent onent offent perent dlg tmr].
  simpl in Hdev. subst.
  destruct p as [op wr inc]. simpl in Hopen. subst.
  destruct src; destruct inc as [|[s| |] rest]; exec;
    repeat split; try done; try (intros _); try (eexists; split; reflexivity);
    try (eexists; repeat split; reflexivity).
Qed.

Lemma toggle_source_beam_interlock : preserves beam_interlock toggle_source.
Proof.
  intros w Hw. unfold beam_interlock in *.
  destruct (device w) as [p|] eqn:Hdev.
  - destruct (is_open p) eqn:Hopen.
    + destruct (toggle_source_run w p Hdev Hopen) as (_ & _ & _ & Hok & Hfault).
      destruct (incoming p) as [|[s| |] rest].
      4: { destruct (Hfault eq_refl) as (-> & -> & _). exact Hw. }
      all: destruct Hok as (-> & -> & _); [done|]; by destruct (source_on w).
    + unfold toggle_source, try_except, device_absent, the_device, bind, ret.
      rewrite Hdev, Hopen. exact Hw.
  - unfold toggle_source, try_except, device_absent, the_device, bind.
    rewrite Hdev. exact Hw.
Qed.

(** X13.  The beam button is enabled exactly while the source is on: so the
    window starts, and every callback keeps it so. *)
Theorem beam_button_follows_source :
  beam_interlock startup
  ∧ ∀ (trace : list action) (w : World),
      beam_interlock w → beam_interlock (foldl step w trace).
Proof.
  split; [reflexivity|]. intros trace.
  induction trace as [|a trace IH]; intros w Hw; [done|].
  simpl. apply IH. unfold step.
  assert (a = ToggleSource ∨ a ≠ ToggleSource) as [-> | Ha]
    by (destruct a; auto).
  - by apply toggle_source_beam_interlock.
  - apply (source_flag_run
             (λ '(button, on), button = if on : bool then NORMAL else DISABLED)
             a Ha w Hw).
Qed.

Lemma beam_button_follows_source_witness :
  let w := set_device (Some (opened [])) startup in
  beam_interlock (foldl step w [ToggleSource; ToggleBeam; ToggleSource])
  ∧ beam_button (foldl step w [ToggleSource; ToggleBeam]) = NORMAL
  ∧ beam_button (foldl step w [ToggleSource; ToggleBeam; ToggleSource])
    = DISABLED.
Proof.
  intros w. destruct beam_button_follows_source as [Hstart Htrace].
  split; [apply Htrace; exact Hstart|]. split; reflexivity.
Defined.

(** X14.  [toggle_source] on a connected device sends S1 or S0, by the flag.
    When the port then reads without a fault, the flag is flipped, the
    beam button follows it and an info box is shown; when the read
    faults, the command is out but the flag and the button stay as they
    were and an error box is shown.  The beam flag is never touched. *)
Theorem toggle_source_effect (w : World) (p : Serial) :
  device w = Some p → is_open p = true →
  (toggle_source w).1 = Ok tt
  ∧ beam_on (toggle_source w).2 = beam_on w
  ∧ (∃ p', device (toggle_source w).2 = Some p' ∧ is_open p' = true
        ∧ written p' = written p ++ [source_command w]
        ∧ incoming p' = tail (incoming p))
  ∧ (incoming p !! 0%nat ≠ Some RxFault →
       source_on (toggle_source w).2 = negb (source_on w)
       ∧ beam_button (toggle_source w).2
         = (if source_on w then DISABLED else NORMAL)
       ∧ reported_as ShowInfo w (toggle_source w).2)
  ∧ (incoming p !! 0%nat = Some RxFault →
       source_on (toggle_source w).2 = source_on w
       ∧ beam_button (toggle_source w).2 = beam_button w
       ∧ reported_as ShowError w (toggle_source w).2).
Proof. apply toggle_source_run. Qed.

Lemma toggle_source_effect_witness :
  let w := set_device (Some (opened [RxFault])) startup in
  source_on (toggle_source w).2 = false
  ∧ ∃ p', device (toggle_source w).2 = Some p'
          ∧ written p' = [] ++ ["S1" +:+ cr].
Proof.
  intros w.
  destruct (toggle_source_effect w (opened [RxFault]) eq_refl eq_refl)
    as (_ & _ & (p' & Hp' & _ & Hwritten & _) & _ & Hfault).
  split; [exact (proj1 (Hfault eq_refl))|].
  exists p'. split; [exact Hp' | exact Hwritten].
Defined.

(** [toggle_beam] with the source on, read by read. *)
Lemma toggle_beam_run (w : World) (p : Serial) :
  device w = Some p → is_open p = true → source_on w = true →
  source_on (toggle_beam w).2 = true
  ∧ dialogs (toggle_beam w).2 = dialogs w
  ∧ (∃ p', device (toggle_beam w).2 = Some p' ∧ is_open p' = true
        ∧ written p' = written p ++ [beam_command w]
        ∧ incoming p' = tail (incoming p))
  ∧ (incoming p !! 0%nat ≠ Some RxFault →
       (toggle_beam w).1 = Ok tt
       ∧ beam_on (toggle_beam w).2 = negb (beam_on w))
  ∧ (incoming p !! 0%nat = Some RxFault →
       (toggle_beam w).1 = Raise SerialException
       ∧ beam_on (toggle_beam w).2 = beam_on w).
Proof.
  intros Hdev Hopen Hon. destruct w as
    [clk jit dev gauge src act bm started ts dcs bcs prs sbtn bbtn pent onent offent perent dlg tmr].
  simpl in Hdev, Hon. subst.
  destruct p as [op wr inc]. simpl in Hopen. subst.
  destruct bm; destruct inc as [|[s| |] rest]; exec;
    repeat split; try done; try (eexists; repeat split; reflexivity).
Qed.

(** X15.  [toggle_beam] with the device connected and the source on sends B1
    or B0, by the flag, and flips the flag once the port has been read.
    It has no handler: a fault of that read leaves the callback as an
    exception, with the command out and the flag as it was, and no
    message box. *)
Theorem toggle_beam_effect (w : World) (p : Serial) :
  device w = Some p → is_open p = true → source_on w = true →
  source_on (toggle_beam w).2 = true
  ∧ dialogs (toggle_beam w).2 = dialogs w
  ∧ (∃ p', device (toggle_beam w).2 = Some p' ∧ is_open p' = true
        ∧ written p' = written p ++ [beam_command w]
        ∧ incoming p' = tail (incoming p))
  ∧ (incoming p !! 0%nat ≠ Some RxFault →
       (toggle_beam w).1 = Ok tt
       ∧ beam_on (toggle_beam w).2 = negb (beam_on w))
  ∧ (incoming p !! 0%nat = Some RxFault →
       (toggle_beam w).1 = Raise SerialException
       ∧ beam_on (toggle_beam w).2 = beam_on w).
Proof. apply toggle_beam_run. Qed.

Lemma toggle_beam_effect_witness :
  let w := set_source_on true (set_device (Some (opened [RxFault])) startup) in
  (toggle_beam w).1 = Raise SerialException
  ∧ beam_on (toggle_beam w).2 = false
  ∧ ∃ p', device (toggle_beam w).2 = Some p'
          ∧ written p' = [] ++ ["B1" +:+ cr].
Proof.
  intros w.
  destruct (toggle_beam_effect w (opened [RxFault]) eq_refl eq_refl eq_refl)
    as (_ & _ & (p' & Hp' & _ & Hwritten & _) & _ & Hfault).
  destruct (Hfault eq_refl) as [Hraise Hbeam].
  split; [exact Hraise|]. split; [exact Hbeam|].
  exists p'. split; [exact Hp' | exact Hwritten].
Defined.

(** X16.  Two presses of the beam button, with the source on and a port that
    does not fault, bring the beam flag back and send the two beam
    commands one after the other. *)
Theorem toggle_beam_twice (w : World) (p : Serial) :
  device w = Some p → is_open p = true → source_on w = true →
  incoming p !! 0%nat ≠ Some RxFault → incoming p !! 1%nat ≠ Some RxFault →
  let w' := (toggle_beam (toggle_beam w).2).2 in
  beam_on w' = beam_on w
  ∧ ∃ p', device w' = Some p'
          ∧ written p'
            = written p ++ [beam_command w;
                            (if beam_on w then "B1" else "B0") +:+ cr].
Proof.
  intros Hdev Hopen Hon Hfirst Hsecond w'.
  destruct (toggle_beam_run w p Hdev Hopen Hon)
    as (Hon1 & _ & (p1 & Hp1 & Hopen1 & Hwritten1 & Hinc1) & Hok1 & _).
  destruct (Hok1 Hfirst) as [_ Hbeam1].
  destruct (toggle_beam_run _ p1 Hp1 Hopen1 Hon1)
    as (_ & _ & (p2 & Hp2 & _ & Hwritten2 & _) & Hok2 & _).
  destruct Hok2 as [_ Hbeam2].
  { rewrite Hinc1. destruct (incoming p) as [|ev rest]; [done|]. exact Hsecond. }
  subst w'. split.
  - rewrite Hbeam2, Hbeam1. apply negb_involutive.
  - exists p2. split; [exact Hp2|].
    rewrite Hwritten2, Hwritten1, <- (assoc_L app). unfold beam_command.
    rewrite Hbeam1. by destruct (beam_on w).
Qed.

Lemma toggle_beam_twice_witness :
  let w := set_source_on true (set_device (Some (opened [])) startup) in
  beam_on (toggle_beam (toggle_beam w).2).2 = false
  ∧ ∃ p', device (toggle_beam (toggle_beam w).2).2 = Some p'
          ∧ written p' = [] ++ ["B1" +:+ cr; "B0" +:+ cr].
Proof.
  intros w.
  apply (toggle_beam_twice w (opened [])); first [reflexivity | discriminate].
Defined.

Lemma read_values_keeps_loop (force_read : bool) (active : bool)
    (started : option Z) :
  preserves (λ w, reading_active w = active ∧ start_time w = started)
    (read_values force_read).
Proof. frame history_side. Qed.

Lemma read_values_no_device (force_read : bool) (w : World) :
  device w = None ∨ (∃ p, device w = Some p ∧ is_open p = false) →
  timers (read_values force_read w).2 = timers w
  ∧ history (read_values force_read w).2 = history w
  ∧ device (read_values force_read w).2 = device w.
Proof.
  intros Hdown. remember (read_values force_read w) as r eqn:Hr.
  unfold read_values, try_except, device_absent, the_device in Hr.
  unfold bind at 1 in Hr. unfold bind at 1 in Hr.
  destruct Hdown as [Hdev | (p & Hdev & Hopen)]; rewrite Hdev in Hr.
  - by subst r.
  - unfold ret at 1 in Hr. rewrite Hopen in Hr. by subst r.
Qed.

(** X17.  The Start/Stop button.  Stopping only clears the flag.  Starting
    sets the flag and the start time and polls once; with no device
    connected the poll does nothing and schedules nothing, yet the loop
    is left marked active. *)
Theorem toggle_reading_effect (w : World) :
  (reading_active w = true →
     toggle_reading w = (Ok tt, set_reading_active false w))
  ∧ (reading_active w = false →
       (toggle_reading w).1 = Ok tt
       ∧ reading_active (toggle_reading w).2 = true
       ∧ start_time (toggle_reading w).2 = Some (clock w)
       ∧ (device w = None ∨ (∃ p, device w = Some p ∧ is_open p = false) →
          timers (toggle_reading w).2 = timers w
          ∧ history (toggle_reading w).2 = history w)).
Proof.
  split; intros Hactive.
  - unfold toggle_reading, bind, gets. by rewrite Hactive.
  - set (w1 := set_start_time (Some (clock w)) (set_reading_active true w)).
    assert (toggle_reading w = read_values false w1) as ->.
    { unfold toggle_reading, bind, gets. by rewrite Hactive. }
    destruct (read_values_returns false w1) as [w2 Hrun].
    pose proof (read_values_keeps_loop false true (Some (clock w)) w1
                  (conj eq_refl eq_refl)) as [Hflag Hstart].
    split; [by rewrite Hrun|]. split; [done|]. split; [done|].
    intros Hdown. by destruct (read_values_no_device false w1 Hdown) as (? & ? & _).
Qed.

Lemma toggle_reading_effect_witness :
  reading_active (toggle_reading startup).2 = true
  ∧ start_time (toggle_reading startup).2 = Some 0
  ∧ timers (toggle_reading startup).2 = [].
Proof.
  destruct (toggle_reading_effect startup) as [_ Hstart].
  destruct (Hstart eq_refl) as (_ & Hflag & Htime & Hdown).
  split; [exact Hflag|]. split; [exact Htime|].
  exact (proj1 (Hdown (or_introl eq_refl))).
Defined.

(** * Timed sequences in general *)

Section Dwell.
Variables (base : list string) (c : Z) (active : bool).
Variables (limit : float) (bound : Z).
Hypothesis Hwithin : within limit bound.

(** A busy loop ends once the clock has passed the limit; every poll
    takes half a second at least. *)
Lemma busy_poll_ends (sent : list string) (start : Z) (fuel : nat) (w : World) :
  sequence_inv base sent c active w →
  bound - (clock w - start) ≤ 500 * Z.of_nat fuel →
  ∃ w', busy_poll fuel start limit w = (Ok tt, w')
        ∧ sequence_inv base sent c active w'.
Proof.
  revert w. induction fuel as [|fuel IH]; intros w Hinv Hfuel;
    rewrite busy_poll_step;
    destruct (elapsed_lt (clock w - start) limit) eqn:Hlt;
    try (by exists w); apply Hwithin in Hlt; [lia|].
  destruct (read_values_returns true w) as [w1 Hpoll].
  pose proof (read_values_sequence_inv base sent c active true w Hinv) as Hinv1.
  assert (clock w ≤ clock w1) as Hclock.
  { assert (sequence_inv base sent (clock w) active w) as Hnow.
    { destruct Hinv as (? & ? & ? & ?). by repeat split. }
    apply (read_values_sequence_inv base sent (clock w) active true) in Hnow.
    rewrite Hpoll in Hnow. by destruct Hnow as (_ & ? & _). }
  rewrite Hpoll in Hinv1. simpl in Hinv1.
  unfold bind at 1. rewrite Hpoll. unfold bind, sleep, blocking, modify.
  apply IH.
  - eapply sequence_inv_frame; [exact Hinv1 | reflexivity | simpl; lia | reflexivity..].
  - simpl. lia.
Qed.

Lemma busy_poll_ends_then {B} (sent : list string) (fuel : nat) (k : M B)
    (R : B → World → Prop) :
  bound ≤ 500 * Z.of_nat fuel →
  returns (sequence_inv base sent c active) k R →
  returns (sequence_inv base sent c active)
    (start <- time_time;; busy_poll fuel start limit;; k) R.
Proof.
  intros Hfuel Hk w Hinv. unfold bind at 1, time_time, gets. cbv beta iota.
  destruct (busy_poll_ends sent (clock w) fuel w Hinv)
    as (w' & Hrun & Hinv'); [lia|].
  unfold bind. rewrite Hrun. by apply Hk.
Qed.
End Dwell.

Section Periods.
Variables (base : list string) (c : Z) (active : bool).
Variables (on_time off_time : float) (bound : Z).
Hypothesis Hon : within on_time bound.
Hypothesis Hoff : within off_time bound.

Lemma run_periods_ends (fuel periods : nat) (sent : list string) :
  bound ≤ 500 * Z.of_nat fuel →
  returns (sequence_inv base sent c active)
    (run_periods fuel periods on_time off_time)
    (λ _, sequence_inv base
            (sent ++ mjoin (replicate periods [beam_enable; beam_disable]))
            c active).
Proof.
  intros Hfuel. revert sent.
  induction periods as [|periods IH]; intros sent; simpl.
  - rewrite app_nil_r. apply returns_ret.
  - eapply returns_bind; [apply device_write_returns|]. intros ?; cbv beta.
    eapply returns_bind; [by apply sleep_returns|]. intros ?; cbv beta.
    eapply returns_bind; [apply device_read_all_returns|]. intros ?; cbv beta.
    apply (busy_poll_ends_then base c active on_time bound Hon); [done|].
    eapply returns_bind; [apply device_write_returns|]. intros ?; cbv beta.
    eapply returns_bind; [by apply sleep_returns|]. intros ?; cbv beta.
    eapply returns_bind; [apply device_read_all_returns|]. intros ?; cbv beta.
    apply (busy_poll_ends_then base c active off_time bound Hoff); [done|].
    intros w Hinv. destruct (IH _ w Hinv) as (u & w' & Hrun & Hinv').
    exists u, w'. split; [exact Hrun|].
    by rewrite <- !(assoc_L (++)) in Hinv'.
Qed.
End Periods.

(** A sequence with valid entries runs to its end. *)
Lemma create_sequence_ends (w : World) (p : Serial) (fuel : nat)
    (on_time off_time : float) (n bound : Z) :
  device w = Some p → is_open p = true → fault_free p → source_on w = true →
  py_float (on_time_entry w) = Some on_time →
  py_float (off_time_entry w) = Some off_time →
  py_int (periods_entry w) = Some n →
  float_le on_time float_zero = false → float_le off_time float_zero = false →
  0 < n →
  within on_time bound → within off_time bound →
  bound ≤ 500 * Z.of_nat fuel →
  ∃ w', create_sequence fuel w = (Ok tt, w')
        ∧ sequence_inv (written p)
            (mjoin (replicate (Z.to_nat n) [beam_enable; beam_disable]))
            (clock w) true w'.
Proof.
  intros Hdev Hopen Hfree Hsource Hon Hoff Hperiods Hon0 Hoff0 Hn
    Hwon Hwoff Hfuel.
  set (w1 := if reading_active w then set_reading_active false w else w).
  assert (sequence_inv (written p) [] (clock w) false w1) as Hinv1.
  { unfold w1. destruct (reading_active w) eqn:Hactive.
    - split; [|done]. exists p, []. by rewrite app_nil_r.
    - split; [|done]. exists p, []. by rewrite app_nil_r. }
  destruct (run_periods_ends (written p) (clock w) false on_time off_time
              bound Hwon Hwoff fuel (Z.to_nat n) [] Hfuel w1 Hinv1)
    as ([] & w2 & Hrun & Hinv2).
  simpl in Hinv2.
  unfold create_sequence, try_except, device_absent, the_device, entry_float,
    entry_int, bind, gets, ret.
  rewrite Hdev. cbv beta iota. rewrite Hopen.
  change (negb true) with false. cbv beta iota.
  rewrite Hsource. change (negb true) with false. cbv beta iota.
  assert ((if reading_active w then modify (set_reading_active false)
           else λ w4, (Ok tt, w4)) w = (Ok tt, w1)) as ->
    by (unfold w1; by destruct (reading_active w)).
  assert (on_time_entry w1 = on_time_entry w
          ∧ off_time_entry w1 = off_time_entry w
          ∧ periods_entry w1 = periods_entry w) as (Hon1 & Hoff1 & Hperiods1)
    by (unfold w1; by destruct (reading_active w)).
  cbv beta iota. rewrite Hon1, Hon. cbv beta iota.
  rewrite Hoff1, Hoff. cbv beta iota.
  rewrite Hperiods1, Hperiods. cbv beta iota.
  replace (n <=? 0) with false by (symmetry; apply Z.leb_gt; lia).
  rewrite Hon0, Hoff0.
  change (false || false || false) with false. cbv beta iota. rewrite Hrun.
  destruct Hinv2 as (Hport & Hclock & Hsource2 & Hactive2) eqn:E. clear E.
  rewrite Hactive2. change (negb false) with true. cbv beta iota.
  assert (sequence_inv (written p)
            (mjoin (replicate (Z.to_nat n) [beam_enable; beam_disable]))
            (clock w) true (set_reading_active true w2)) as Hinv3 by done.
  unfold modify.
  pose proof (read_values_sequence_inv _ _ _ _ false _ Hinv3) as Hinv4.
  destruct (read_values_returns false (set_reading_active true w2))
    as [w3 Hpoll].
  rewrite Hpoll in Hinv4 |- *. eexists. split; [reflexivity|].
  eapply sequence_inv_frame; [exact Hinv4 | reflexivity | simpl; lia | reflexivity..].
Qed.

Lemma py_float_five : py_float "5" = Some (float_of_Z 5).
Proof. vm_compute. reflexivity. Qed.

Lemma within_five : within (float_of_Z 5) 5000.
Proof.
  intros ms.
  change (float_of_Z 5) with (S754_finite false 5629499534213120 (-50)).
  unfold elapsed_lt. simpl.
  change (2 ^ (- (-50))) with 1125899906842624.
  intros Hms. apply Z.ltb_lt in Hms. lia.
Qed.

Lemma within_nan (bound : Z) : within S754_nan bound.
Proof. intros ms Hms. discriminate. Qed.

(** X18.  A timed sequence with valid entries comes to its end: with the
    device connected and not faulting, the source on, an on-time and an
    off-time above zero whose busy loops stop within [bound]
    milliseconds, [n] periods and room for a poll every half second,
    [create_sequence] returns, has sent B1, B0 [n] times over, and leaves
    the reading loop active. *)
Theorem create_sequence_terminates (w : World) (p : Serial) (fuel : nat)
    (on_time off_time : float) (n bound : Z) :
  device w = Some p → is_open p = true → fault_free p → source_on w = true →
  py_float (on_time_entry w) = Some on_time →
  py_float (off_time_entry w) = Some off_time →
  py_int (periods_entry w) = Some n →
  float_le on_time float_zero = false → float_le off_time float_zero = false →
  0 < n →
  within on_time bound → within off_time bound →
  bound ≤ 500 * Z.of_nat fuel →
  ∃ w' p' more,
    create_sequence fuel w = (Ok tt, w')
    ∧ device w' = Some p'
    ∧ written p' = written p ++ more
    ∧ beam_commands more
      = mjoin (replicate (Z.to_nat n) [beam_enable; beam_disable])
    ∧ reading_active w' = true.
Proof.
  intros Hdev Hopen Hfree Hsource Hon Hoff Hperiods Hon0 Hoff0 Hn
    Hwon Hwoff Hfuel.
  destruct (create_sequence_ends w p fuel on_time off_time n bound Hdev Hopen
              Hfree Hsource Hon Hoff Hperiods Hon0 Hoff0 Hn Hwon Hwoff Hfuel)
    as (w' & Hrun & (p' & more & Hp' & _ & _ & Hw & Hb) & _ & _ & Hactive).
  by exists w', p', more.
Qed.

Lemma create_sequence_terminates_witness :
  let w := set_source_on true (set_device (Some (opened [])) startup) in
  ∃ w' p' more,
    create_sequence 10 w = (Ok tt, w')
    ∧ device w' = Some p'
    ∧ written p' = [] ++ more
    ∧ beam_commands more
      = [beam_enable; beam_disable; beam_enable; beam_disable;
         beam_enable; beam_disable]
    ∧ reading_active w' = true.
Proof.
  intros w.
  apply (create_sequence_terminates w (opened []) 10
           (float_of_Z 5) (float_of_Z 5) 3 5000);
    first [ reflexivity | apply Forall_nil_2 | exact py_float_five
          | exact within_five | lia ].
Defined.

(** X19.  The entry "nan" passes the validation, since [nan <= 0] is false,
    and ends every busy loop at once, since [elapsed < nan] is false: the
    sequence switches the beam on and off [n] times without dwelling and
    without a single poll in between. *)
Theorem create_sequence_nan (w : World) (p : Serial) (n : Z) :
  device w = Some p → is_open p = true → fault_free p → source_on w = true →
  py_float (on_time_entry w) = Some S754_nan →
  py_float (off_time_entry w) = Some S754_nan →
  py_int (periods_entry w) = Some n → 0 < n →
  ∃ w' p' more,
    create_sequence 0 w = (Ok tt, w')
    ∧ device w' = Some p'
    ∧ written p' = written p ++ more
    ∧ beam_commands more
      = mjoin (replicate (Z.to_nat n) [beam_enable; beam_disable]).
Proof.
  intros Hdev Hopen Hfree Hsource Hon Hoff Hperiods Hn.
  destruct (create_sequence_ends w p 0 S754_nan S754_nan n 0 Hdev Hopen
              Hfree Hsource Hon Hoff Hperiods eq_refl eq_refl Hn
              (within_nan 0) (within_nan 0))
    as (w' & Hrun & (p' & more & Hp' & _ & _ & Hw & Hb) & _); [done|].
  by exists w', p', more.
Qed.

Lemma create_sequence_nan_witness :
  let w := enter_sequence "nan" "NaN" "2"
             (set_source_on true (set_device (Some (opened [])) startup)) in
  ∃ w' p' more,
    create_sequence 0 w = (Ok tt, w')
    ∧ device w' = Some p'
    ∧ written p' = [] ++ more
    ∧ beam_commands more
      = [beam_enable; beam_disable; beam_enable; beam_disable].
Proof.
  intros w.
  apply (create_sequence_nan w (opened []) 2);
    first [reflexivity | apply Forall_nil_2 | lia].
Defined.





Section Flags.
Variable Q : bool * bool * option Z * widget_state * widget_state → Prop.

Lemma flags_read_values (force_read : bool) :
  preserves (λ w, Q (source_on w, beam_on w, start_time w, source_button w,
                     beam_button w))
    (read_values force_read).
Proof. frame history_side. Qed.

#[local] Hint Resolve flags_read_values : frame.

Lemma flags_busy_poll (fuel : nat) (start : Z) (limit : float) :
  preserves (λ w, Q (source_on w, beam_on w, start_time w, source_button w,
                     beam_button w))
    (busy_poll fuel start limit).
Proof. induction fuel as [|fuel IH]; simpl; frame history_side. Qed.

#[local] Hint Resolve flags_busy_poll : frame.

Lemma flags_run_periods (fuel periods : nat) (on_time off_time : float) :
  preserves (λ w, Q (source_on w, beam_on w, start_time w, source_button w,
                     beam_button w))
    (run_periods fuel periods on_time off_time).
Proof. induction periods as [|periods IH]; simpl; frame history_side. Qed.

#[local] Hint Resolve flags_run_periods : frame.

Lemma flags_create_sequence (fuel : nat) :
  preserves (λ w, Q (source_on w, beam_on w, start_time w, source_button w,
                     beam_button w))
    (create_sequence fuel).
Proof. frame history_side. Qed.
End Flags.

(** X21.  The sequence switches the beam on and off at the device without
    touching the beam flag, which [toggle_beam] consults; nor does it
    touch the source flag, the global start time or the two buttons. *)
Theorem create_sequence_keeps_flags (fuel : nat) (w : World) :
  beam_on (create_sequence fuel w).2 = beam_on w
  ∧ source_on (create_sequence fuel w).2 = source_on w
  ∧ start_time (create_sequence fuel w).2 = start_time w
  ∧ source_button (create_sequence fuel w).2 = source_button w
  ∧ beam_button (create_sequence fuel w).2 = beam_button w.
Proof.
  pose proof (flags_create_sequence
    (λ t, t = (source_on w, beam_on w, start_time w, source_button w,
               beam_button w)) fuel w eq_refl) as H.
  injection H as -> -> -> -> ->. done.
Qed.

(** X22.  A sequence that is turned down.  With the source off the warning is
    all there is.  With the source on and an entry that is no number, or
    a value that is not above zero, nothing is sent and an error box is
    shown; by then the reading loop has been paused, and it is not
    resumed. *)
Theorem create_sequence_rejected (fuel : nat) (w : World) (p : Serial) :
  device w = Some p → is_open p = true →
  (source_on w = false →
     create_sequence fuel w
     = messagebox ShowWarning "Warning"
         "The source must be turned on before starting the sequence." None w)
  ∧ (source_on w = true →
     py_float (on_time_entry w) = None
     ∨ py_float (off_time_entry w) = None
     ∨ py_int (periods_entry w) = None
     ∨ (∃ on_time off_time periods,
          py_float (on_time_entry w) = Some on_time
          ∧ py_float (off_time_entry w) = Some off_time
          ∧ py_int (periods_entry w) = Some periods
          ∧ float_le on_time float_zero || float_le off_time float_zero
            || (periods <=? 0) = true) →
     (create_sequence fuel w).1 = Ok tt
     ∧ device (create_sequence fuel w).2 = device w
     ∧ timers (create_sequence fuel w).2 = timers w
     ∧ reading_active (create_sequence fuel w).2 = false
     ∧ reported_as ShowError w (create_sequence fuel w).2).
Proof.
  intros Hdev Hopen. split.
  - intros Hoff.
    unfold create_sequence, try_except, device_absent, the_device, bind, gets,
      ret.
    rewrite Hdev. cbv beta iota. rewrite Hopen.
    change (negb true) with false. cbv beta iota. by rewrite Hoff.
  - intros Hsource Hbad.
    set (w1 := if reading_active w then set_reading_active false w else w).
    assert (device w1 = device w ∧ timers w1 = timers w
            ∧ reading_active w1 = false ∧ dialogs w1 = dialogs w)
      as (Hdev1 & Htimers1 & Hactive1 & Hdialogs1)
      by (unfold w1; by destruct (reading_active w) eqn:E).
    remember (create_sequence fuel w) as r eqn:Hr.
    unfold create_sequence, try_except, device_absent, the_device, entry_float,
      entry_int, bind, gets, ret in Hr.
    rewrite Hdev in Hr. cbv beta iota in Hr. rewrite Hopen in Hr.
    change (negb true) with false in Hr. cbv beta iota in Hr.
    rewrite Hsource in Hr. change (negb true) with false in Hr.
    cbv beta iota in Hr.
    assert ((if reading_active w then modify (set_reading_active false)
             else λ w4, (Ok tt, w4)) w = (Ok tt, w1)) as Hpause
      by (unfold w1; by destruct (reading_active w)).
    rewrite Hpause in Hr. clear Hpause.
    assert (on_time_entry w1 = on_time_entry w
            ∧ off_time_entry w1 = off_time_entry w
            ∧ periods_entry w1 = periods_entry w) as (Hon1 & Hoff1 & Hperiods1)
      by (unfold w1; by destruct (reading_active w)).
    cbv beta iota in Hr. unfold reported_as.
    assert (∀ d, r = (Ok tt, set_dialogs (dialogs w1 ++ [d]) w1) →
              kind d = ShowError →
              r.1 = Ok tt ∧ device r.2 = device w ∧ timers r.2 = timers w
              ∧ reading_active r.2 = false
              ∧ ∃ d, kind d = ShowError ∧ dialogs r.2 = dialogs w ++ [d])
      as Hshown.
    { intros d -> Hd. simpl. rewrite Hdialogs1. repeat split; try done.
      by exists d. }
    rewrite Hon1 in Hr.
    destruct (py_float (on_time_entry w)) as [on_time|]; cbv beta iota in Hr;
      [|eapply Hshown; [exact Hr | reflexivity]].
    rewrite Hoff1 in Hr.
    destruct (py_float (off_time_entry w)) as [off_time|]; cbv beta iota in Hr;
      [|eapply Hshown; [exact Hr | reflexivity]].
    rewrite Hperiods1 in Hr.
    destruct (py_int (periods_entry w)) as [periods|]; cbv beta iota in Hr;
      [|eapply Hshown; [exact Hr | reflexivity]].
    destruct Hbad as [? | [? | [? | (a & b & n & [= <-] & [= <-] & [= <-] & Hle)]]];
      try done.
    rewrite Hle in Hr. eapply Hshown; [exact Hr | reflexivity].
Qed.

Lemma create_sequence_rejected_witness :
  let w := enter_sequence "5" "0" "3"
             (set_reading_active true
                (set_source_on true (set_device (Some (opened [])) startup))) in
  reading_active w = true
  ∧ reading_active (create_sequence 0 w).2 = false
  ∧ reported_as ShowError w (create_sequence 0 w).2.
Proof.
  intros w. split; [reflexivity|].
  destruct (create_sequence_rejected 0 w (opened []) eq_refl eq_refl)
    as [_ Hbad].
  destruct (Hbad eq_refl) as (_ & _ & _ & Hactive & Herror).
  - do 3 right. exists (float_of_Z 5), float_zero, 3.
    repeat split; vm_compute; reflexivity.
  - split; [exact Hactive | exact Herror].
Defined.

(** Walks down a callback whose steps keep [S0], to show it ends in
    [Q0], which [S0] implies. *)
Ltac hoare_descend S0 side :=
  repeat first
    [ apply hoare_bind with S0;
      [ lazymatch goal with
        | |- hoare _ ?m _ => change (preserves S0 m)
        end; solve [frame side]
      | by left | intros ?]
    | lazymatch goal with
      | |- hoare _ (if ?b then _ else _) _ =>
        destruct b; [apply hoare_weaken; [solve [frame side] | by left]|]
      end ].

(** A poll calls [root.after] at its end, once, and only when it is not
    a forced one. *)
Lemma read_values_timers (force_read : bool) (ts : list (Z * callback)) :
  hoare (λ w, timers w = ts) (read_values force_read)
    (λ w, timers w = ts
          ∨ (force_read = false ∧ timers w = ts ++ [(1000, CbReadValues)])).
Proof.
  unfold read_values.
  apply hoare_try_except with
    (λ w, timers w = ts
          ∨ (force_read = false ∧ timers w = ts ++ [(1000, CbReadValues)]));
    [|done|by intros e w Hw].
  hoare_descend (λ w : World, timers w = ts) history_side.
  intros w Hw. right. split; [done|]. simpl. by rewrite Hw.
Qed.

Section Timers.
Variable ts : list (Z * callback).

Lemma timers_forced_read : preserves (λ w, timers w = ts) (read_values true).
Proof.
  intros w Hw. by destruct (read_values_timers true ts w Hw) as [? | [? _]].
Qed.

#[local] Hint Resolve timers_forced_read : frame.

Lemma timers_busy_poll (fuel : nat) (start : Z) (limit : float) :
  preserves (λ w, timers w = ts) (busy_poll fuel start limit).
Proof. induction fuel as [|fuel IH]; simpl; frame history_side. Qed.

#[local] Hint Resolve timers_busy_poll : frame.

Lemma timers_run_periods (fuel periods : nat) (on_time off_time : float) :
  preserves (λ w, timers w = ts) (run_periods fuel periods on_time off_time).
Proof. induction periods as [|periods IH]; simpl; frame history_side. Qed.

#[local] Hint Resolve timers_run_periods : frame.

Lemma timers_create_sequence (fuel : nat) :
  hoare (λ w, timers w = ts) (create_sequence fuel)
    (λ w, timers w = ts ∨ timers w = ts ++ [(1000, CbReadValues)]).
Proof.
  unfold create_sequence.
  apply hoare_try_except with
    (λ w, timers w = ts ∨ timers w = ts ++ [(1000, CbReadValues)]);
    [|done|by intros e w Hw].
  hoare_descend (λ w : World, timers w = ts) history_side.
  apply hoare_bind with
    (λ w, timers w = ts ∨ timers w = ts ++ [(1000, CbReadValues)]);
    [|done|by intros ? w Hw].
  match goal with |- hoare _ (if ?b then _ else _) _ => destruct b end.
  - apply hoare_bind with (λ w : World, timers w = ts);
      [by intros w Hw | by left |].
    intros _ w Hw.
    destruct (read_values_timers false ts w Hw) as [? | [_ ?]]; [by left | by right].
  - apply hoare_weaken; [apply preserves_ret | by left].
Qed.
End Timers.

(** X23.  The polls a sequence makes between its beam commands are forced
    ones, which schedule nothing; the one call of [root.after] a
    sequence can make is that of the poll by which it resumes the
    reading loop. *)
Theorem create_sequence_schedules_once (fuel : nat) (w : World) :
  timers (read_values true w).2 = timers w
  ∧ (timers (create_sequence fuel w).2 = timers w
     ∨ timers (create_sequence fuel w).2 = timers w ++ [(1000, CbReadValues)]).
Proof.
  split.
  - by apply timers_forced_read.
  - by apply timers_create_sequence.
Qed.

(** * The setpoints *)

(** One turn of the loop of [set_values] that sends a command. *)
Lemma send_setpoint_step (command : string) (w : World) (p : Serial) :
  device w = Some p → is_open p = true →
  ∃ w',
    device w' = Some {| is_open := true; written := written p ++ [command];
                        incoming := tail (incoming p) |}
    ∧ dialogs w' = dialogs w
    ∧ (device_write command;; sleep 500;; raw <- device_read_all;;
       response <- decode raw;; ret tt) w
      = (match incoming p !! 0%nat ≫= read_error with
         | Some e => Raise e
         | None => Ok tt
         end, w').
Proof.
  intros Hdev Hopen.
  exists ((device_write command;; sleep 500;; raw <- device_read_all;;
           response <- decode raw;; ret tt) w).2.
  destruct w as
    [clk jit dev gauge src act bm started ts dcs bcs prs sbtn bbtn pent onent
     offent perent dlg tmr].
  simpl in Hdev. subst.
  destruct p as [op wr inc]. simpl in Hopen. subst.
  destruct inc as [|[s| |] rest]; exec; repeat split; reflexivity.
Qed.

Lemma send_setpoints_cons (command : string) (value : setting)
    (rest : list (string * setting)) (w : World) :
  send_setpoints ((command, value) :: rest) w
  = if truthy value then
      match (device_write (command +:+ format_setting value +:+ cr);;
             sleep 500;; raw <- device_read_all;;
             response <- decode raw;; ret tt) w with
      | (Ok _, w') => send_setpoints rest w'
      | (Raise e, w') => (Raise e, w')
      | (OutOfFuel, w') => (OutOfFuel, w')
      end
    else send_setpoints rest w.
Proof. simpl. unfold bind at 1. by destruct (truthy value). Qed.

(** The loop on a port whose reads all go well. *)
Lemma send_setpoints_all (values : list (string * setting)) (w : World)
    (p : Serial) :
  device w = Some p → is_open p = true →
  (∀ k ev, (k < length (setpoint_commands values))%nat →
     incoming p !! k = Some ev → read_error ev = None) →
  ∃ w',
    send_setpoints values w = (Ok tt, w')
    ∧ device w'
      = Some {| is_open := true;
                written := written p ++ setpoint_commands values;
                incoming := drop (length (setpoint_commands values))
                              (incoming p) |}
    ∧ dialogs w' = dialogs w.
Proof.
  revert w p. induction values as [|[command value] rest IH];
    intros w p Hdev Hopen Hgood.
  - exists w. simpl. rewrite app_nil_r, Hdev. destruct p. simpl in Hopen.
    by subst.
  - rewrite send_setpoints_cons. simpl in Hgood |- *.
    destruct (truthy value); simpl in Hgood |- *.
    + destruct (send_setpoint_step (command +:+ format_setting value +:+ cr)
                  w p Hdev Hopen) as (w1 & Hdev1 & Hdialogs1 & ->).
      assert (incoming p !! 0%nat ≫= read_error = None) as ->.
      { destruct (incoming p) as [|ev inc] eqn:Hinc; [done|]. simpl.
        apply (Hgood 0%nat ev); [lia | done]. }
      destruct (IH w1 _ Hdev1 eq_refl) as (w' & Hrun & Hdev' & Hdialogs').
      { intros k ev Hk Hev. simpl in Hev. apply (Hgood (S k) ev); [lia|].
        destruct (incoming p) as [|ev0 inc]; [done|]. exact Hev. }
      exists w'. split; [exact Hrun|]. split; [|congruence].
      rewrite Hdev'. simpl. rewrite <- (assoc_L app). do 2 f_equal.
      destruct (incoming p); simpl; [by rewrite ?drop_nil | done].
    + by apply IH.
Qed.

(** The loop on a port whose read number [k] is the first to go wrong. *)
Lemma send_setpoints_stops (values : list (string * setting)) (w : World)
    (p : Serial) (k : nat) (ev : rx_event) (e : exn) :
  device w = Some p → is_open p = true →
  (k < length (setpoint_commands values))%nat →
  incoming p !! k = Some ev → read_error ev = Some e →
  (∀ j ev', (j < k)%nat → incoming p !! j = Some ev' → read_error ev' = None) →
  ∃ w',
    send_setpoints values w = (Raise e, w')
    ∧ device w'
      = Some {| is_open := true;
                written := written p ++ take (S k) (setpoint_commands values);
                incoming := drop (S k) (incoming p) |}
    ∧ dialogs w' = dialogs w.
Proof.
  revert w p k. induction values as [|[command value] rest IH];
    intros w p k Hdev Hopen Hk Hev Hbad Hgood; [simpl in Hk; lia|].
  rewrite send_setpoints_cons. simpl in Hk |- *.
  destruct (truthy value); simpl in Hk |- *; [|by apply IH].
  destruct (send_setpoint_step (command +:+ format_setting value +:+ cr)
              w p Hdev Hopen) as (w1 & Hdev1 & Hdialogs1 & ->).
  destruct k as [|k].
  - rewrite Hev. simpl. rewrite Hbad. exists w1. split; [done|].
    split; [|done]. rewrite Hdev1, take_0. do 2 f_equal.
  - assert (incoming p !! 0%nat ≫= read_error = None) as ->.
    { destruct (incoming p) as [|ev0 inc] eqn:Hinc; [done|]. simpl.
      apply (Hgood 0%nat ev0); [lia | done]. }
    destruct (IH w1 _ k Hdev1 eq_refl) as (w' & Hrun & Hdev' & Hdialogs');
      [lia | | exact Hbad | |].
    { simpl. destruct (incoming p) as [|ev0 inc]; [done|]. exact Hev. }
    { intros j ev' Hj Hev'. apply (Hgood (S j) ev'); [lia|].
      simpl in Hev'. destruct (incoming p) as [|ev0 inc]; [done|]. exact Hev'. }
    exists w'. split; [exact Hrun|]. split; [|congruence].
    rewrite Hdev'. simpl. rewrite <- (assoc_L app). do 2 f_equal.
    destruct (incoming p); simpl; [by rewrite ?drop_nil | done].
Qed.

Lemma setpoint_commands_setpoints (discharge_entry beam_entry
    accelerator_entry : string) :
  setpoint_commands (setpoints discharge_entry beam_entry accelerator_entry)
  = ["AE1" +:+ cr] ++ entry_command "DV" discharge_entry
    ++ entry_command "BV" beam_entry ++ entry_command "AV" accelerator_entry
    ++ ["AB20" +:+ cr; "AC1" +:+ cr; "CL8" +:+ cr; "DT0.16" +:+ cr;
        "BE40" +:+ cr; "BI18" +:+ cr; "NL0.02" +:+ cr; "NE1" +:+ cr].
Proof.
  unfold entry_command.
  destruct discharge_entry, beam_entry, accelerator_entry; reflexivity.
Qed.

(** X24.  [set_values] on a connected device sends every setpoint in the order
    of the dictionary: the nine constants always, the three entries as
    they stand, without any check, and none for an empty entry.  When
    every reply reads and decodes, it ends with the info box. *)
Theorem set_values_commands (discharge_entry beam_entry accelerator_entry
    : string) (w : World) (p : Serial) :
  device w = Some p → is_open p = true →
  Forall (λ ev, read_error ev = None) (incoming p) →
  ∃ w' p',
    set_values discharge_entry beam_entry accelerator_entry w = (Ok tt, w')
    ∧ device w' = Some p'
    ∧ written p'
      = written p ++ ["AE1" +:+ cr] ++ entry_command "DV" discharge_entry
        ++ entry_command "BV" beam_entry
        ++ entry_command "AV" accelerator_entry
        ++ ["AB20" +:+ cr; "AC1" +:+ cr; "CL8" +:+ cr; "DT0.16" +:+ cr;
            "BE40" +:+ cr; "BI18" +:+ cr; "NL0.02" +:+ cr; "NE1" +:+ cr]
    ∧ dialogs w'
      = dialogs w ++ [ {| kind := ShowInfo; title := "Success";
                          message := "Values set successfully.";
                          cause := None |} ].
Proof.
  intros Hdev Hopen Hgood.
  destruct (send_setpoints_all
              (setpoints discharge_entry beam_entry accelerator_entry) w p
              Hdev Hopen) as (w1 & Hrun & Hdev1 & Hdialogs1).
  { intros k ev _ Hev. rewrite Forall_forall in Hgood. apply Hgood.
    by apply list_elem_of_lookup_2 with k. }
  rewrite setpoint_commands_setpoints in Hdev1.
  unfold set_values, try_except, device_absent, the_device.
  unfold bind at 1. unfold bind at 1. rewrite Hdev. unfold ret at 1.
  rewrite Hopen. change (negb true) with false. cbv beta iota.
  unfold bind at 1. rewrite Hrun. eexists _, _.
  split; [reflexivity|]. split; [exact Hdev1|]. split; [reflexivity|].
  simpl. by rewrite Hdialogs1.
Qed.

Lemma set_values_commands_witness :
  let w := set_device (Some (opened [RxText "ok"; RxText "ok"])) startup in
  ∃ w' p',
    set_values "40" "" "60" w = (Ok tt, w')
    ∧ device w' = Some p'
    ∧ written p'
      = ["AE1" +:+ cr; "DV40" +:+ cr; "AV60" +:+ cr; "AB20" +:+ cr;
         "AC1" +:+ cr; "CL8" +:+ cr; "DT0.16" +:+ cr; "BE40" +:+ cr;
         "BI18" +:+ cr; "NL0.02" +:+ cr; "NE1" +:+ cr].
Proof.
  intros w.
  destruct (set_values_commands "40" "" "60" w _ eq_refl eq_refl)
    as (w' & p' & Hrun & Hdev & Hwritten & _).
  - repeat constructor.
  - exists w', p'. split; [exact Hrun|]. split; [exact Hdev | exact Hwritten].
Defined.

(** X25.  [set_values] has no way back: when the read after the command number
    [k] faults or gives bytes that do not decode, the commands up to that
    one have been sent, the rest is not, and the error box is shown.
    With no open port nothing is sent at all. *)
Theorem set_values_stops (discharge_entry beam_entry accelerator_entry
    : string) (w : World) (p : Serial) :
  device w = Some p →
  (is_open p = false →
     set_values discharge_entry beam_entry accelerator_entry w
     = messagebox ShowError "Error" "Device is not connected." None w)
  ∧ (∀ k ev e,
       is_open p = true →
       (k < length (setpoint_commands
                      (setpoints discharge_entry beam_entry
                         accelerator_entry)))%nat →
       incoming p !! k = Some ev → read_error ev = Some e →
       (∀ j ev', (j < k)%nat → incoming p !! j = Some ev' →
          read_error ev' = None) →
       ∃ w' p',
         set_values discharge_entry beam_entry accelerator_entry w
         = (Ok tt, w')
         ∧ device w' = Some p'
         ∧ written p'
           = written p
             ++ take (S k) (setpoint_commands
                              (setpoints discharge_entry beam_entry
                                 accelerator_entry))
         ∧ dialogs w'
           = dialogs w ++ [ {| kind := ShowError; title := "Error";
                               message := "Failed to set values: ";
                               cause := Some e |} ]).
Proof.
  intros Hdev. split.
  - intros Hclosed.
    unfold set_values, try_except, device_absent, the_device.
    unfold bind at 1. unfold bind at 1. rewrite Hdev. unfold ret at 1.
    by rewrite Hclosed.
  - intros k ev e Hopen Hk Hev Hbad Hgood.
    destruct (send_setpoints_stops _ w p k ev e Hdev Hopen Hk Hev Hbad Hgood)
      as (w1 & Hrun & Hdev1 & Hdialogs1).
    unfold set_values, try_except, device_absent, the_device.
    unfold bind at 1. unfold bind at 1. rewrite Hdev. unfold ret at 1.
    rewrite Hopen. change (negb true) with false. cbv beta iota.
    unfold bind at 1. rewrite Hrun. eexists _, _.
    split; [reflexivity|]. split; [exact Hdev1|]. split; [reflexivity|].
    simpl. by rewrite Hdialogs1.
Qed.

Lemma set_values_stops_witness :
  let w := set_device (Some (opened [RxText "ok"; RxFault])) startup in
  ∃ w' p',
    set_values "40" "400" "60" w = (Ok tt, w')
    ∧ device w' = Some p'
    ∧ written p' = ["AE1" +:+ cr; "DV40" +:+ cr]
    ∧ map kind (dialogs w') = [ShowError].
Proof.
  intros w.
  destruct (set_values_stops "40" "400" "60" w _ eq_refl) as [_ Hstops].
  destruct (Hstops 1%nat RxFault SerialException eq_refl) as
    (w' & p' & Hrun & Hdev & Hwritten & Hdialogs).
  - vm_compute. lia.
  - reflexivity.
  - reflexivity.
  - intros j ev' Hj Hev'. destruct j as [|j]; [|lia].
    injection Hev' as <-. reflexivity.
  - exists w', p'. split; [exact Hrun|]. split; [exact Hdev|].
    split; [exact Hwritten|]. rewrite Hdialogs. reflexivity.
Defined.

(** * Opening and closing the ports *)

(** X26.  [connect_to_maxigauge] cannot fail: [MaxiGauge.connect] takes the
    SerialException of a port that does not open and leaves the
    connection None.  So the message box of [connect_to_maxigauge] is
    never shown and [maxigauge] is never set to None; a gauge that is
    not there goes unreported. *)
Theorem connect_to_maxigauge_silent (opening : option (list rx_event))
    (w : World) :
  (connect_to_maxigauge opening w).1 = Ok tt
  ∧ maxigauge (connect_to_maxigauge opening w).2
    = Some (Some {| connection := opened <$> opening |})
  ∧ dialogs (connect_to_maxigauge opening w).2 = dialogs w
  ∧ device (connect_to_maxigauge opening w).2 = device w.
Proof. destruct opening; repeat split; reflexivity. Qed.

Lemma get_pressure_gauge_down (sensor : Z) :
  preserves (λ w, gauge_down w ∧ source_button w = DISABLED)
    (get_pressure sensor).
Proof.
  intros w [Hdown Hbutton].
  enough (get_pressure sensor w = (Ok None, w)
          ∨ ∃ e, get_pressure sensor w = (Raise e, w))
    as [-> | [e ->]] by done.
  unfold get_pressure.
  destruct (negb ((1 <=? sensor) && (sensor <=? 6))); [by left|].
  unfold gauge_down, gauge_port in Hdown.
  unfold not_connected, self_connection. unfold bind, ret.
  destruct (maxigauge w) as [[[[p|]]|]|];
    [| by left | right; by exists AttributeError | right; by exists NameError].
  cbn [connection] in Hdown |- *. rewrite Hdown. by left.
Qed.

Lemma update_pressure_gauge_down :
  preserves (λ w, gauge_down w ∧ source_button w = DISABLED) update_pressure.
Proof.
  intros w [Hdown Hbutton].
  enough (∃ w', update_pressure w = (Ok tt, w') ∧ maxigauge w' = maxigauge w
                ∧ source_button w' = DISABLED) as (w' & -> & Hsame & Hdisabled).
  { split; [|done]. unfold gauge_down, gauge_port in *. simpl.
    by rewrite Hsame. }
  unfold gauge_down, gauge_port in Hdown.
  unfold update_pressure, try_except, maxigauge_absent. unfold bind.
  destruct (maxigauge w) as [[[[p|]]|]|] eqn:Hg; [|by eexists..].
  cbn [connection] in Hdown |- *. rewrite Hdown. by eexists.
Qed.

Section GaugeDown.
#[local] Hint Resolve get_pressure_gauge_down update_pressure_gauge_down
  : frame.

Lemma read_values_gauge_down (force_read : bool) :
  preserves (λ w, gauge_down w ∧ source_button w = DISABLED)
    (read_values force_read).
Proof. frame history_side. Qed.

#[local] Hint Resolve read_values_gauge_down : frame.

Lemma busy_poll_gauge_down (fuel : nat) (start : Z) (limit : float) :
  preserves (λ w, gauge_down w ∧ source_button w = DISABLED)
    (busy_poll fuel start limit).
Proof. induction fuel as [|fuel IH]; simpl; frame history_side. Qed.

#[local] Hint Resolve busy_poll_gauge_down : frame.

Lemma run_periods_gauge_down (fuel periods : nat) (on_time off_time : float) :
  preserves (λ w, gauge_down w ∧ source_button w = DISABLED)
    (run_periods fuel periods on_time off_time).
Proof. induction periods as [|periods IH]; simpl; frame history_side. Qed.

#[local] Hint Resolve run_periods_gauge_down : frame.

Lemma run_gauge_down (a : action) :
  preserves (λ w, gauge_down w ∧ source_button w = DISABLED) (run a).
Proof. destruct a; simpl; frame history_side. Qed.
End GaugeDown.

Lemma gauge_down_trace (trace : list action) (w : World) :
  gauge_down w ∧ source_button w = DISABLED →
  gauge_down (foldl step w trace)
  ∧ source_button (foldl step w trace) = DISABLED.
Proof.
  revert w. induction trace as [|a trace IH]; intros w Hw; [done|].
  simpl. apply IH. by apply run_gauge_down.
Qed.

(** X27.  Nothing in the window reconnects the gauge.  When its port did not
    open at startup, the first interlock tick disables the source
    button, and whatever the user then does, and however often the
    callbacks run, it stays disabled. *)
Theorem gauge_never_found (w : World) (trace : list action) :
  source_button
    (foldl step (connect_to_maxigauge None w).2 (UpdatePressure :: trace))
  = DISABLED.
Proof.
  change (foldl step (connect_to_maxigauge None w).2 (UpdatePressure :: trace))
    with (foldl step (step (connect_to_maxigauge None w).2 UpdatePressure) trace).
  apply gauge_down_trace. split; [exact I | reflexivity].
Qed.

(** X28.  Without an open gauge port the source button, once disabled, stays
    disabled along every trace of callbacks. *)
Theorem gauge_down_keeps_source_disabled (trace : list action) (w : World) :
  gauge_down w → source_button w = DISABLED →
  gauge_down (foldl step w trace)
  ∧ source_button (foldl step w trace) = DISABLED.
Proof. intros Hdown Hbutton. by apply gauge_down_trace. Qed.

Lemma gauge_down_keeps_source_disabled_witness :
  let w := set_source_button DISABLED
             (set_maxigauge (Some None)
                (set_device (Some (opened [])) startup)) in
  source_button
    (foldl step w [ToggleSource; UpdatePressure; ToggleReading; ToggleBeam])
  = DISABLED.
Proof.
  intros w.
  exact (proj2 (gauge_down_keeps_source_disabled
                  [ToggleSource; UpdatePressure; ToggleReading; ToggleBeam] w
                  I eq_refl)).
Defined.

(** X29.  [connect_to_device] binds [device] as soon as the port opens, and
    sends the query A.  The message box tells how the answer read: info
    for a text that is not blank, a warning for none, and Connection
    Failed for a fault or bytes that do not decode, although the port is
    open and bound by then.  When the port does not open, [device] stays
    as it was. *)
Theorem connect_to_device_effect (opening : option (list rx_event))
    (w : World) :
  (connect_to_device opening w).1 = Ok tt
  ∧ (opening = None →
     device (connect_to_device opening w).2 = device w
     ∧ reported_as ShowError w (connect_to_device opening w).2)
  ∧ (∀ script, opening = Some script →
     device (connect_to_device opening w).2
     = Some {| is_open := true; written := ["A" +:+ cr];
               incoming := tail script |}
     ∧ reported_as
         match script with
         | [] => ShowWarning
         | RxText s :: _ => if nonempty (strip s) then ShowInfo else ShowWarning
         | _ => ShowError
         end w (connect_to_device opening w).2).
Proof.
  split; [|split].
  - destruct w as
    [clk jit dev gauge src act bm started ts dcs bcs prs sbtn bbtn pent onent offent perent dlg tmr].
  destruct opening as [[|[s| |] rest]|]; try reflexivity.
    exec. destruct (strip s); reflexivity.
  - intros ->. destruct w as
    [clk jit dev gauge src act bm started ts dcs bcs prs sbtn bbtn pent onent offent perent dlg tmr].
  split; [reflexivity|].
    eexists. split; [|reflexivity]. reflexivity.
  - intros script ->. destruct w as
    [clk jit dev gauge src act bm started ts dcs bcs prs sbtn bbtn pent onent offent perent dlg tmr].
  unfold reported_as.
    destruct script as [|[s| |] rest].
    + split; [reflexivity|]. eexists. split; [|reflexivity]. reflexivity.
    + exec. destruct (strip s); (split; [reflexivity|]);
        (eexists; split; [|reflexivity]; reflexivity).
    + split; [reflexivity|]. eexists. split; [|reflexivity]. reflexivity.
    + split; [reflexivity|]. eexists. split; [|reflexivity]. reflexivity.
Qed.

Lemma connect_to_device_effect_witness :
  device (connect_to_device (Some [RxGarbage]) startup).2
  = Some {| is_open := true; written := ["A" +:+ cr]; incoming := [] |}
  ∧ reported_as ShowError startup
      (connect_to_device (Some [RxGarbage]) startup).2
  ∧ device (connect_to_device None startup).2 = None.
Proof.
  destruct (connect_to_device_effect (Some [RxGarbage]) startup)
    as (_ & _ & Hopened).
  destruct (connect_to_device_effect None startup) as (_ & Hfailed & _).
  destruct (Hopened _ eq_refl) as [Hdev Herror].
  split; [exact Hdev|]. split; [exact Herror|].
  exact (proj1 (Hfailed eq_refl)).
Defined.

(** X30.  [MaxiGauge.disconnect] closes an open connection and does nothing
    otherwise; after it the gauge is not connected, so that a query
    returns None without any traffic. *)
Theorem disconnect_then_query (command : string) (w : World) (g : MaxiGauge) :
  maxigauge w = Some (Some g) →
  (disconnect w).1 = Ok tt
  ∧ gauge_down (disconnect w).2
  ∧ gauge_port (disconnect w).2
    = (λ p, {| is_open := false; written := written p;
               incoming := incoming p |}) <$> connection g
  ∧ send_command command (disconnect w).2 = (Ok None, (disconnect w).2).
Proof.
  intros Hg. destruct w as
    [clk jit dev gauge src act bm started ts dcs bcs prs sbtn bbtn pent onent offent perent dlg tmr].
  simpl in Hg. subst.
  destruct g as [[[[] wr inc]|]]; repeat split; reflexivity.
Qed.

Lemma disconnect_then_query_witness :
  let g := {| connection := Some (opened [RxText "ack"]) |} in
  let w := set_maxigauge (Some (Some g)) startup in
  gauge_down (disconnect w).2
  ∧ send_command "PR3" (disconnect w).2 = (Ok None, (disconnect w).2).
Proof.
  intros g w.
  destruct (disconnect_then_query "PR3" w g eq_refl) as (_ & Hdown & _ & Hquery).
  split; [exact Hdown | exact Hquery].
Defined.
